(** * xopen: transparent opening of compressed files

    A shallow embedding of [src/xopen/__init__.py].  The module talks to the
    operating system (files, subprocesses, the standard codecs); those are
    represented by a read-only [World] of oracles, and every call the code
    makes to them is appended to a trace of [event]s.  A computation is a
    pair of the trace it produced and either a value or a raised exception. *)

From Stdlib Require Import String Ascii List ZArith Lia Bool DecimalString.
From Stdlib.Strings Require Import Byte.
Import ListNotations.
Open Scope string_scope.
Open Scope list_scope.

(** ** Python built-ins used by the module *)

Module Py.

(** [s.endswith(suf)]: some tail of [s] is exactly [suf]. *)
Fixpoint endswith (s suf : string) : bool :=
  if String.eqb s suf then true
  else match s with
       | EmptyString => false
       | String _ s' => endswith s' suf
       end.

(** [c in s] for a one-character needle. *)
Fixpoint char_in (c : ascii) (s : string) : bool :=
  match s with
  | EmptyString => false
  | String d s' => Ascii.eqb c d || char_in c s'
  end.

(** [s in (t1, ..., tn)] on strings. *)
Fixpoint str_in (s : string) (ts : list string) : bool :=
  match ts with
  | [] => false
  | t :: ts' => String.eqb s t || str_in s ts'
  end.

(** [str(n)] for an int. *)
Definition str (z : Z) : string := NilZero.string_of_int (Z.to_int z).

(** [n in range(lo, hi)] for an int [n]. *)
Definition in_range (n lo hi : Z) : bool := (lo <=? n)%Z && (n <? hi)%Z.

(** [bs == expected] on bytes. *)
Fixpoint bytes_eqb (a b : list byte) : bool :=
  match a, b with
  | [], [] => true
  | x :: a', y :: b' => Byte.eqb x y && bytes_eqb a' b'
  | _, _ => false
  end.

(** [signal.SIGTERM] *)
Definition SIGTERM : Z := 15.

End Py.

(** ** Exceptions and the trace monad *)

Inductive exn : Type :=
| ValueError (msg : string)
| UnicodeDecodeError            (* a subclass of ValueError *)
| KeyError (key : string)
| IndexError
| AttributeError
| FileNotFoundError
| OSError (msg : string)
| UnsupportedOperation (msg : string).

(** [except OSError] also catches its subclass [FileNotFoundError]. *)
Definition is_OSError (e : exn) : bool :=
  match e with
  | FileNotFoundError | OSError _ => true
  | _ => false
  end.

Definition is_FileNotFoundError (e : exn) : bool :=
  match e with
  | FileNotFoundError => true
  | _ => false
  end.

(** [except ValueError] also catches its subclass [UnicodeDecodeError]. *)
Definition is_ValueError (e : exn) : bool :=
  match e with
  | ValueError _ | UnicodeDecodeError => true
  | _ => false
  end.

Inductive format : Type := gz | bz2 | xz.

Definition format_eqb (a b : format) : bool :=
  match a, b with
  | gz, gz | bz2, bz2 | xz, xz => true
  | _, _ => false
  end.

(** What the code asks of the operating system, in order. *)
Inductive event : Type :=
| EvStat (path : string)                       (* os.stat(path) *)
| EvSniff (path : string) (n : nat)            (* open(path, "rb"); read(n) *)
| EvOpen (path mode : string)                  (* open(path, mode) *)
| EvOpenFd (fd : Z) (mode : string)            (* open(fd, mode, closefd=False) *)
| EvCodecOpen (c : format) (path mode : string) (level : option Z)
| EvSpawn (args : list string)                 (* Popen(args) started a process *)
| EvSpawnFailed (args : list string)           (* Popen(args) raised *)
| EvRun (args : list string)                   (* subprocess.run(args) ran a process *)
| EvRunFailed (args : list string)             (* subprocess.run(args) found no program *)
| EvSleep
| EvPoll (prog : string)
| EvTerminate (prog : string)
| EvWait (prog : string)
| EvReadStderr (prog : string)
| EvClose (what : string).

Inductive result (A : Type) : Type :=
| Return (a : A)
| Raise (e : exn).
Arguments Return {A} a.
Arguments Raise {A} e.

Definition M (A : Type) : Type := (list event * result A)%type.

Definition ret {A} (a : A) : M A := ([], Return a).
Definition raise {A} (e : exn) : M A := ([], Raise e).
Definition emit (ev : event) : M unit := ([ev], Return tt).

Definition bind {A B} (m : M A) (k : A -> M B) : M B :=
  match m with
  | (t, Return a) => let (t', r) := k a in (t ++ t', r)
  | (t, Raise e) => (t, Raise e)
  end.

(** [try: m  except <handles>: h] *)
Definition try_except {A} (m : M A) (handles : exn -> bool) (h : exn -> M A) : M A :=
  match m with
  | (t, Raise e) =>
      if handles e then let (t', r) := h e in (t ++ t', r) else (t, Raise e)
  | _ => m
  end.

Definition trace {A} (m : M A) : list event := fst m.
Definition outcome {A} (m : M A) : result A := snd m.

Declare Scope py_scope.
Delimit Scope py_scope with py.
Notation "x <- c ;; k" := (bind c (fun x => k))
  (at level 100, c at next level, right associativity) : py_scope.
Notation "c ;;; k" := (bind c (fun _ => k))
  (at level 100, right associativity) : py_scope.
Open Scope py_scope.

(** ** The world the module runs in *)

Inductive os_error : Type :=
| ENOENT                      (* surfaces as FileNotFoundError *)
| EOTHER (msg : string).      (* any other OSError *)

Definition exn_of_os_error (e : os_error) : exn :=
  match e with
  | ENOENT => FileNotFoundError
  | EOTHER msg => OSError msg
  end.

(** How [os.stat] fails: with an OSError, or with the ValueError it raises
    for a name that holds a null character. *)
Inductive stat_failure : Type :=
| StatOSError
| StatEmbeddedNull.

Record World : Type := {
  (** [os.stat(path)]: [None] when it raises, else whether
      [S_ISREG(st_mode)]. *)
  stat_isreg : string -> option bool;
  (** what [os.stat(path)] raises when it does *)
  stat_raises : string -> stat_failure;
  (** content of a file opened with ["rb"]; [None] when that raises OSError *)
  file_bytes : string -> option (list byte);
  (** failure of the built-in [open(path, mode)], if any *)
  open_error : string -> string -> option os_error;
  (** failure of [open(fd, mode, closefd=False)], if any *)
  fdopen_error : Z -> string -> option os_error;
  (** failure of [Popen([program, ...])], if any *)
  popen_error : string -> option os_error;
  (** whether [subprocess.run([program, ...])] finds the program *)
  run_finds : string -> bool;
  (** exit status and standard output of [program -c -d <fixture>] *)
  probe_run : string -> Z * list byte;
  (** exception raised by [gzip.open], [bz2.open], [lzma.open], if any *)
  codec_error : format -> string -> string -> option Z -> option exn;
  (** whether [import lzma] succeeded *)
  lzma_present : bool;
  (** [_available_cpu_count()] *)
  cpu_count : Z;
  (** a spawned process: has it already exited at the end of the grace
      interval, its exit status when left alone, its exit status when sent
      SIGTERM, and the text it leaves on stderr *)
  proc_quick : list string -> bool;
  proc_exit : list string -> Z;
  proc_term_exit : list string -> Z;
  proc_stderr : list string -> string;
  (** whether the bytes it leaves on stderr decode as text (when they do not,
      reading the wrapped stderr raises UnicodeDecodeError) *)
  proc_stderr_decodable : list string -> bool;
  (** failure of closing the pipe to its stdin, which flushes what is
      buffered (BrokenPipeError once the process is gone), if any *)
  proc_stdin_close_error : list string -> option os_error
}.

(** ** Format detection *)

Definition magic_gz : list byte := [x1f; x8b].
Definition magic_bz2 : list byte := [x42; x5a; x68].
Definition magic_xz : list byte := [xfd; x37; x7a; x58; x5a; x00].

Section Program.
Variable w : World.

(** [_detect_format_from_content]: the whole body sits in
    [try ... except OSError: return None], which lets the ValueError of
    [os.stat] through. *)
Definition _detect_format_from_content (filename : string) : M (option format) :=
  emit (EvStat filename) ;;;
  match stat_isreg w filename with
  | None =>
      match stat_raises w filename with
      | StatOSError => ret None
      | StatEmbeddedNull => raise (ValueError "embedded null byte")
      end
  | Some false => ret None
  | Some true =>
      emit (EvSniff filename 6) ;;;
      match file_bytes w filename with
      | None => ret None
      | Some content =>
          let bs := firstn 6 content in
          if Py.bytes_eqb (firstn 2 bs) magic_gz then ret (Some gz)
          else if Py.bytes_eqb (firstn 3 bs) magic_bz2 then ret (Some bz2)
          else if Py.bytes_eqb (firstn 6 bs) magic_xz then ret (Some xz)
          else ret None
      end
  end.

(** [_detect_format_from_extension] *)
Definition _detect_format_from_extension (filename : string) : option format :=
  if Py.endswith filename ".bz2" then Some bz2
  else if Py.endswith filename ".xz" then Some xz
  else if Py.endswith filename ".gz" then Some gz
  else None.

(** ** Subprocesses *)

Record Process : Type := {
  p_args : list string;
  p_returncode : option Z;      (* [None] while the process runs *)
  p_exit : Z;                   (* status it will end with *)
  p_term_exit : Z;              (* status it ends with once sent SIGTERM *)
  p_quick : bool;               (* gone by the end of the grace interval *)
  p_stderr : string;
  p_stderr_decodable : bool;    (* its stderr bytes decode as text *)
  p_stdin_close_error : option os_error   (* closing its stdin pipe fails *)
}.

Definition p_program (p : Process) : string := hd "" (p_args p).

(** [Popen(args, ...)] *)
Definition Popen (args : list string) : M Process :=
  match popen_error w (hd "" args) with
  | Some e => emit (EvSpawnFailed args) ;;; raise (exn_of_os_error e)
  | None =>
      emit (EvSpawn args) ;;;
      ret {| p_args := args; p_returncode := None;
             p_exit := proc_exit w args; p_term_exit := proc_term_exit w args;
             p_quick := proc_quick w args; p_stderr := proc_stderr w args;
             p_stderr_decodable := proc_stderr_decodable w args;
             p_stdin_close_error := proc_stdin_close_error w args |}
  end.

(** [time.sleep(0.01)] as the process sees it *)
Definition after_grace (p : Process) : Process :=
  match p_returncode p with
  | None =>
      if p_quick p
      then {| p_args := p_args p; p_returncode := Some (p_exit p);
              p_exit := p_exit p; p_term_exit := p_term_exit p;
              p_quick := p_quick p; p_stderr := p_stderr p;
              p_stderr_decodable := p_stderr_decodable p;
              p_stdin_close_error := p_stdin_close_error p |}
      else p
  | Some _ => p
  end.

(** [process.terminate()] *)
Definition terminate (p : Process) : Process :=
  match p_returncode p with
  | None => {| p_args := p_args p; p_returncode := None;
               p_exit := p_term_exit p; p_term_exit := p_term_exit p;
               p_quick := p_quick p; p_stderr := p_stderr p;
               p_stderr_decodable := p_stderr_decodable p;
               p_stdin_close_error := p_stdin_close_error p |}
  | Some _ => p
  end.

(** [process.wait()]: the process after the call; its status is then set *)
Definition wait (p : Process) : Process :=
  match p_returncode p with
  | None => {| p_args := p_args p; p_returncode := Some (p_exit p);
               p_exit := p_exit p; p_term_exit := p_term_exit p;
               p_quick := p_quick p; p_stderr := p_stderr p;
               p_stderr_decodable := p_stderr_decodable p;
               p_stdin_close_error := p_stdin_close_error p |}
  | Some _ => p
  end.

Definition retcode_of (p : Process) : Z :=
  match p_returncode p with
  | Some rc => rc
  | None => p_exit p
  end.

(** The bundled fixture, four gzip members holding AB, CD, EF and GH; the
    path is relative to the package directory. *)
Definition test_gz : string := "resources/concatenated.gz".

(** [_can_read_concatenated_gz]; [subprocess.run(..., check=True)] raises
    CalledProcessError on a nonzero status, which is caught here, while a
    missing program raises FileNotFoundError, which is not. *)
Definition _can_read_concatenated_gz (program : string) : M bool :=
  let args := [program; "-c"; "-d"; test_gz] in
  if run_finds w program then
    emit (EvRun args) ;;;
    let (rc, stdout) := probe_run w program in
    if (rc =? 0)%Z
    then ret (Py.bytes_eqb stdout
                ["A"; "B"; "C"; "D"; "E"; "F"; "G"; "H"]%byte)
    else ret false
  else
    emit (EvRunFailed args) ;;; raise FileNotFoundError.

(** [open(path, mode)] *)
Definition builtin_open (path mode : string) : M unit :=
  emit (EvOpen path mode) ;;;
  match open_error w path mode with
  | Some e => raise (exn_of_os_error e)
  | None => ret tt
  end.

(** [os.devnull] *)
Definition devnull : string := "/dev/null".

(** ** Piped writer *)

Record PipedCompressionWriter : Type := {
  pw_name : string;
  pw_mode : string;
  pw_program : string;
  pw_threads_flag : option string;
  pw_closed : bool;
  pw_process : Process;
  pw_text : bool              (* [_file] is a TextIOWrapper over stdin *)
}.

(** [PipedCompressionWriter._open_process] *)
Definition _open_process (program : string) (threads_flag : option string)
    (mode : string) (compresslevel : option Z) (threads : Z) : M Process :=
  let program_args :=
    [program] ++
    match threads_flag with
    | Some flag => if negb (threads =? 0)%Z then [flag; Py.str threads] else []
    | None => []
    end in
  let extra_args :=
    match compresslevel with
    | Some level => if Py.char_in "w" mode then [("-" ++ Py.str level)%string] else []
    | None => []
    end in
  Popen (program_args ++ extra_args).

(** [PipedCompressionWriter.__init__] *)
Definition PipedCompressionWriter_init (path program mode : string)
    (compresslevel : option Z) (threads_flag : option string)
    (threads : option Z) : M PipedCompressionWriter :=
  if negb (Py.str_in mode ["w"; "wt"; "wb"; "a"; "at"; "ab"]) then
    raise (ValueError ("Mode is '" ++ mode ++
                       "', but it must be 'w', 'wt', 'wb', 'a', 'at' or 'ab'")%string)
  else
    builtin_open path mode ;;;
    builtin_open devnull mode ;;;
    let threads :=
      match threads with
      | None => Z.min (cpu_count w) 4
      | Some n => n
      end in
    process <-
      try_except (_open_process program threads_flag mode compresslevel threads)
        is_OSError
        (fun e => emit (EvClose path) ;;; emit (EvClose devnull) ;;; raise e) ;;
    ret {| pw_name := path; pw_mode := mode; pw_program := program;
           pw_threads_flag := threads_flag; pw_closed := false;
           pw_process := process;
           pw_text := negb (Py.char_in "b" mode) |}.

(** [PipedCompressionWriter.close]: the object after the call, and what the
    call did.  [self._file.close()] flushes into the pipe and may raise (a
    BrokenPipeError when the program is gone); nothing after it then runs. *)
Definition PipedCompressionWriter_close (self : PipedCompressionWriter)
    : PipedCompressionWriter * M unit :=
  if pw_closed self then (self, ret tt)
  else
    match p_stdin_close_error (pw_process self) with
    | Some e =>
        ({| pw_name := pw_name self; pw_mode := pw_mode self;
            pw_program := pw_program self;
            pw_threads_flag := pw_threads_flag self; pw_closed := true;
            pw_process := pw_process self; pw_text := pw_text self |},
         emit (EvClose "stdin") ;;; raise (exn_of_os_error e))
    | None =>
    let retcode := retcode_of (pw_process self) in
    ({| pw_name := pw_name self; pw_mode := pw_mode self;
        pw_program := pw_program self;
        pw_threads_flag := pw_threads_flag self; pw_closed := true;
        pw_process := wait (pw_process self); pw_text := pw_text self |},
     emit (EvClose "stdin") ;;;
     emit (EvWait (pw_program self)) ;;;
     emit (EvClose (pw_name self)) ;;;
     emit (EvClose devnull) ;;;
     if negb (retcode =? 0)%Z then
       raise (OSError ("Output " ++ pw_program self ++
                       " process terminated with exit code " ++ Py.str retcode)%string)
     else ret tt)
    end.

(** [PipedCompressionWriter.__next__] *)
Definition PipedCompressionWriter_next (self : PipedCompressionWriter) : M unit :=
  raise (UnsupportedOperation "not readable").

(** [PipedGzipWriter.__init__] *)
Definition PipedGzipWriter_init (path mode : string) (compresslevel : option Z)
    (threads : option Z) : M PipedCompressionWriter :=
  match compresslevel with
  | Some level =>
      if negb (Py.in_range level 1 10) then
        raise (ValueError "compresslevel must be between 1 and 9")
      else
        try_except
          (PipedCompressionWriter_init path "pigz" mode compresslevel (Some "-p") threads)
          is_FileNotFoundError
          (fun _ => PipedCompressionWriter_init path "gzip" mode compresslevel None threads)
  | None =>
      try_except
        (PipedCompressionWriter_init path "pigz" mode compresslevel (Some "-p") threads)
        is_FileNotFoundError
        (fun _ => PipedCompressionWriter_init path "gzip" mode compresslevel None threads)
  end.

(** [PipedIGzipWriter.__init__] *)
Definition PipedIGzipWriter_init (path mode : string) (compresslevel : option Z)
    : M PipedCompressionWriter :=
  match compresslevel with
  | Some level =>
      if negb (Py.in_range level 0 4) then
        raise (ValueError "compresslevel must be between 0 and 3")
      else PipedCompressionWriter_init path "igzip" mode compresslevel None None
  | None => PipedCompressionWriter_init path "igzip" mode compresslevel None None
  end.

(** ** Piped reader *)

(** [str.strip()].  A Python [str] is held as its UTF-8 encoding, so the
    white space of [str.isspace] is one, two or three bytes long:
    U+0009-000D, U+001C-0020; U+0085, U+00A0; U+1680, U+2000-200A, U+2028,
    U+2029, U+202F, U+205F, U+3000. *)
Definition is_space (c : ascii) : bool :=
  let n := nat_of_ascii c in
  ((9 <=? n) && (n <=? 13) || (28 <=? n) && (n <=? 32))%nat.

Definition is_space2 (a b : ascii) : bool :=
  let a := nat_of_ascii a in
  let b := nat_of_ascii b in
  ((a =? 194) && ((b =? 133) || (b =? 160)))%nat.

Definition is_space3 (a b c : ascii) : bool :=
  let a := nat_of_ascii a in
  let b := nat_of_ascii b in
  let c := nat_of_ascii c in
  ((a =? 225) && (b =? 154) && (c =? 128)
   || (a =? 226) && (b =? 128)
      && ((128 <=? c) && (c <=? 138) || (c =? 168) || (c =? 169) || (c =? 175))
   || (a =? 226) && (b =? 129) && (c =? 159)
   || (a =? 227) && (b =? 128) && (c =? 128))%nat.

Fixpoint lstrip (s : string) : string :=
  match s with
  | EmptyString => EmptyString
  | String a s1 =>
      if is_space a then lstrip s1
      else
        match s1 with
        | EmptyString => s
        | String b s2 =>
            if is_space2 a b then lstrip s2
            else
              match s2 with
              | EmptyString => s
              | String c s3 => if is_space3 a b c then lstrip s3 else s
              end
        end
  end.

Fixpoint rev_string (s acc : string) : string :=
  match s with
  | EmptyString => acc
  | String c s' => rev_string s' (String c acc)
  end.

(** [lstrip] on a string read from its end: the bytes of a character come
    last byte first. *)
Fixpoint lstrip_reversed (s : string) : string :=
  match s with
  | EmptyString => EmptyString
  | String c s1 =>
      if is_space c then lstrip_reversed s1
      else
        match s1 with
        | EmptyString => s
        | String b s2 =>
            if is_space2 b c then lstrip_reversed s2
            else
              match s2 with
              | EmptyString => s
              | String a s3 =>
                  if is_space3 a b c then lstrip_reversed s3 else s
              end
        end
  end.

Definition rstrip (s : string) : string :=
  rev_string (lstrip_reversed (rev_string s EmptyString)) EmptyString.

(** [s.strip()] *)
Definition strip (s : string) : string := rstrip (lstrip s).

Record PipedCompressionReader : Type := {
  pr_name : string;
  pr_program : string;
  pr_closed : bool;
  pr_process : Process;
  pr_text : bool              (* [_file] is a TextIOWrapper over stdout *)
}.

(** [PipedCompressionReader._raise_if_error]; [self._stderr.read()] raises
    UnicodeDecodeError when the bytes on stderr do not decode, before
    anything is closed. *)
Definition _raise_if_error (process : Process) (allow_sigterm : bool) : M unit :=
  emit (EvPoll (p_program process)) ;;;
  match p_returncode process with
  | Some retcode =>
      if negb (retcode =? 0)%Z
         && negb (allow_sigterm && (retcode =? - Py.SIGTERM)%Z)
      then
        emit (EvReadStderr (p_program process)) ;;;
        if p_stderr_decodable process then
          emit (EvClose "stdout") ;;;
          emit (EvClose "stderr") ;;;
          raise (OSError (strip (p_stderr process) ++ " (exit code " ++
                          Py.str retcode ++ ")")%string)
        else raise UnicodeDecodeError
      else ret tt
  | None => ret tt
  end.

(** [PipedCompressionReader.__init__] *)
Definition PipedCompressionReader_init (path program mode : string)
    (threads_flag : option string) (threads : option Z)
    : M PipedCompressionReader :=
  if negb (Py.str_in mode ["r"; "rt"; "rb"]) then
    raise (ValueError ("Mode is '" ++ mode ++
                       "', but it must be 'r', 'rt' or 'rb'")%string)
  else
    let program_args :=
      [program; "-cd"; path] ++
      match threads_flag with
      | Some flag =>
          [flag; Py.str match threads with None => 1%Z | Some n => n end]
      | None => []
      end in
    process <- Popen program_args ;;
    emit EvSleep ;;;
    let process := after_grace process in
    _raise_if_error process false ;;;
    ret {| pr_name := path; pr_program := program; pr_closed := false;
           pr_process := process; pr_text := negb (Py.char_in "b" mode) |}.

(** [PipedCompressionReader.close]: the object after the call, and what the
    call did. *)
Definition PipedCompressionReader_close (self : PipedCompressionReader)
    : PipedCompressionReader * M unit :=
  if pr_closed self then (self, ret tt)
  else
    let program := pr_program self in
    let running :=
      match p_returncode (pr_process self) with
      | None => true
      | Some _ => false
      end in
    let allow_sigterm := running in
    let process :=
      wait (if running then terminate (pr_process self) else pr_process self) in
    ({| pr_name := pr_name self; pr_program := program; pr_closed := true;
        pr_process := process; pr_text := pr_text self |},
     emit (EvPoll (p_program (pr_process self))) ;;;
     (if running then emit (EvTerminate program) else ret tt) ;;;
     emit (EvWait program) ;;;
     emit (EvClose "stdout") ;;;
     _raise_if_error process allow_sigterm ;;;
     emit (EvClose "stderr")).

(** [PipedGzipReader.__init__] *)
Definition PipedGzipReader_init (path mode : string) (threads : option Z)
    : M PipedCompressionReader :=
  try_except
    (PipedCompressionReader_init path "pigz" mode (Some "-p") threads)
    is_FileNotFoundError
    (fun _ => PipedCompressionReader_init path "gzip" mode None threads).

(** [PipedIGzipReader.__init__] *)
Definition PipedIGzipReader_init (path mode : string) : M PipedCompressionReader :=
  ok <- _can_read_concatenated_gz "igzip" ;;
  if negb ok then
    raise (ValueError ("This version of igzip does not support reading " ++
                       "concatenated gzip files and is therefore not " ++
                       "safe to use. See: https://github.com/intel/isa-l/issues/143")%string)
  else PipedCompressionReader_init path "igzip" mode None None.

(** ** The opener *)

(** What [xopen] hands back. *)
Inductive handle : Type :=
| PlainFile (path mode : string)
| StdStream (fd : Z) (mode : string)
| CodecFile (c : format) (path mode : string) (level : option Z)
| PipedWriter (wr : PipedCompressionWriter)
| PipedReader (rd : PipedCompressionReader).

(** [gzip.open], [bz2.open], [lzma.open] *)
Definition codec_open (c : format) (filename mode : string) (level : option Z)
    : M handle :=
  emit (EvCodecOpen c filename mode level) ;;;
  match codec_error w c filename mode level with
  | Some e => raise e
  | None => ret (CodecFile c filename mode level)
  end.

(** [_open_stdin_or_out]: [dict(r=sys.stdin, w=sys.stdout)[mode[0]]] *)
Definition _open_stdin_or_out (mode : string) : M handle :=
  match mode with
  | EmptyString => raise IndexError
  | String c _ =>
      fd <- (if Ascii.eqb c "r" then ret 0%Z
             else if Ascii.eqb c "w" then ret 1%Z
             else raise (KeyError (String c EmptyString))) ;;
      emit (EvOpenFd fd mode) ;;;
      match fdopen_error w fd mode with
      | Some e => raise (exn_of_os_error e)
      | None => ret (StdStream fd mode)
      end
  end.

(** [_open_bz2] *)
Definition _open_bz2 (filename mode : string) : M handle :=
  codec_open bz2 filename mode None.

(** [_open_xz]; [lzma] is [None] when its import failed *)
Definition _open_xz (filename mode : string) : M handle :=
  if lzma_present w then codec_open xz filename mode None
  else raise AttributeError.

(** The tail of [_open_gz]: the in-process codec. *)
Definition _open_gz_inprocess (filename mode : string) (compresslevel : option Z)
    : M handle :=
  if Py.char_in "r" mode then codec_open gz filename mode None
  else
    codec_open gz filename mode
      (Some match compresslevel with None => 6%Z | Some level => level end).

Definition handles_missing_or_value (e : exn) : bool :=
  is_FileNotFoundError e || is_ValueError e.

Definition threads_nonzero (threads : option Z) : bool :=
  match threads with
  | Some n => negb (n =? 0)%Z
  | None => true
  end.

(** [_open_gz] *)
Definition _open_gz (filename mode : string) (compresslevel threads : option Z)
    : M handle :=
  if threads_nonzero threads then
    try_except
      (if Py.char_in "r" mode then
         try_except
           (rd <- PipedIGzipReader_init filename mode ;; ret (PipedReader rd))
           handles_missing_or_value
           (fun _ =>
              rd <- PipedGzipReader_init filename mode threads ;;
              ret (PipedReader rd))
       else
         try_except
           (wr <- PipedIGzipWriter_init filename mode compresslevel ;;
            ret (PipedWriter wr))
           handles_missing_or_value
           (fun _ =>
              wr <- PipedGzipWriter_init filename mode compresslevel threads ;;
              ret (PipedWriter wr)))
      is_FileNotFoundError
      (fun _ => _open_gz_inprocess filename mode compresslevel)
  else _open_gz_inprocess filename mode compresslevel.

Definition legal_modes : list string := ["rt"; "rb"; "wt"; "wb"; "at"; "ab"].

(** [if mode in ('r', 'w', 'a'): mode += 't'] *)
Definition normalize_mode (mode : string) : string :=
  if Py.str_in mode ["r"; "w"; "a"] then (mode ++ "t")%string else mode.

(** Lines 483-485 of [xopen]: extension first, content only when that
    found nothing and ['w'] does not occur in the mode. *)
Definition detect_format (filename mode : string) : M (option format) :=
  match _detect_format_from_extension filename with
  | None =>
      if negb (Py.char_in "w" mode) then _detect_format_from_content filename
      else ret None
  | Some f => ret (Some f)
  end.

(** [xopen]; [filename] is a [str], on which [fspath] is the identity. *)
Definition xopen (filename mode : string) (compresslevel threads : option Z)
    : M handle :=
  let mode := normalize_mode mode in
  if negb (Py.str_in mode legal_modes) then
    raise (ValueError ("Mode '" ++ mode ++ "' not supported")%string)
  else if String.eqb filename "-" then _open_stdin_or_out mode
  else
    detected_format <- detect_format filename mode ;;
    match detected_format with
    | Some gz => _open_gz filename mode compresslevel threads
    | Some xz => _open_xz filename mode
    | Some bz2 => _open_bz2 filename mode
    | None => builtin_open filename mode ;;; ret (PlainFile filename mode)
    end.

End Program.

(** ** Reading a trace *)

(** The two steps of content detection: the [os.stat] and the read of the
    first bytes. *)
Definition is_content_probe (ev : event) : bool :=
  match ev with
  | EvStat _ | EvSniff _ _ => true
  | _ => false
  end.

(** Any use of the subprocess machinery, successful or not. *)
Definition is_subprocess_event (ev : event) : bool :=
  match ev with
  | EvSpawn _ | EvSpawnFailed _ | EvRun _ | EvRunFailed _
  | EvSleep | EvPoll _ | EvTerminate _ | EvWait _ | EvReadStderr _ => true
  | _ => false
  end.

(** An external process was started. *)
Definition is_spawn (ev : event) : bool :=
  match ev with
  | EvSpawn _ | EvRun _ => true
  | _ => false
  end.


(** A run of the concatenated-members probe. *)
Definition is_probe_run (ev : event) : bool :=
  match ev with
  | EvRun args => true
  | _ => false
  end.

Definition count_probe_runs (t : list event) : nat :=
  length (filter is_probe_run t).

(** The compression level the in-process gzip codec is given on writing. *)
Definition inprocess_level (compresslevel : option Z) : option Z :=
  Some match compresslevel with None => 6%Z | Some level => level end.

(** ** Several calls in one Python process

    The module keeps no mutable module-level state, so what a process does
    over a series of [xopen] calls is what each call does, one after the
    other. *)

Record call : Type := {
  c_filename : string;
  c_mode : string;
  c_compresslevel : option Z;
  c_threads : option Z
}.

Definition run_call (w : World) (c : call) : M handle :=
  xopen w (c_filename c) (c_mode c) (c_compresslevel c) (c_threads c).

Fixpoint session (w : World) (calls : list call) : list event :=
  match calls with
  | [] => []
  | c :: rest => trace (run_call w c) ++ session w rest
  end.

(** A gzip read with external backends enabled. *)
Definition is_piped_gz_read (c : call) : bool :=
  Py.endswith (c_filename c) ".gz"
  && Py.str_in (c_mode c) ["r"; "rt"; "rb"]
  && threads_nonzero (c_threads c).

(** Closing again and again. *)
Fixpoint writer_closes (n : nat) (self : PipedCompressionWriter)
    : PipedCompressionWriter :=
  match n with
  | O => self
  | S n' => writer_closes n' (fst (PipedCompressionWriter_close self))
  end.

Fixpoint reader_closes (n : nat) (self : PipedCompressionReader)
    : PipedCompressionReader :=
  match n with
  | O => self
  | S n' => reader_closes n' (fst (PipedCompressionReader_close self))
  end.

(** ** Sample worlds *)

(** igzip, pigz and gzip are installed and sound; every file can be opened;
    [data] is a gzip file without extension, [notes] is plain text. *)
Definition full_world : World := {|
  stat_isreg := fun p =>
    if String.eqb p "data" || String.eqb p "notes" then Some true else None;
  stat_raises := fun _ => StatOSError;
  file_bytes := fun p =>
    if String.eqb p "data" then Some [x1f; x8b; x08; x00; x00; x00; x00; x00]
    else if String.eqb p "notes" then Some ["h"; "i"]%byte
    else None;
  open_error := fun _ _ => None;
  fdopen_error := fun _ _ => None;
  popen_error := fun _ => None;
  run_finds := fun _ => true;
  probe_run := fun _ => (0%Z, ["A"; "B"; "C"; "D"; "E"; "F"; "G"; "H"]%byte);
  codec_error := fun _ _ _ _ => None;
  lzma_present := true;
  cpu_count := 8%Z;
  proc_quick := fun _ => false;
  proc_exit := fun _ => 0%Z;
  proc_term_exit := fun _ => (- Py.SIGTERM)%Z;
  proc_stderr := fun _ => "";
  proc_stderr_decodable := fun _ => true;
  proc_stdin_close_error := fun _ => None
|}.

(** The same machine without any external compression program. *)
Definition bare_world : World := {|
  stat_isreg := stat_isreg full_world;
  stat_raises := fun _ => StatOSError;
  file_bytes := file_bytes full_world;
  open_error := fun _ _ => None;
  fdopen_error := fun _ _ => None;
  popen_error := fun _ => Some ENOENT;
  run_finds := fun _ => false;
  probe_run := fun _ => (1%Z, []);
  codec_error := fun _ _ _ _ => None;
  lzma_present := true;
  cpu_count := 8%Z;
  proc_quick := fun _ => false;
  proc_exit := fun _ => 0%Z;
  proc_term_exit := fun _ => (- Py.SIGTERM)%Z;
  proc_stderr := fun _ => "";
  proc_stderr_decodable := fun _ => true;
  proc_stdin_close_error := fun _ => None
|}.

(** A writer whose compressor fails, and a reader still running. *)
Definition sample_process (args : list string) (status : Z) : Process :=
  {| p_args := args; p_returncode := None; p_exit := status;
     p_term_exit := (- Py.SIGTERM)%Z; p_quick := false; p_stderr := "";
     p_stderr_decodable := true; p_stdin_close_error := None |}.

Definition failing_writer : PipedCompressionWriter :=
  {| pw_name := "out.gz"; pw_mode := "wb"; pw_program := "pigz";
     pw_threads_flag := Some "-p"; pw_closed := false;
     pw_process := sample_process ["pigz"; "-p"; "4"] 1; pw_text := false |}.

Definition running_reader : PipedCompressionReader :=
  {| pr_name := "in.gz"; pr_program := "pigz"; pr_closed := false;
     pr_process := sample_process ["pigz"; "-cd"; "in.gz"; "-p"; "1"] 0;
     pr_text := false |}.

(** The level argument of the in-process [gzip.open] call: none when
    reading. *)
Definition gzip_codec_level (mode : string) (compresslevel : option Z)
    : option Z :=
  if Py.char_in "r" mode then None else inprocess_level compresslevel.

(** The events a piped writer for one of [programs] may produce while it is
    set up. *)
Definition writer_init_event (programs : list string) (ev : event) : bool :=
  match ev with
  | EvOpen _ _ | EvClose _ => true
  | EvSpawn args | EvSpawnFailed args => Py.str_in (hd "" args) programs
  | _ => false
  end.

(** The events a piped reader for one of [programs] may produce while it is
    set up. *)
Definition reader_init_event (programs : list string) (ev : event) : bool :=
  match ev with
  | EvSleep | EvPoll _ | EvReadStderr _ | EvClose _ => true
  | EvSpawn args | EvSpawnFailed args => Py.str_in (hd "" args) programs
  | _ => false
  end.

Definition is_codec_open (ev : event) : bool :=
  match ev with
  | EvCodecOpen _ _ _ _ => true
  | _ => false
  end.

(** Everything [_open_gz] may ask of the world. *)
Definition open_gz_event (ev : event) : bool :=
  match ev with
  | EvStat _ | EvSniff _ _ | EvOpenFd _ _ | EvTerminate _ | EvWait _ => false
  | EvCodecOpen c _ _ _ => format_eqb c gz
  | _ => true
  end.

(** Reading [path] with the defaults, as [xopen(path)] does. *)
Definition read_call (path : string) : call :=
  {| c_filename := path; c_mode := "r"; c_compresslevel := None;
     c_threads := None |}.

(** ** Context manager and finalizer ([Closing]) *)

(** [Closing.__exit__] on a writer: [self.close()], whose exception, if
    any, is the caller's. *)
Definition Closing_exit_writer (self : PipedCompressionWriter)
    : PipedCompressionWriter * M unit :=
  PipedCompressionWriter_close self.

(** [Closing.__exit__] on a reader *)
Definition Closing_exit_reader (self : PipedCompressionReader)
    : PipedCompressionReader * M unit :=
  PipedCompressionReader_close self.

(** [Closing.__del__] on a writer:
    [try: self.close()  except Exception: pass]. *)
Definition Closing_del_writer (self : PipedCompressionWriter)
    : PipedCompressionWriter * M unit :=
  (fst (PipedCompressionWriter_close self),
   try_except (snd (PipedCompressionWriter_close self))
     (fun _ => true) (fun _ => ret tt)).

(** [Closing.__del__] on a reader *)
Definition Closing_del_reader (self : PipedCompressionReader)
    : PipedCompressionReader * M unit :=
  (fst (PipedCompressionReader_close self),
   try_except (snd (PipedCompressionReader_close self))
     (fun _ => true) (fun _ => ret tt)).

(** Everything [n] successive [close()] calls do to a writer. *)
Fixpoint writer_close_log (n : nat) (self : PipedCompressionWriter)
    : list event :=
  match n with
  | O => []
  | S n' =>
      trace (snd (PipedCompressionWriter_close self)) ++
      writer_close_log n' (fst (PipedCompressionWriter_close self))
  end.

(** Everything [n] successive [close()] calls do to a reader. *)
Fixpoint reader_close_log (n : nat) (self : PipedCompressionReader)
    : list event :=
  match n with
  | O => []
  | S n' =>
      trace (snd (PipedCompressionReader_close self)) ++
      reader_close_log n' (fst (PipedCompressionReader_close self))
  end.

(** ** More sample worlds *)

(** igzip is installed but stops after the first member of the fixture;
    pigz and gzip are fine. *)
Definition defective_igzip_world : World := {|
  stat_isreg := stat_isreg full_world;
  stat_raises := fun _ => StatOSError;
  file_bytes := file_bytes full_world;
  open_error := fun _ _ => None;
  fdopen_error := fun _ _ => None;
  popen_error := fun _ => None;
  run_finds := fun _ => true;
  probe_run := fun _ => (0%Z, ["A"; "B"]%byte);
  codec_error := fun _ _ _ _ => None;
  lzma_present := true;
  cpu_count := 2%Z;
  proc_quick := fun _ => false;
  proc_exit := fun _ => 0%Z;
  proc_term_exit := fun _ => (- Py.SIGTERM)%Z;
  proc_stderr := fun _ => "";
  proc_stderr_decodable := fun _ => true;
  proc_stdin_close_error := fun _ => None
|}.

(** Every decompressor gives up at once with status 1 and a message, as on
    a missing input file; the destination directory of any write is
    missing; [lzma] could not be imported. *)
Definition broken_world : World := {|
  stat_isreg := fun _ => None;
  stat_raises := fun _ => StatOSError;
  file_bytes := fun _ => None;
  open_error := fun _ _ => Some ENOENT;
  fdopen_error := fun _ _ => None;
  popen_error := fun _ => None;
  run_finds := fun _ => true;
  probe_run := fun _ => (0%Z, ["A"; "B"; "C"; "D"; "E"; "F"; "G"; "H"]%byte);
  codec_error := fun _ _ _ _ => Some FileNotFoundError;
  lzma_present := false;
  cpu_count := 16%Z;
  proc_quick := fun _ => true;
  proc_exit := fun _ => 1%Z;
  proc_term_exit := fun _ => (- Py.SIGTERM)%Z;
  proc_stderr := fun _ => " igzip: missing.gz does not exist
";
  proc_stderr_decodable := fun _ => true;
  proc_stdin_close_error := fun _ => None
|}.

(** ** Reading command lines off a trace *)

(** The command line of a spawn, started or not. *)
Definition spawn_args (ev : event) : option (list string) :=
  match ev with
  | EvSpawn args | EvSpawnFailed args => Some args
  | _ => None
  end.

(** The thread count a writer works with: the caller's, or the number of
    CPUs capped at four. *)
Definition effective_threads (w : World) (threads : option Z) : Z :=
  match threads with
  | None => Z.min (cpu_count w) 4
  | Some n => n
  end.

(** The level option as it appears on a compressor's command line. *)
Definition level_flag (mode : string) (compresslevel : option Z)
    : list string :=
  match compresslevel with
  | Some level =>
      if Py.char_in "w" mode then [("-" ++ Py.str level)%string] else []
  | None => []
  end.

(** The event is a spawn, started or not, of the given program. *)
Definition spawns_program (program : string) (ev : event) : bool :=
  match spawn_args ev with
  | Some args => String.eqb (hd "" args) program
  | None => false
  end.

(** The command line of a reader. *)
Definition reader_args (program path : string) (threads_flag : option string)
    (threads : option Z) : list string :=
  [program; "-cd"; path] ++
  match threads_flag with
  | Some flag => [flag; Py.str match threads with None => 1%Z | Some n => n end]
  | None => []
  end.

(** The message of the error a reader raises for a failed program. *)
Definition reader_error (w : World) (args : list string) : exn :=
  OSError (strip (proc_stderr w args) ++ " (exit code " ++
           Py.str (proc_exit w args) ++ ")")%string.

(** The command line of a writer. *)
Definition writer_args (w : World) (program : string)
    (threads_flag : option string) (mode : string)
    (compresslevel threads : option Z) : list string :=
  program ::
  match threads_flag with
  | Some flag =>
      if negb (effective_threads w threads =? 0)%Z
      then [flag; Py.str (effective_threads w threads)]
      else []
  | None => []
  end ++ level_flag mode compresslevel.

(** A spawn was attempted. *)
Definition is_spawn_attempt (ev : event) : bool :=
  match spawn_args ev with
  | Some _ => true
  | None => false
  end.

(** ** Reading a handle *)

(** The stream is a text stream. *)
Definition handle_text (h : handle) : bool :=
  match h with
  | PlainFile _ mode | StdStream _ mode | CodecFile _ _ mode _ =>
      negb (Py.char_in "b" mode)
  | PipedWriter wr => pw_text wr
  | PipedReader rd => pr_text rd
  end.

(** What the stream is bound to: a path or a file descriptor. *)
Definition handle_target (h : handle) : string + Z :=
  match h with
  | PlainFile path _ | CodecFile _ path _ _ => inl path
  | StdStream fd _ => inr fd
  | PipedWriter wr => inl (pw_name wr)
  | PipedReader rd => inl (pr_name rd)
  end.

(** The [closed] attribute of a piped stream; the other streams are fresh
    from their [open]. *)
Definition handle_closed (h : handle) : bool :=
  match h with
  | PipedWriter wr => pw_closed wr
  | PipedReader rd => pr_closed rd
  | _ => false
  end.

(** The stream is a piped reader, resp. a piped writer. *)
Definition is_piped_reader (h : handle) : bool :=
  match h with
  | PipedReader _ => true
  | _ => false
  end.

Definition is_piped_writer (h : handle) : bool :=
  match h with
  | PipedWriter _ => true
  | _ => false
  end.

(** A stream on [filename] as [mode] asks for it. *)
Definition handle_fits (filename mode : string) (h : handle) : Prop :=
  handle_text h = negb (Py.char_in "b" mode) /\
  handle_closed h = false /\
  handle_target h = inl filename /\
  (is_piped_reader h = true -> Py.char_in "r" mode = true) /\
  (is_piped_writer h = true -> Py.char_in "r" mode = false).

(** A writer whose compressor is gone while data is still buffered: the
    flush that closing the pipe does fails. *)
Definition broken_pipe_writer : PipedCompressionWriter :=
  {| pw_name := "out.gz"; pw_mode := "wb"; pw_program := "pigz";
     pw_threads_flag := Some "-p"; pw_closed := false;
     pw_process :=
       {| p_args := ["pigz"; "-p"; "4"]; p_returncode := None; p_exit := 1%Z;
          p_term_exit := (- Py.SIGTERM)%Z; p_quick := true; p_stderr := "";
          p_stderr_decodable := true;
          p_stdin_close_error := Some (EOTHER "[Errno 32] Broken pipe") |};
     pw_text := false |}.

(** The process [Popen(args)] hands back when it succeeds. *)
Definition spawned_process (w : World) (args : list string) : Process :=
  {| p_args := args; p_returncode := None;
     p_exit := proc_exit w args; p_term_exit := proc_term_exit w args;
     p_quick := proc_quick w args; p_stderr := proc_stderr w args;
     p_stderr_decodable := proc_stderr_decodable w args;
     p_stdin_close_error := proc_stdin_close_error w args |}.

(** Every decompressor dies at once with status 1 and leaves bytes on
    stderr that are not text. *)
Definition garbled_world : World := {|
  stat_isreg := fun _ => None;
  stat_raises := fun _ => StatOSError;
  file_bytes := fun _ => None;
  open_error := fun _ _ => None;
  fdopen_error := fun _ _ => None;
  popen_error := fun _ => None;
  run_finds := fun _ => true;
  probe_run := fun _ => (0%Z, ["A"; "B"; "C"; "D"; "E"; "F"; "G"; "H"]%byte);
  codec_error := fun _ _ _ _ => None;
  lzma_present := true;
  cpu_count := 4%Z;
  proc_quick := fun _ => true;
  proc_exit := fun _ => 1%Z;
  proc_term_exit := fun _ => (- Py.SIGTERM)%Z;
  proc_stderr := fun _ => "";
  proc_stderr_decodable := fun _ => false;
  proc_stdin_close_error := fun _ => None
|}.

(** ** The parts of [_open_gz] and of [xopen] *)

(** The body of the [try] in [_open_gz] (lines 383-395): the external
    backends. *)
Definition open_gz_piped (w : World) (filename mode : string)
    (compresslevel threads : option Z) : M handle :=
  if Py.char_in "r" mode then
    try_except
      (rd <- PipedIGzipReader_init w filename mode ;; ret (PipedReader rd))
      handles_missing_or_value
      (fun _ =>
         rd <- PipedGzipReader_init w filename mode threads ;;
         ret (PipedReader rd))
  else
    try_except
      (wr <- PipedIGzipWriter_init w filename mode compresslevel ;;
       ret (PipedWriter wr))
      handles_missing_or_value
      (fun _ =>
         wr <- PipedGzipWriter_init w filename mode compresslevel threads ;;
         ret (PipedWriter wr)).

(** A computation run after the format detection of [xopen]. *)
Definition after_detection {A} (w : World) (filename mode : string) (m : M A)
    : M A :=
  (trace (detect_format w filename mode) ++ trace m, outcome m).

(** A name that holds a null character, and a world in which [os.stat]
    refuses such names. *)
Definition null_name : string := String "a" (String Ascii.zero "b").

Definition null_name_world : World := {|
  stat_isreg := fun _ => None;
  stat_raises := fun _ => StatEmbeddedNull;
  file_bytes := fun _ => None;
  open_error := fun _ _ => None;
  fdopen_error := fun _ _ => None;
  popen_error := fun _ => None;
  run_finds := fun _ => true;
  probe_run := fun _ => (0%Z, ["A"; "B"; "C"; "D"; "E"; "F"; "G"; "H"]%byte);
  codec_error := fun _ _ _ _ => None;
  lzma_present := true;
  cpu_count := 4%Z;
  proc_quick := fun _ => false;
  proc_exit := fun _ => 0%Z;
  proc_term_exit := fun _ => (- Py.SIGTERM)%Z;
  proc_stderr := fun _ => "";
  proc_stderr_decodable := fun _ => true;
  proc_stdin_close_error := fun _ => None
|}.

(** The string made of the bytes with the given codes. *)
Definition string_of_codes (codes : list nat) : string :=
  fold_right (fun c s => String (ascii_of_nat c) s) EmptyString codes.

(** * Properties *)

(** ** The trace monad *)

Section MonadFacts.
Context {A B : Type}.

Lemma trace_bind (m : M A) (k : A -> M B) :
  trace (bind m k) =
  trace m ++ match outcome m with
             | Return a => trace (k a)
             | Raise _ => []
             end.
Proof.
  destruct m as [t [a | e]]; simpl.
  - destruct (k a); reflexivity.
  - now rewrite app_nil_r.
Qed.

Lemma outcome_bind (m : M A) (k : A -> M B) :
  outcome (bind m k) =
  match outcome m with
  | Return a => outcome (k a)
  | Raise e => Raise e
  end.
Proof.
  destruct m as [t [a | e]]; simpl; [destruct (k a)|]; reflexivity.
Qed.

Lemma trace_try_except (m : M A) (handles : exn -> bool) (h : exn -> M A) :
  trace (try_except m handles h) =
  trace m ++ match outcome m with
             | Raise e => if handles e then trace (h e) else []
             | Return _ => []
             end.
Proof.
  destruct m as [t [a | e]]; simpl.
  - now rewrite app_nil_r.
  - destruct (handles e); simpl; [destruct (h e); reflexivity|].
    now rewrite app_nil_r.
Qed.

Lemma outcome_try_except (m : M A) (handles : exn -> bool) (h : exn -> M A) :
  outcome (try_except m handles h) =
  match outcome m with
  | Raise e => if handles e then outcome (h e) else Raise e
  | Return a => Return a
  end.
Proof.
  destruct m as [t [a | e]]; simpl; [reflexivity|].
  destruct (handles e); simpl; [destruct (h e)|]; reflexivity.
Qed.

End MonadFacts.

Lemma M_eta {A} (m : M A) : m = (trace m, outcome m).
Proof. now destruct m. Qed.

(** ** Suffixes *)

Lemma endswith_unfold (s suf : string) :
  Py.endswith s suf =
  if String.eqb s suf then true
  else match s with
       | EmptyString => false
       | String _ s' => Py.endswith s' suf
       end.
Proof. destruct s; reflexivity. Qed.

Lemma endswith_spec (s suf : string) :
  Py.endswith s suf = true <-> exists p, s = (p ++ suf)%string.
Proof.
  induction s as [| c s IH]; rewrite endswith_unfold.
  - destruct (String.eqb_spec "" suf) as [E | E].
    + split; [intros _; exists ""; now subst | reflexivity].
    + split; [discriminate|].
      intros [[| d p] H]; simpl in H; [congruence | discriminate].
  - destruct (String.eqb_spec (String c s) suf) as [E | E].
    + split; [intros _; exists ""; now subst | reflexivity].
    + rewrite IH. split.
      * intros [p ->]. now exists (String c p).
      * intros [[| d p] H]; simpl in H; [congruence|].
        injection H as _ ->. now exists p.
Qed.

(** Two suffixes of one string: one of them is a suffix of the other. *)
Lemma endswith_comparable (s a b : string) :
  Py.endswith s a = true -> Py.endswith s b = true ->
  Py.endswith a b = true \/ Py.endswith b a = true.
Proof.
  induction s as [| c s IH];
    rewrite (endswith_unfold _ a), (endswith_unfold _ b).
  - destruct (String.eqb_spec "" a) as [<- | _]; [|discriminate].
    destruct (String.eqb_spec "" b) as [<- | _]; [|discriminate].
    now left.
  - destruct (String.eqb_spec (String c s) a) as [<- | _].
    + destruct (String.eqb_spec (String c s) b) as [<- | _].
      * intros _ _. left. rewrite endswith_unfold.
        now rewrite String.eqb_refl.
      * intros _ H. left. rewrite endswith_unfold.
        destruct (String.eqb (String c s) b); [reflexivity | assumption].
    + destruct (String.eqb_spec (String c s) b) as [<- | _].
      * intros H _. right. rewrite endswith_unfold.
        destruct (String.eqb (String c s) a); [reflexivity | assumption].
      * apply IH.
Qed.

Lemma endswith_exclusive (s a b : string) :
  Py.endswith a b = false -> Py.endswith b a = false ->
  Py.endswith s a = true -> Py.endswith s b = false.
Proof.
  intros Hab Hba Ha.
  destruct (Py.endswith s b) eqn:Hb; [|reflexivity].
  destruct (endswith_comparable s a b Ha Hb); congruence.
Qed.

Lemma extension_of_suffix (filename : string) :
  _detect_format_from_extension filename =
  if Py.endswith filename ".gz" then Some gz
  else if Py.endswith filename ".bz2" then Some bz2
  else if Py.endswith filename ".xz" then Some xz
  else None.
Proof.
  unfold _detect_format_from_extension.
  destruct (Py.endswith filename ".gz") eqn:G.
  - rewrite (endswith_exclusive filename ".gz" ".bz2" eq_refl eq_refl G).
    now rewrite (endswith_exclusive filename ".gz" ".xz" eq_refl eq_refl G).
  - destruct (Py.endswith filename ".bz2") eqn:Bz; [reflexivity|].
    destruct (Py.endswith filename ".xz"); reflexivity.
Qed.

(** C5: a filename ending in [.gz] (resp. [.bz2], [.xz]) is tagged gz (resp.
    bz2, xz) by extension detection and no other filename is tagged at all;
    the test is an exact, case-sensitive suffix match and looks at nothing
    but the name, so that in every world the opener settles on that tag
    without touching the file. *)
Theorem extension_detection_exact_suffix (filename : string) :
  (_detect_format_from_extension filename = Some gz
     <-> exists p, filename = (p ++ ".gz")%string) /\
  (_detect_format_from_extension filename = Some bz2
     <-> exists p, filename = (p ++ ".bz2")%string) /\
  (_detect_format_from_extension filename = Some xz
     <-> exists p, filename = (p ++ ".xz")%string) /\
  (_detect_format_from_extension filename = None
     <-> Py.endswith filename ".gz" = false
         /\ Py.endswith filename ".bz2" = false
         /\ Py.endswith filename ".xz" = false) /\
  (forall (w : World) (mode : string) (f : format),
      _detect_format_from_extension filename = Some f ->
      detect_format w filename mode = ([], Return (Some f))) /\
  _detect_format_from_extension "reads.GZ" = None /\
  _detect_format_from_extension "reads.gz.txt" = None /\
  _detect_format_from_extension "gz" = None.
Proof.
  assert (Hw : forall (w : World) (mode : string) (f : format),
             _detect_format_from_extension filename = Some f ->
             detect_format w filename mode = ([], Return (Some f))).
  { intros w mode f H. unfold detect_format. now rewrite H. }
  rewrite <- !endswith_spec.
  rewrite (extension_of_suffix filename) in *.
  pose proof (endswith_exclusive filename ".gz" ".bz2" eq_refl eq_refl) as Hgb.
  pose proof (endswith_exclusive filename ".gz" ".xz" eq_refl eq_refl) as Hgx.
  pose proof (endswith_exclusive filename ".bz2" ".xz" eq_refl eq_refl) as Hbx.
  destruct (Py.endswith filename ".gz") eqn:G;
    destruct (Py.endswith filename ".bz2") eqn:Bz;
    destruct (Py.endswith filename ".xz") eqn:X;
    try (specialize (Hgb eq_refl)); try (specialize (Hgx eq_refl));
    try (specialize (Hbx eq_refl)); try discriminate;
    repeat split; try assumption; try reflexivity;
    intros; try discriminate; intuition congruence.
Qed.

Lemma extension_detection_exact_suffix_witness :
  _detect_format_from_extension "reads.fastq.gz" = Some gz /\
  _detect_format_from_extension "archive.tar.bz2" = Some bz2 /\
  _detect_format_from_extension "dump.xz" = Some xz /\
  detect_format bare_world "reads.fastq.gz" "rb" = ([], Return (Some gz)).
Proof.
  destruct (extension_detection_exact_suffix "reads.fastq.gz")
    as [[_ Hgz] [_ [_ [_ [Hw _]]]]].
  destruct (extension_detection_exact_suffix "archive.tar.bz2")
    as [_ [[_ Hbz] _]].
  destruct (extension_detection_exact_suffix "dump.xz")
    as [_ [_ [[_ Hxz] _]]].
  split; [apply Hgz; now exists "reads.fastq"|].
  split; [apply Hbz; now exists "archive.tar"|].
  split; [apply Hxz; now exists "dump"|].
  apply Hw, Hgz. now exists "reads.fastq".
Defined.

(** ** Mode handling *)

Lemma str_in_In (s : string) (ts : list string) :
  Py.str_in s ts = true <-> In s ts.
Proof.
  induction ts as [| t ts IH]; simpl; [split; [discriminate | tauto]|].
  rewrite orb_true_iff, IH.
  destruct (String.eqb_spec s t); split; intros [H | H];
    auto; try discriminate; congruence.
Qed.

Lemma xopen_illegal_mode (w : World) (filename mode : string)
    (compresslevel threads : option Z) :
  ~ In (normalize_mode mode) legal_modes ->
  xopen w filename mode compresslevel threads =
  ([], Raise (ValueError ("Mode '" ++ normalize_mode mode ++ "' not supported")%string)).
Proof.
  intros H. unfold xopen.
  destruct (Py.str_in (normalize_mode mode) legal_modes) eqn:E;
    [apply str_in_In in E; contradiction | reflexivity].
Qed.

(** C4: ['r'], ['w'], ['a'] are normalized to ['rt'], ['wt'], ['at'] (and
    [xopen] treats them as such), and every mode whose normalization is not
    one of rt, rb, wt, wb, at, ab makes [xopen] raise ValueError with an
    empty trace, that is, before it does anything else. *)
Theorem mode_normalized_then_validated (w : World) (filename mode : string)
    (compresslevel threads : option Z) :
  normalize_mode "r" = "rt" /\
  normalize_mode "w" = "wt" /\
  normalize_mode "a" = "at" /\
  xopen w filename "r" compresslevel threads
    = xopen w filename "rt" compresslevel threads /\
  xopen w filename "w" compresslevel threads
    = xopen w filename "wt" compresslevel threads /\
  xopen w filename "a" compresslevel threads
    = xopen w filename "at" compresslevel threads /\
  (~ In (normalize_mode mode) legal_modes ->
   xopen w filename mode compresslevel threads =
   ([], Raise (ValueError
                 ("Mode '" ++ normalize_mode mode ++ "' not supported")%string))).
Proof.
  repeat split; try reflexivity. apply xopen_illegal_mode.
Qed.

Lemma mode_normalized_then_validated_witness :
  xopen full_world "reads.gz" "rw" None None =
  ([], Raise (ValueError "Mode 'rw' not supported")) /\
  xopen full_world "reads.gz" "" (Some 3%Z) None =
  ([], Raise (ValueError "Mode '' not supported")) /\
  xopen bare_world "reads.gz" "tr" None (Some 0%Z) =
  ([], Raise (ValueError "Mode 'tr' not supported")).
Proof.
  split; [| split].
  - apply (mode_normalized_then_validated full_world "reads.gz" "rw" None None).
    simpl. intuition discriminate.
  - apply (mode_normalized_then_validated full_world "reads.gz" "" (Some 3%Z) None).
    simpl. intuition discriminate.
  - apply (mode_normalized_then_validated bare_world "reads.gz" "tr" None (Some 0%Z)).
    simpl. intuition discriminate.
Defined.

(** C10: for the path ['-'] the append modes pass validation, but the
    stdin/stdout table has no entry for their first character: [xopen]
    raises [KeyError('a')], having opened nothing. *)
Theorem dash_append_raises_KeyError (w : World) (mode : string)
    (compresslevel threads : option Z) :
  In mode ["a"; "at"; "ab"] ->
  In (normalize_mode mode) legal_modes /\
  xopen w "-" mode compresslevel threads = ([], Raise (KeyError "a")).
Proof.
  simpl. intros [<- | [<- | [<- | []]]]; split; simpl; auto 10.
Qed.

Lemma dash_append_raises_KeyError_witness :
  In (normalize_mode "a") legal_modes /\
  xopen full_world "-" "a" None None = ([], Raise (KeyError "a")).
Proof.
  apply (dash_append_raises_KeyError full_world "a" None None).
  simpl. auto.
Defined.

(** ** Closing piped streams *)

Lemma writer_close_sets_closed (self : PipedCompressionWriter) :
  pw_closed (fst (PipedCompressionWriter_close self)) = true.
Proof.
  unfold PipedCompressionWriter_close.
  destruct (pw_closed self) eqn:E; [exact E|].
  destruct (p_stdin_close_error (pw_process self)); reflexivity.
Qed.

Lemma writer_close_when_closed (self : PipedCompressionWriter) :
  pw_closed self = true ->
  PipedCompressionWriter_close self = (self, ([], Return tt)).
Proof.
  intros H. unfold PipedCompressionWriter_close. now rewrite H.
Qed.

Lemma reader_close_sets_closed (self : PipedCompressionReader) :
  pr_closed (fst (PipedCompressionReader_close self)) = true.
Proof.
  unfold PipedCompressionReader_close.
  destruct (pr_closed self) eqn:E; simpl; auto.
Qed.

Lemma reader_close_when_closed (self : PipedCompressionReader) :
  pr_closed self = true ->
  PipedCompressionReader_close self = (self, ([], Return tt)).
Proof.
  intros H. unfold PipedCompressionReader_close. now rewrite H.
Qed.

Lemma writer_closes_closed (n : nat) (self : PipedCompressionWriter) :
  pw_closed (writer_closes (S n) self) = true.
Proof.
  revert self. induction n as [| n IH]; intros self.
  - apply writer_close_sets_closed.
  - change (writer_closes (S (S n)) self)
      with (writer_closes (S n) (fst (PipedCompressionWriter_close self))).
    apply IH.
Qed.

Lemma reader_closes_closed (n : nat) (self : PipedCompressionReader) :
  pr_closed (reader_closes (S n) self) = true.
Proof.
  revert self. induction n as [| n IH]; intros self.
  - apply reader_close_sets_closed.
  - change (reader_closes (S (S n)) self)
      with (reader_closes (S n) (fst (PipedCompressionReader_close self))).
    apply IH.
Qed.

(** C8: once a piped writer or reader has been closed (one time or more,
    whether or not that first close raised), closing it again leaves the
    object as it is, does nothing (no wait on the subprocess, no close of an
    underlying handle: the trace is empty) and raises nothing. *)
Theorem close_again_is_noop (wr : PipedCompressionWriter)
    (rd : PipedCompressionReader) (n : nat) :
  PipedCompressionWriter_close (writer_closes (S n) wr)
    = (writer_closes (S n) wr, ([], Return tt)) /\
  PipedCompressionReader_close (reader_closes (S n) rd)
    = (reader_closes (S n) rd, ([], Return tt)).
Proof.
  split.
  - apply writer_close_when_closed, writer_closes_closed.
  - apply reader_close_when_closed, reader_closes_closed.
Qed.

(** The first close of the sample streams does real work, and the writer's
    even raises; the second is silent. *)
Example close_twice_failing_writer :
  snd (PipedCompressionWriter_close failing_writer) =
  ([EvClose "stdin"; EvWait "pigz"; EvClose "out.gz"; EvClose "/dev/null"],
   Raise (OSError "Output pigz process terminated with exit code 1")) /\
  snd (PipedCompressionWriter_close
         (fst (PipedCompressionWriter_close failing_writer))) =
  ([], Return tt).
Proof. split; reflexivity. Qed.

Example close_twice_running_reader :
  snd (PipedCompressionReader_close running_reader) =
  ([EvPoll "pigz"; EvTerminate "pigz"; EvWait "pigz"; EvClose "stdout";
    EvPoll "pigz"; EvClose "stderr"], Return tt) /\
  snd (PipedCompressionReader_close
         (fst (PipedCompressionReader_close running_reader))) =
  ([], Return tt).
Proof. split; reflexivity. Qed.

(** ** What a trace can contain *)

Lemma forallb_impl {A} (P Q : A -> bool) (l : list A) :
  (forall x, P x = true -> Q x = true) ->
  forallb P l = true -> forallb Q l = true.
Proof.
  intros HPQ. rewrite !forallb_forall. auto.
Qed.

Lemma forallb_trace_bind {A B} (P : event -> bool) (m : M A) (k : A -> M B) :
  forallb P (trace m) = true ->
  (forall a, outcome m = Return a -> forallb P (trace (k a)) = true) ->
  forallb P (trace (bind m k)) = true.
Proof.
  intros Hm Hk. rewrite trace_bind, forallb_app, Hm. simpl.
  destruct (outcome m) as [a | e]; auto.
Qed.

Lemma forallb_trace_try {A} (P : event -> bool) (m : M A)
    (handles : exn -> bool) (h : exn -> M A) :
  forallb P (trace m) = true ->
  (forall e, outcome m = Raise e -> handles e = true ->
             forallb P (trace (h e)) = true) ->
  forallb P (trace (try_except m handles h)) = true.
Proof.
  intros Hm Hh. rewrite trace_try_except, forallb_app, Hm. simpl.
  destruct (outcome m) as [a | e]; auto.
  destruct (handles e) eqn:E; auto.
Qed.

Lemma detect_format_trace (w : World) (filename mode : string) :
  forallb is_content_probe (trace (detect_format w filename mode)) = true.
Proof.
  unfold detect_format, _detect_format_from_content.
  destruct (_detect_format_from_extension filename); [reflexivity|].
  destruct (negb (Py.char_in "w" mode)); [|reflexivity].
  destruct (stat_isreg w filename) as [[|] |]; try reflexivity;
    [| destruct (stat_raises w filename); reflexivity].
  destruct (file_bytes w filename) as [content |]; [|reflexivity].
  simpl.
  repeat match goal with
         | |- context [if ?b then _ else _] => destruct b
         end; reflexivity.
Qed.

Lemma Popen_trace (w : World) (P : event -> bool) (args : list string) :
  P (EvSpawn args) = true -> P (EvSpawnFailed args) = true ->
  forallb P (trace (Popen w args)) = true.
Proof.
  intros H1 H2. unfold Popen.
  destruct (popen_error w (hd "" args)); simpl; now rewrite ?H1, ?H2.
Qed.

Lemma writer_init_trace (w : World) (path program mode : string)
    (compresslevel : option Z) (threads_flag : option string)
    (threads : option Z) :
  forallb (writer_init_event [program])
    (trace (PipedCompressionWriter_init w path program mode compresslevel
              threads_flag threads)) = true.
Proof.
  unfold PipedCompressionWriter_init.
  destruct (negb (Py.str_in mode ["w"; "wt"; "wb"; "a"; "at"; "ab"]));
    [reflexivity|].
  unfold builtin_open.
  repeat (apply forallb_trace_bind; [| intros ? _]);
    try reflexivity;
    try (destruct (open_error w _ mode); reflexivity).
  apply forallb_trace_try.
  - apply Popen_trace; simpl; now rewrite String.eqb_refl.
  - intros e _ _. reflexivity.
Qed.

Lemma writer_init_event_mono (ps qs : list string) (ev : event) :
  (forall p, In p ps -> In p qs) ->
  writer_init_event ps ev = true -> writer_init_event qs ev = true.
Proof.
  intros Hsub. destruct ev; simpl; auto; rewrite !str_in_In; auto.
Qed.

Lemma pigz_gzip_chain_trace (w : World) (path mode : string)
    (compresslevel threads : option Z) :
  forallb (writer_init_event ["pigz"; "gzip"])
    (trace (try_except
              (PipedCompressionWriter_init w path "pigz" mode compresslevel
                 (Some "-p") threads)
              is_FileNotFoundError
              (fun _ => PipedCompressionWriter_init w path "gzip" mode
                          compresslevel None threads))) = true.
Proof.
  apply forallb_trace_try; [| intros _ _ _];
    (eapply forallb_impl; [| apply writer_init_trace]);
    intros ev; apply writer_init_event_mono; simpl; tauto.
Qed.

Lemma gzip_writer_init_trace (w : World) (path mode : string)
    (compresslevel threads : option Z) :
  forallb (writer_init_event ["pigz"; "gzip"])
    (trace (PipedGzipWriter_init w path mode compresslevel threads)) = true.
Proof.
  unfold PipedGzipWriter_init.
  destruct compresslevel as [level |]; [| apply pigz_gzip_chain_trace].
  destruct (negb (Py.in_range level 1 10));
    [reflexivity | apply pigz_gzip_chain_trace].
Qed.

Lemma igzip_writer_init_trace (w : World) (path mode : string)
    (compresslevel : option Z) :
  forallb (writer_init_event ["igzip"])
    (trace (PipedIGzipWriter_init w path mode compresslevel)) = true.
Proof.
  unfold PipedIGzipWriter_init.
  destruct compresslevel as [level |]; [| apply writer_init_trace].
  destruct (negb (Py.in_range level 0 4));
    [reflexivity | apply writer_init_trace].
Qed.

(** ** Dispatch *)

Lemma xopen_dispatch (w : World) (filename mode : string)
    (compresslevel threads : option Z) :
  In (normalize_mode mode) legal_modes -> filename <> "-" ->
  xopen w filename mode compresslevel threads =
  (detected_format <- detect_format w filename (normalize_mode mode) ;;
   match detected_format with
   | Some gz => _open_gz w filename (normalize_mode mode) compresslevel threads
   | Some xz => _open_xz w filename (normalize_mode mode)
   | Some bz2 => _open_bz2 w filename (normalize_mode mode)
   | None =>
       builtin_open w filename (normalize_mode mode) ;;;
       ret (PlainFile filename (normalize_mode mode))
   end).
Proof.
  intros Hm Hf. unfold xopen.
  apply str_in_In in Hm. rewrite Hm. simpl.
  destruct (String.eqb_spec filename "-"); [contradiction | reflexivity].
Qed.

Lemma open_gz_threads_zero (w : World) (filename mode : string)
    (compresslevel : option Z) :
  _open_gz w filename mode compresslevel (Some 0%Z) =
  codec_open w gz filename mode (gzip_codec_level mode compresslevel).
Proof.
  unfold _open_gz, _open_gz_inprocess, gzip_codec_level. simpl.
  destruct (Py.char_in "r" mode); reflexivity.
Qed.

Lemma codec_open_eq (w : World) (c : format) (filename mode : string)
    (level : option Z) :
  codec_open w c filename mode level =
  ([EvCodecOpen c filename mode level],
   match codec_error w c filename mode level with
   | Some e => Raise e
   | None => Return (CodecFile c filename mode level)
   end).
Proof.
  unfold codec_open. simpl.
  destruct (codec_error w c filename mode level); reflexivity.
Qed.

(** C6: with [threads=0], opening a gzip path (one that detection tags gz)
    in any legal mode does the detection and then exactly one thing, the
    in-process [gzip.open]; the trace holds no subprocess event of any kind
    and the result is the codec's. *)
Theorem threads_zero_stays_in_process (w : World) (filename mode : string)
    (compresslevel : option Z) :
  filename <> "-" ->
  In (normalize_mode mode) legal_modes ->
  outcome (detect_format w filename (normalize_mode mode)) = Return (Some gz) ->
  xopen w filename mode compresslevel (Some 0%Z) =
    (trace (detect_format w filename (normalize_mode mode)) ++
     [EvCodecOpen gz filename (normalize_mode mode)
        (gzip_codec_level (normalize_mode mode) compresslevel)],
     match codec_error w gz filename (normalize_mode mode)
             (gzip_codec_level (normalize_mode mode) compresslevel) with
     | Some e => Raise e
     | None => Return (CodecFile gz filename (normalize_mode mode)
                         (gzip_codec_level (normalize_mode mode) compresslevel))
     end) /\
  existsb is_subprocess_event
    (trace (xopen w filename mode compresslevel (Some 0%Z))) = false.
Proof.
  intros Hf Hm Hgz.
  assert (E : xopen w filename mode compresslevel (Some 0%Z) =
              (trace (detect_format w filename (normalize_mode mode)) ++
               [EvCodecOpen gz filename (normalize_mode mode)
                  (gzip_codec_level (normalize_mode mode) compresslevel)],
               match codec_error w gz filename (normalize_mode mode)
                       (gzip_codec_level (normalize_mode mode) compresslevel) with
               | Some e => Raise e
               | None => Return (CodecFile gz filename (normalize_mode mode)
                                   (gzip_codec_level (normalize_mode mode)
                                      compresslevel))
               end)).
  { rewrite xopen_dispatch by assumption.
    rewrite (M_eta (detect_format w filename (normalize_mode mode))), Hgz.
    cbn [bind]. rewrite open_gz_threads_zero, codec_open_eq. reflexivity. }
  split; [exact E|].
  rewrite E. cbn [trace fst]. rewrite existsb_app. simpl. rewrite orb_false_r.
  pose proof (detect_format_trace w filename (normalize_mode mode)) as Hd.
  destruct (existsb is_subprocess_event
              (trace (detect_format w filename (normalize_mode mode)))) eqn:X;
    [| reflexivity].
  apply existsb_exists in X. destruct X as [ev [Hin Hev]].
  rewrite forallb_forall in Hd. specialize (Hd ev Hin).
  destruct ev; discriminate.
Qed.

Lemma threads_zero_stays_in_process_witness :
  xopen full_world "out.gz" "w" None (Some 0%Z) =
    ([EvCodecOpen gz "out.gz" "wt" (Some 6%Z)],
     Return (CodecFile gz "out.gz" "wt" (Some 6%Z))) /\
  existsb is_subprocess_event
    (trace (xopen full_world "out.gz" "w" None (Some 0%Z))) = false.
Proof.
  apply (threads_zero_stays_in_process full_world "out.gz" "w" None).
  - discriminate.
  - simpl. auto.
  - reflexivity.
Defined.

(** The same file with the external backends enabled does start a process. *)
Example threads_default_spawns :
  existsb is_spawn (trace (xopen full_world "out.gz" "w" None None)) = true /\
  existsb is_spawn (trace (xopen full_world "data" "rb" None None)) = true /\
  existsb is_subprocess_event
    (trace (xopen full_world "data" "rb" None (Some 0%Z))) = false.
Proof. repeat split. Qed.

Lemma in_trace_bind {A B} (ev : event) (m : M A) (k : A -> M B) :
  In ev (trace (bind m k)) ->
  In ev (trace m) \/ exists a, outcome m = Return a /\ In ev (trace (k a)).
Proof.
  rewrite trace_bind, in_app_iff. intros [H | H]; [now left|].
  destruct (outcome m) as [a | e]; [right; now exists a | destruct H].
Qed.

Lemma in_trace_try {A} (ev : event) (m : M A) (handles : exn -> bool)
    (h : exn -> M A) :
  In ev (trace (try_except m handles h)) ->
  In ev (trace m) \/
  exists e, outcome m = Raise e /\ handles e = true /\ In ev (trace (h e)).
Proof.
  rewrite trace_try_except, in_app_iff. intros [H | H]; [now left|].
  destruct (outcome m) as [a | e]; [destruct H|].
  destruct (handles e) eqn:E; [right; now exists e | destruct H].
Qed.

Lemma in_forallb {A} (P : A -> bool) (l : list A) (x : A) :
  forallb P l = true -> In x l -> P x = true.
Proof. rewrite forallb_forall. auto. Qed.

(** Wrapping the result of a constructor never adds an event. *)
Lemma trace_bind_ret {A B} (m : M A) (f : A -> B) :
  trace (x <- m ;; ret (f x)) = trace m.
Proof.
  rewrite trace_bind. destruct (outcome m); simpl; now rewrite app_nil_r.
Qed.

Lemma outcome_bind_ret {A B} (m : M A) (f : A -> B) :
  outcome (x <- m ;; ret (f x)) =
  match outcome m with
  | Return a => Return (f a)
  | Raise e => Raise e
  end.
Proof. rewrite outcome_bind. destruct (outcome m); reflexivity. Qed.

(** The external part of [_open_gz] on a write: igzip, then pigz or gzip. *)
Lemma open_gz_write_external (w : World) (filename mode : string)
    (compresslevel threads : option Z) (ev : event) :
  In ev (trace (try_except
                  (wr <- PipedIGzipWriter_init w filename mode compresslevel ;;
                   ret (PipedWriter wr))
                  handles_missing_or_value
                  (fun _ =>
                     wr <- PipedGzipWriter_init w filename mode compresslevel
                             threads ;;
                     ret (PipedWriter wr)))) ->
  writer_init_event ["igzip"; "pigz"; "gzip"] ev = true.
Proof.
  intros H. apply in_trace_try in H.
  destruct H as [H | [e [_ [_ H]]]]; rewrite trace_bind_ret in H.
  - eapply writer_init_event_mono;
      [| eapply in_forallb; [apply igzip_writer_init_trace | exact H]].
    simpl; tauto.
  - eapply writer_init_event_mono;
      [| eapply in_forallb; [apply gzip_writer_init_trace | exact H]].
    simpl; tauto.
Qed.

Lemma open_gz_write_external_outcome (w : World) (filename mode : string)
    (compresslevel threads : option Z) (h : handle) :
  outcome (try_except
             (wr <- PipedIGzipWriter_init w filename mode compresslevel ;;
              ret (PipedWriter wr))
             handles_missing_or_value
             (fun _ =>
                wr <- PipedGzipWriter_init w filename mode compresslevel
                        threads ;;
                ret (PipedWriter wr))) = Return h ->
  exists wr, h = PipedWriter wr.
Proof.
  rewrite outcome_try_except, !outcome_bind_ret.
  destruct (outcome (PipedIGzipWriter_init w filename mode compresslevel))
    as [wr | e].
  - intros [= <-]. now exists wr.
  - destruct (handles_missing_or_value e); [| discriminate].
    destruct (outcome (PipedGzipWriter_init w filename mode compresslevel
                         threads)) as [wr | e']; [| discriminate].
    intros [= <-]. now exists wr.
Qed.



(** With no external program at hand the write does fall through, with
    level 6 by default and the caller's level otherwise; a read is given no
    level at all. *)
Example fall_through_levels :
  outcome (xopen bare_world "out.gz" "w" None None)
    = Return (CodecFile gz "out.gz" "wt" (Some 6%Z)) /\
  outcome (xopen bare_world "out.gz" "ab" (Some 9%Z) None)
    = Return (CodecFile gz "out.gz" "ab" (Some 9%Z)) /\
  outcome (xopen bare_world "out.gz" "wb" (Some 2%Z) (Some 0%Z))
    = Return (CodecFile gz "out.gz" "wb" (Some 2%Z)) /\
  outcome (xopen bare_world "out.gz" "rb" (Some 2%Z) None)
    = Return (CodecFile gz "out.gz" "rb" None).
Proof. repeat split. Qed.

(** ** Readers and the probe *)

Lemma raise_if_error_trace (p : Process) (allow_sigterm : bool)
    (programs : list string) :
  forallb (reader_init_event programs)
    (trace (_raise_if_error p allow_sigterm)) = true.
Proof.
  unfold _raise_if_error.
  destruct (p_returncode p) as [retcode |]; [| reflexivity].
  destruct (negb (retcode =? 0)%Z
            && negb (allow_sigterm && (retcode =? - Py.SIGTERM)%Z));
    [destruct (p_stderr_decodable p)|]; reflexivity.
Qed.

Lemma reader_init_trace (w : World) (path program mode : string)
    (threads_flag : option string) (threads : option Z) :
  forallb (reader_init_event [program])
    (trace (PipedCompressionReader_init w path program mode threads_flag
              threads)) = true.
Proof.
  unfold PipedCompressionReader_init.
  destruct (negb (Py.str_in mode ["r"; "rt"; "rb"])); [reflexivity|].
  apply forallb_trace_bind.
  - apply Popen_trace; simpl; now rewrite String.eqb_refl.
  - intros process _.
    apply forallb_trace_bind; [reflexivity | intros _ _].
    apply forallb_trace_bind; [apply raise_if_error_trace | intros _ _].
    reflexivity.
Qed.

Lemma reader_init_event_mono (ps qs : list string) (ev : event) :
  (forall p, In p ps -> In p qs) ->
  reader_init_event ps ev = true -> reader_init_event qs ev = true.
Proof.
  intros Hsub. destruct ev; simpl; auto; rewrite !str_in_In; auto.
Qed.

Lemma gzip_reader_init_trace (w : World) (path mode : string)
    (threads : option Z) :
  forallb (reader_init_event ["pigz"; "gzip"])
    (trace (PipedGzipReader_init w path mode threads)) = true.
Proof.
  unfold PipedGzipReader_init.
  apply forallb_trace_try; [| intros _ _ _];
    (eapply forallb_impl; [| apply reader_init_trace]);
    intros ev; apply reader_init_event_mono; simpl; tauto.
Qed.

Lemma probe_trace (w : World) (program : string) :
  trace (_can_read_concatenated_gz w program) =
  [if run_finds w program
   then EvRun [program; "-c"; "-d"; test_gz]
   else EvRunFailed [program; "-c"; "-d"; test_gz]].
Proof.
  unfold _can_read_concatenated_gz.
  destruct (run_finds w program); [| reflexivity].
  destruct (probe_run w program) as [rc stdout]. simpl.
  destruct (rc =? 0)%Z; reflexivity.
Qed.

Lemma igzip_reader_init_trace (w : World) (path mode : string) :
  exists t,
    trace (PipedIGzipReader_init w path mode) =
    (if run_finds w "igzip"
     then EvRun ["igzip"; "-c"; "-d"; test_gz]
     else EvRunFailed ["igzip"; "-c"; "-d"; test_gz]) :: t /\
    forallb (reader_init_event ["igzip"]) t = true.
Proof.
  unfold PipedIGzipReader_init. rewrite trace_bind, probe_trace.
  eexists; split; [reflexivity|].
  destruct (outcome (_can_read_concatenated_gz w "igzip")) as [[|] | e];
    simpl; try reflexivity.
  apply reader_init_trace.
Qed.

Lemma writer_event_is_open_gz_event (ps : list string) (ev : event) :
  writer_init_event ps ev = true -> open_gz_event ev = true.
Proof. destruct ev; simpl; auto; discriminate. Qed.

Lemma reader_event_is_open_gz_event (ps : list string) (ev : event) :
  reader_init_event ps ev = true -> open_gz_event ev = true.
Proof. destruct ev; simpl; auto; discriminate. Qed.

Lemma open_gz_inprocess_trace (w : World) (filename mode : string)
    (compresslevel : option Z) :
  trace (_open_gz_inprocess w filename mode compresslevel) =
  [EvCodecOpen gz filename mode (gzip_codec_level mode compresslevel)].
Proof.
  unfold _open_gz_inprocess, gzip_codec_level.
  destruct (Py.char_in "r" mode); now rewrite codec_open_eq.
Qed.

Lemma open_gz_trace (w : World) (filename mode : string)
    (compresslevel threads : option Z) :
  forallb open_gz_event
    (trace (_open_gz w filename mode compresslevel threads)) = true.
Proof.
  unfold _open_gz.
  destruct (threads_nonzero threads);
    [| now rewrite open_gz_inprocess_trace].
  apply forallb_trace_try;
    [| intros _ _ _; now rewrite open_gz_inprocess_trace].
  destruct (Py.char_in "r" mode).
  - apply forallb_trace_try; [| intros _ _ _]; rewrite trace_bind_ret.
    + destruct (igzip_reader_init_trace w filename mode) as [t [-> Ht]].
      simpl. apply andb_true_intro. split;
        [destruct (run_finds w "igzip"); reflexivity|].
      eapply forallb_impl; [| exact Ht].
      apply reader_event_is_open_gz_event.
    + eapply forallb_impl; [| apply gzip_reader_init_trace].
      apply reader_event_is_open_gz_event.
  - apply forallb_forall. intros ev Hin.
    apply open_gz_write_external in Hin.
    eapply writer_event_is_open_gz_event; exact Hin.
Qed.

(** ** When the content of the file is looked at *)

Lemma existsb_false_of_forallb {A} (P Q : A -> bool) (l : list A) :
  (forall x, Q x = true -> P x = false) ->
  forallb Q l = true -> existsb P l = false.
Proof.
  intros HPQ HQ. destruct (existsb P l) eqn:E; [| reflexivity].
  apply existsb_exists in E. destruct E as [x [Hin HP]].
  rewrite forallb_forall in HQ. rewrite (HPQ x (HQ x Hin)) in HP.
  discriminate.
Qed.

Lemma stdin_or_out_no_probe (w : World) (mode : string) :
  existsb is_content_probe (trace (_open_stdin_or_out w mode)) = false.
Proof.
  unfold _open_stdin_or_out. destruct mode as [| c mode]; [reflexivity|].
  destruct (Ascii.eqb c "r"); [| destruct (Ascii.eqb c "w")]; simpl;
    try reflexivity;
    match goal with
    | |- context [fdopen_error ?w ?fd ?m] => destruct (fdopen_error w fd m)
    end; reflexivity.
Qed.

Lemma dispatch_no_probe (w : World) (filename mode : string)
    (compresslevel threads : option Z) (detected_format : option format) :
  existsb is_content_probe
    (trace match detected_format with
           | Some gz => _open_gz w filename mode compresslevel threads
           | Some xz => _open_xz w filename mode
           | Some bz2 => _open_bz2 w filename mode
           | None => builtin_open w filename mode ;;; ret (PlainFile filename mode)
           end) = false.
Proof.
  destruct detected_format as [[| |] |].
  - eapply existsb_false_of_forallb; [| apply open_gz_trace].
    intros ev. destruct ev; simpl; auto; discriminate.
  - unfold _open_bz2. now rewrite codec_open_eq.
  - unfold _open_xz. destruct (lzma_present w); [| reflexivity].
    now rewrite codec_open_eq.
  - unfold builtin_open. simpl.
    destruct (open_error w filename mode); reflexivity.
Qed.

Lemma legal_without_w (mode : string) :
  In mode legal_modes -> Py.char_in "w" mode = false ->
  In mode ["rt"; "rb"; "at"; "ab"].
Proof.
  simpl. intros [<- | [<- | [<- | [<- | [<- | [<- | []]]]]]] H;
    try discriminate; auto 10.
Qed.

Lemma xopen_probe_only_without_w (w : World) (filename mode : string)
    (compresslevel threads : option Z) :
  existsb is_content_probe
    (trace (xopen w filename mode compresslevel threads)) = true ->
  filename <> "-" /\
  _detect_format_from_extension filename = None /\
  In (normalize_mode mode) ["rt"; "rb"; "at"; "ab"].
Proof.
  destruct (Py.str_in (normalize_mode mode) legal_modes) eqn:Hlegal.
  - apply str_in_In in Hlegal.
    destruct (String.eqb_spec filename "-") as [-> | Hdash].
    + unfold xopen. apply str_in_In in Hlegal. rewrite Hlegal. simpl.
      now rewrite stdin_or_out_no_probe.
    + rewrite xopen_dispatch, trace_bind, existsb_app by assumption.
      destruct (outcome (detect_format w filename (normalize_mode mode)))
        as [d | e].
      * rewrite dispatch_no_probe, orb_false_r.
        unfold detect_format.
        destruct (_detect_format_from_extension filename);
          [discriminate|].
        destruct (Py.char_in "w" (normalize_mode mode)) eqn:Hw;
          [discriminate|].
        intros _. auto using legal_without_w.
      * cbn [existsb]. rewrite orb_false_r. unfold detect_format.
        destruct (_detect_format_from_extension filename);
          [discriminate|].
        destruct (Py.char_in "w" (normalize_mode mode)) eqn:Hw;
          [discriminate|].
        intros _. auto using legal_without_w.
  - unfold xopen. rewrite Hlegal. discriminate.
Qed.

(** C1, amended: [xopen] inspects the target (stat, then the first six
    bytes) only when the extension gives no format and the normalized mode
    has no ['w'], that is on reads and on appends; with ['w'], ['wt'] or
    ['wb'] it never does; and with a read or append mode on a path without
    a known extension it always starts with the stat and, for a regular
    file, goes on to read the first six bytes. *)
Theorem content_detection_only_without_w (w : World) (filename mode : string)
    (compresslevel threads : option Z) :
  (existsb is_content_probe
     (trace (xopen w filename mode compresslevel threads)) = true ->
   filename <> "-" /\
   _detect_format_from_extension filename = None /\
   In (normalize_mode mode) ["rt"; "rb"; "at"; "ab"]) /\
  (In mode ["w"; "wt"; "wb"] ->
   existsb is_content_probe
     (trace (xopen w filename mode compresslevel threads)) = false) /\
  (filename <> "-" ->
   _detect_format_from_extension filename = None ->
   In (normalize_mode mode) ["rt"; "rb"; "at"; "ab"] ->
   exists t,
     trace (xopen w filename mode compresslevel threads)
       = EvStat filename :: t /\
     (stat_isreg w filename = Some true ->
      exists t', t = EvSniff filename 6 :: t')).
Proof.
  split; [apply xopen_probe_only_without_w|]. split.
  - intros Hmode.
    destruct (existsb is_content_probe
                (trace (xopen w filename mode compresslevel threads))) eqn:E;
      [| reflexivity].
    apply xopen_probe_only_without_w in E. destruct E as [_ [_ E]].
    simpl in Hmode, E.
    destruct Hmode as [<- | [<- | [<- | []]]]; simpl in E;
      intuition discriminate.
  - intros Hdash Hext Hmode.
    assert (Hw : Py.char_in "w" (normalize_mode mode) = false).
    { simpl in Hmode.
      destruct Hmode as [<- | [<- | [<- | [<- | []]]]]; reflexivity. }
    assert (Hlegal : In (normalize_mode mode) legal_modes).
    { simpl in Hmode. simpl. intuition. }
    rewrite xopen_dispatch, trace_bind by assumption.
    unfold detect_format at 1. rewrite Hext, Hw. cbn [negb].
    unfold _detect_format_from_content at 1. rewrite trace_bind.
    cbn [emit trace outcome fst snd app].
    eexists. split; [reflexivity|].
    intros Hreg. rewrite Hreg, trace_bind.
    cbn [emit trace outcome fst snd app].
    eexists. reflexivity.
Qed.

Lemma content_detection_only_without_w_witness :
  existsb is_content_probe
    (trace (xopen full_world "data" "wb" None None)) = false /\
  exists t,
    trace (xopen full_world "data" "rb" None None) = EvStat "data" :: t /\
    (stat_isreg full_world "data" = Some true ->
     exists t', t = EvSniff "data" 6 :: t').
Proof.
  pose proof (content_detection_only_without_w full_world "data" "wb" None None)
    as [_ [Hwrite _]].
  pose proof (content_detection_only_without_w full_world "data" "rb" None None)
    as [_ [_ Hread]].
  split.
  - apply Hwrite. simpl. auto.
  - apply Hread; [discriminate | reflexivity | simpl; auto].
Defined.

(** C1 as stated fails on appends: ['a'], ['at'] and ['ab'] on the
    extension-less gzip file [data] stat it, read its first six bytes and,
    from what they find, open it with the gzip codec. *)
Lemma append_mode_sniffs_content :
  xopen full_world "data" "ab" None (Some 0%Z) =
    ([EvStat "data"; EvSniff "data" 6; EvCodecOpen gz "data" "ab" (Some 6%Z)],
     Return (CodecFile gz "data" "ab" (Some 6%Z))) /\
  xopen full_world "data" "a" None (Some 0%Z) =
    ([EvStat "data"; EvSniff "data" 6; EvCodecOpen gz "data" "at" (Some 6%Z)],
     Return (CodecFile gz "data" "at" (Some 6%Z))) /\
  In (EvSniff "data" 6) (trace (xopen full_world "data" "at" None None)) /\
  xopen full_world "data" "wb" None (Some 0%Z) =
    ([EvOpen "data" "wb"], Return (PlainFile "data" "wb")).
Proof. repeat split. simpl. auto. Qed.

(** ** How often the igzip probe runs *)

Lemma count_probe_runs_app (t1 t2 : list event) :
  count_probe_runs (t1 ++ t2) = count_probe_runs t1 + count_probe_runs t2.
Proof. unfold count_probe_runs. now rewrite filter_app, length_app. Qed.

Lemma count_probe_runs_none (Q : event -> bool) (t : list event) :
  (forall ev, Q ev = true -> is_probe_run ev = false) ->
  forallb Q t = true -> count_probe_runs t = 0.
Proof.
  intros HQ. unfold count_probe_runs.
  induction t as [| ev t IH]; simpl; [reflexivity|].
  intros H. apply andb_prop in H. destruct H as [Hev Ht].
  rewrite (HQ ev Hev). auto.
Qed.

Lemma reader_event_not_probe (ps : list string) (ev : event) :
  reader_init_event ps ev = true -> is_probe_run ev = false.
Proof. destruct ev; simpl; auto; discriminate. Qed.

Lemma count_igzip_reader (w : World) (path mode : string) :
  count_probe_runs (trace (PipedIGzipReader_init w path mode)) =
  if run_finds w "igzip" then 1 else 0.
Proof.
  destruct (igzip_reader_init_trace w path mode) as [t [-> Ht]].
  change (?ev :: t) with ([ev] ++ t).
  rewrite count_probe_runs_app,
    (count_probe_runs_none _ t (reader_event_not_probe ["igzip"]) Ht).
  destruct (run_finds w "igzip"); reflexivity.
Qed.

Lemma count_open_gz_read (w : World) (filename mode : string)
    (compresslevel threads : option Z) :
  Py.char_in "r" mode = true -> threads_nonzero threads = true ->
  count_probe_runs (trace (_open_gz w filename mode compresslevel threads)) =
  if run_finds w "igzip" then 1 else 0.
Proof.
  intros Hr Ht. unfold _open_gz. rewrite Hr, Ht.
  rewrite trace_try_except, count_probe_runs_app.
  rewrite trace_try_except, count_probe_runs_app.
  rewrite trace_bind_ret, count_igzip_reader.
  assert (H1 : forall (r : result handle),
             count_probe_runs
               match r with
               | Return _ => []
               | Raise e =>
                   if handles_missing_or_value e
                   then trace (rd <- PipedGzipReader_init w filename mode threads ;;
                               ret (PipedReader rd))
                   else []
               end = 0).
  { intros [h | e]; [reflexivity|].
    destruct (handles_missing_or_value e); [| reflexivity].
    rewrite trace_bind_ret.
    apply (count_probe_runs_none _ _ (reader_event_not_probe ["pigz"; "gzip"])).
    apply gzip_reader_init_trace. }
  assert (H2 : forall (r : result handle),
             count_probe_runs
               match r with
               | Return _ => []
               | Raise e =>
                   if is_FileNotFoundError e
                   then trace (_open_gz_inprocess w filename mode compresslevel)
                   else []
               end = 0).
  { intros [h | e]; [reflexivity|].
    destruct (is_FileNotFoundError e); [| reflexivity].
    now rewrite open_gz_inprocess_trace. }
  rewrite H1, H2. lia.
Qed.

Lemma count_piped_gz_read (w : World) (c : call) :
  is_piped_gz_read c = true ->
  count_probe_runs (trace (run_call w c)) =
  if run_finds w "igzip" then 1 else 0.
Proof.
  unfold is_piped_gz_read, run_call. intros H.
  apply andb_prop in H. destruct H as [H Hthreads].
  apply andb_prop in H. destruct H as [Hgz Hmode].
  assert (Hext : _detect_format_from_extension (c_filename c) = Some gz).
  { rewrite extension_of_suffix. now rewrite Hgz. }
  assert (Hdash : c_filename c <> "-").
  { intros E. rewrite E in Hgz. discriminate. }
  assert (Hm : In (normalize_mode (c_mode c)) legal_modes
               /\ Py.char_in "r" (normalize_mode (c_mode c)) = true).
  { apply str_in_In in Hmode. simpl in Hmode.
    destruct Hmode as [<- | [<- | [<- | []]]]; simpl; auto 10. }
  destruct Hm as [Hlegal Hr].
  rewrite xopen_dispatch by assumption.
  unfold detect_format. rewrite Hext. cbn [bind ret].
  destruct (_open_gz w (c_filename c) (normalize_mode (c_mode c))
              (c_compresslevel c) (c_threads c)) as [t r] eqn:E.
  cbn [trace fst app].
  change t with (trace (t, r)). rewrite <- E.
  now apply count_open_gz_read.
Qed.

(** C9, amended: nothing is cached.  Each read of a [.gz] file with the
    external backends enabled runs the igzip probe afresh, so over a process
    that makes [n] such calls the probe subprocess runs [n] times when igzip
    is found (and is attempted [n] times, without a run, when it is not). *)
Theorem probe_runs_at_every_gz_read (w : World) (calls : list call) :
  forallb is_piped_gz_read calls = true ->
  count_probe_runs (session w calls) =
  if run_finds w "igzip" then length calls else 0.
Proof.
  induction calls as [| c calls IH]; simpl.
  - intros _. now destruct (run_finds w "igzip").
  - intros H. apply andb_prop in H. destruct H as [Hc Hcalls].
    rewrite count_probe_runs_app, (count_piped_gz_read w c Hc), (IH Hcalls).
    now destruct (run_finds w "igzip").
Qed.

Lemma probe_runs_at_every_gz_read_witness :
  count_probe_runs
    (session full_world
       [read_call "a.gz"; read_call "b.gz"; read_call "a.gz"]) = 3.
Proof.
  apply (probe_runs_at_every_gz_read full_world
           [read_call "a.gz"; read_call "b.gz"; read_call "a.gz"]).
  reflexivity.
Defined.

(** C9 as stated fails: two reads of the same file in one process run the
    probe subprocess twice. *)
Lemma probe_runs_twice :
  session full_world [read_call "reads.gz"; read_call "reads.gz"] =
    [EvRun ["igzip"; "-c"; "-d"; test_gz];
     EvSpawn ["igzip"; "-cd"; "reads.gz"]; EvSleep; EvPoll "igzip";
     EvRun ["igzip"; "-c"; "-d"; test_gz];
     EvSpawn ["igzip"; "-cd"; "reads.gz"]; EvSleep; EvPoll "igzip"] /\
  count_probe_runs
    (session full_world [read_call "reads.gz"; read_call "reads.gz"]) = 2.
Proof. split; reflexivity. Qed.

(** ** Compression levels on a gzip write *)





Lemma xopen_gz_by_extension (w : World) (filename mode : string)
    (compresslevel threads : option Z) :
  Py.endswith filename ".gz" = true ->
  In (normalize_mode mode) legal_modes ->
  xopen w filename mode compresslevel threads =
  _open_gz w filename (normalize_mode mode) compresslevel threads.
Proof.
  intros Hgz Hlegal.
  assert (Hdash : filename <> "-").
  { intros E. rewrite E in Hgz. discriminate. }
  rewrite xopen_dispatch by assumption.
  unfold detect_format. rewrite extension_of_suffix, Hgz. cbn [bind ret].
  destruct (_open_gz w filename (normalize_mode mode) compresslevel threads).
  reflexivity.
Qed.



(** Without igzip the same call does end in the ValueError of the pigz/gzip
    writer, but only after the destination was opened for the igzip
    attempt. *)
Example level_zero_without_igzip :
  xopen bare_world "out.gz" "wb" (Some 0%Z) None =
  ([EvOpen "out.gz" "wb"; EvOpen "/dev/null" "wb";
    EvSpawnFailed ["igzip"; "-0"]; EvClose "out.gz"; EvClose "/dev/null"],
   Raise (ValueError "compresslevel must be between 1 and 9")).
Proof. reflexivity. Qed.

(** ** bz2 and append *)

(** C2: the code makes no check of its own.  On a path tagged bz2 an append
    mode goes straight to [bz2.open]: the codec is called with the append
    mode, and what [xopen] returns or raises is what the codec does. *)
Theorem bz2_append_reaches_codec (w : World) (filename mode : string)
    (compresslevel threads : option Z) :
  filename <> "-" ->
  In mode ["a"; "at"; "ab"] ->
  outcome (detect_format w filename (normalize_mode mode)) = Return (Some bz2) ->
  xopen w filename mode compresslevel threads =
  (trace (detect_format w filename (normalize_mode mode)) ++
   [EvCodecOpen bz2 filename (normalize_mode mode) None],
   match codec_error w bz2 filename (normalize_mode mode) None with
   | Some e => Raise e
   | None => Return (CodecFile bz2 filename (normalize_mode mode) None)
   end).
Proof.
  intros Hdash Hmode Hbz.
  assert (Hlegal : In (normalize_mode mode) legal_modes).
  { simpl in Hmode.
    destruct Hmode as [<- | [<- | [<- | []]]]; simpl; auto 10. }
  rewrite xopen_dispatch by assumption.
  rewrite (M_eta (detect_format w filename (normalize_mode mode))), Hbz.
  cbn [bind]. unfold _open_bz2. rewrite codec_open_eq. reflexivity.
Qed.

Lemma bz2_append_reaches_codec_witness :
  xopen full_world "log.bz2" "a" None None =
  ([EvCodecOpen bz2 "log.bz2" "at" None],
   Return (CodecFile bz2 "log.bz2" "at" None)).
Proof.
  apply (bz2_append_reaches_codec full_world "log.bz2" "a" None None).
  - discriminate.
  - simpl. auto.
  - reflexivity.
Defined.

(** * Further properties of the code *)

(** ** Magic numbers *)

Lemma bytes_eqb_eq (a b : list byte) : Py.bytes_eqb a b = true <-> a = b.
Proof.
  revert b. induction a as [| x a IH]; intros [| y b]; simpl;
    try (split; [discriminate | discriminate]); [tauto|].
  rewrite andb_true_iff, IH. split.
  - intros [Hxy ->]. now rewrite (Byte.byte_dec_bl x y Hxy).
  - intros [= -> ->]. split; [now apply Byte.byte_dec_lb | reflexivity].
Qed.

Lemma firstn_is_prefix {A} (p c : list A) :
  firstn (length p) c = p <-> exists rest, c = p ++ rest.
Proof.
  split.
  - intros H. exists (skipn (length p) c).
    rewrite <- H at 1. symmetry. apply firstn_skipn.
  - intros [rest ->]. rewrite firstn_app, Nat.sub_diag, firstn_all.
    simpl. apply app_nil_r.
Qed.

Lemma magic_test_spec (magic content : list byte) :
  length magic <= 6 ->
  Py.bytes_eqb (firstn (length magic) (firstn 6 content)) magic = true
  <-> exists rest, content = magic ++ rest.
Proof.
  intros Hlen. rewrite bytes_eqb_eq, firstn_firstn, Nat.min_l by assumption.
  apply firstn_is_prefix.
Qed.

(** X1: on a regular, readable file content detection stats the file,
    reads six bytes and answers gz, bz2 or xz exactly when the content
    starts with the magic number of that format (two, three and six bytes
    long), and nothing otherwise. *)
Theorem content_detection_by_magic (w : World) (filename : string)
    (content : list byte) :
  stat_isreg w filename = Some true ->
  file_bytes w filename = Some content ->
  exists r,
    _detect_format_from_content w filename =
      ([EvStat filename; EvSniff filename 6], Return r) /\
    (r = Some gz <-> exists rest, content = magic_gz ++ rest) /\
    (r = Some bz2 <-> exists rest, content = magic_bz2 ++ rest) /\
    (r = Some xz <-> exists rest, content = magic_xz ++ rest) /\
    (r = None <-> (forall rest, content <> magic_gz ++ rest) /\
                  (forall rest, content <> magic_bz2 ++ rest) /\
                  (forall rest, content <> magic_xz ++ rest)).
Proof.
  intros Hreg Hbytes.
  pose proof (magic_test_spec magic_gz content ltac:(simpl; lia)) as Hgz.
  pose proof (magic_test_spec magic_bz2 content ltac:(simpl; lia)) as Hbz.
  pose proof (magic_test_spec magic_xz content ltac:(simpl; lia)) as Hxz.
  unfold _detect_format_from_content. rewrite Hreg, Hbytes.
  change (length magic_gz) with 2 in Hgz.
  change (length magic_bz2) with 3 in Hbz.
  change (length magic_xz) with 6 in Hxz.
  assert (Hgb : forall r1 r2, magic_gz ++ r1 <> magic_bz2 ++ r2)
    by (intros r1 r2; discriminate).
  assert (Hgx : forall r1 r2, magic_gz ++ r1 <> magic_xz ++ r2)
    by (intros r1 r2; discriminate).
  assert (Hbx : forall r1 r2, magic_bz2 ++ r1 <> magic_xz ++ r2)
    by (intros r1 r2; discriminate).
  destruct (Py.bytes_eqb (firstn 2 (firstn 6 content)) magic_gz) eqn:G;
    [| destruct (Py.bytes_eqb (firstn 3 (firstn 6 content)) magic_bz2) eqn:Bz;
       [| destruct (Py.bytes_eqb (firstn 6 (firstn 6 content)) magic_xz) eqn:X]];
    (eexists; split; [reflexivity|]).
  - destruct (proj1 Hgz eq_refl) as [rest ->].
    repeat split; try discriminate; eauto;
      try (intros [r E]; exfalso; eapply Hgb + eapply Hgx; exact E).
    intros [H _]. exfalso. now apply (H rest).
  - destruct (proj1 Hbz eq_refl) as [rest ->].
    repeat split; try discriminate; eauto;
      try (intros [r E]; exfalso; (eapply Hgb + eapply Hbx); eauto; fail).
    intros [_ [H _]]. exfalso. now apply (H rest).
  - destruct (proj1 Hxz eq_refl) as [rest ->].
    repeat split; try discriminate; eauto;
      try (intros [r E]; exfalso; (eapply Hgx + eapply Hbx); eauto; fail).
    intros [_ [_ H]]. exfalso. now apply (H rest).
  - assert (Ng : forall rest, content <> magic_gz ++ rest).
    { intros rest E. assert (Hx : exists r, content = magic_gz ++ r) by eauto.
      apply Hgz in Hx. discriminate. }
    assert (Nb : forall rest, content <> magic_bz2 ++ rest).
    { intros rest E. assert (Hx : exists r, content = magic_bz2 ++ r) by eauto.
      apply Hbz in Hx. discriminate. }
    assert (Nx : forall rest, content <> magic_xz ++ rest).
    { intros rest E. assert (Hx : exists r, content = magic_xz ++ r) by eauto.
      apply Hxz in Hx. discriminate. }
    split; [split; [discriminate | intros [r E]; now apply Ng in E]|].
    split; [split; [discriminate | intros [r E]; now apply Nb in E]|].
    split; [split; [discriminate | intros [r E]; now apply Nx in E]|].
    split; auto.
Qed.

Lemma content_detection_by_magic_witness :
  exists r,
    _detect_format_from_content full_world "data" =
      ([EvStat "data"; EvSniff "data" 6], Return r) /\
    (r = Some gz <->
     exists rest, [x1f; x8b; x08; x00; x00; x00; x00; x00] = magic_gz ++ rest) /\
    (r = Some bz2 <->
     exists rest, [x1f; x8b; x08; x00; x00; x00; x00; x00] = magic_bz2 ++ rest) /\
    (r = Some xz <->
     exists rest, [x1f; x8b; x08; x00; x00; x00; x00; x00] = magic_xz ++ rest) /\
    (r = None <->
     (forall rest, [x1f; x8b; x08; x00; x00; x00; x00; x00] <> magic_gz ++ rest) /\
     (forall rest, [x1f; x8b; x08; x00; x00; x00; x00; x00] <> magic_bz2 ++ rest) /\
     (forall rest, [x1f; x8b; x08; x00; x00; x00; x00; x00] <> magic_xz ++ rest)).
Proof.
  apply (content_detection_by_magic full_world "data"
           [x1f; x8b; x08; x00; x00; x00; x00; x00]); reflexivity.
Defined.

(** A file of one byte, or an empty one, has no format; two bytes are
    enough for gzip. *)
Example short_files :
  forall w : World,
    stat_isreg w "f" = Some true ->
    (file_bytes w "f" = Some [] ->
     outcome (_detect_format_from_content w "f") = Return None) /\
    (file_bytes w "f" = Some [x1f] ->
     outcome (_detect_format_from_content w "f") = Return None) /\
    (file_bytes w "f" = Some [x1f; x8b] ->
     outcome (_detect_format_from_content w "f") = Return (Some gz)) /\
    (file_bytes w "f" = Some [xfd; x37; x7a; x58; x5a] ->
     outcome (_detect_format_from_content w "f") = Return None).
Proof.
  intros w Hreg. unfold _detect_format_from_content. rewrite Hreg.
  repeat split; intros ->; reflexivity.
Qed.

(** X2: an OSError during content detection is swallowed, a ValueError is
    not.  When [os.stat] raises OSError, or the path is not a regular file
    (a pipe, a device, a directory), the answer is "no format" and the file
    is not opened; when opening or reading the file raises OSError, the
    answer is "no format" as well.  When [os.stat] raises ValueError (a
    name holding a null character), that error leaves the function, and a
    read or append through [xopen] of such a name without known extension
    raises it, having done nothing else. *)
Theorem content_detection_swallows_errors (w : World) (filename : string) :
  (stat_isreg w filename = None -> stat_raises w filename = StatOSError ->
   _detect_format_from_content w filename = ([EvStat filename], Return None)) /\
  (stat_isreg w filename = Some false ->
   _detect_format_from_content w filename = ([EvStat filename], Return None)) /\
  (stat_isreg w filename = Some true -> file_bytes w filename = None ->
   _detect_format_from_content w filename =
   ([EvStat filename; EvSniff filename 6], Return None)) /\
  (stat_isreg w filename = None -> stat_raises w filename = StatEmbeddedNull ->
   _detect_format_from_content w filename =
     ([EvStat filename], Raise (ValueError "embedded null byte")) /\
   forall mode compresslevel threads,
     filename <> "-" ->
     _detect_format_from_extension filename = None ->
     In mode ["r"; "rt"; "rb"; "a"; "at"; "ab"] ->
     xopen w filename mode compresslevel threads =
     ([EvStat filename], Raise (ValueError "embedded null byte"))).
Proof.
  unfold _detect_format_from_content.
  split; [| split; [| split]].
  - intros -> ->. reflexivity.
  - intros ->. reflexivity.
  - intros -> ->. reflexivity.
  - intros Hreg Hnull. split; [now rewrite Hreg, Hnull|].
    intros mode compresslevel threads Hdash Hext Hmode.
    assert (Hm : In (normalize_mode mode) legal_modes
                 /\ Py.char_in "w" (normalize_mode mode) = false).
    { simpl in Hmode.
      destruct Hmode as [<- | [<- | [<- | [<- | [<- | [<- | []]]]]]];
        simpl; auto 10. }
    destruct Hm as [Hlegal Hw].
    rewrite xopen_dispatch by assumption.
    unfold detect_format, _detect_format_from_content.
    rewrite Hext, Hw, Hreg, Hnull. reflexivity.
Qed.

Lemma content_detection_swallows_errors_witness :
  _detect_format_from_content bare_world "/dev/stdin" =
    ([EvStat "/dev/stdin"], Return None) /\
  _detect_format_from_content null_name_world null_name =
    ([EvStat null_name], Raise (ValueError "embedded null byte")) /\
  xopen null_name_world null_name "rb" None None =
    ([EvStat null_name], Raise (ValueError "embedded null byte")).
Proof.
  destruct (content_detection_swallows_errors bare_world "/dev/stdin")
    as [Hos _].
  destruct (content_detection_swallows_errors null_name_world null_name)
    as [_ [_ [_ Hnull]]].
  destruct (Hnull eq_refl eq_refl) as [Hraise Hxopen].
  split; [apply Hos; reflexivity|]. split; [exact Hraise|].
  apply Hxopen; [discriminate | reflexivity | simpl; auto].
Defined.

(** ** From the sniffed format to the opener *)

Lemma sniff_gz (w : World) (filename : string) (rest : list byte) :
  stat_isreg w filename = Some true ->
  file_bytes w filename = Some (magic_gz ++ rest) ->
  _detect_format_from_content w filename =
  ([EvStat filename; EvSniff filename 6], Return (Some gz)).
Proof.
  intros Hreg Hbytes. unfold _detect_format_from_content.
  rewrite Hreg, Hbytes. reflexivity.
Qed.

Lemma sniff_bz2 (w : World) (filename : string) (rest : list byte) :
  stat_isreg w filename = Some true ->
  file_bytes w filename = Some (magic_bz2 ++ rest) ->
  _detect_format_from_content w filename =
  ([EvStat filename; EvSniff filename 6], Return (Some bz2)).
Proof.
  intros Hreg Hbytes. unfold _detect_format_from_content.
  rewrite Hreg, Hbytes. reflexivity.
Qed.

Lemma sniff_xz (w : World) (filename : string) (rest : list byte) :
  stat_isreg w filename = Some true ->
  file_bytes w filename = Some (magic_xz ++ rest) ->
  _detect_format_from_content w filename =
  ([EvStat filename; EvSniff filename 6], Return (Some xz)).
Proof.
  intros Hreg Hbytes. unfold _detect_format_from_content.
  rewrite Hreg, Hbytes. reflexivity.
Qed.

Lemma sniff_none (w : World) (filename : string) (content : list byte) :
  stat_isreg w filename = Some true ->
  file_bytes w filename = Some content ->
  (forall rest, content <> magic_gz ++ rest) ->
  (forall rest, content <> magic_bz2 ++ rest) ->
  (forall rest, content <> magic_xz ++ rest) ->
  _detect_format_from_content w filename =
  ([EvStat filename; EvSniff filename 6], Return None).
Proof.
  intros Hreg Hbytes Ng Nb Nx. unfold _detect_format_from_content.
  rewrite Hreg, Hbytes.
  pose proof (magic_test_spec magic_gz content ltac:(simpl; lia)) as Hgz.
  pose proof (magic_test_spec magic_bz2 content ltac:(simpl; lia)) as Hbz.
  pose proof (magic_test_spec magic_xz content ltac:(simpl; lia)) as Hxz.
  change (length magic_gz) with 2 in Hgz.
  change (length magic_bz2) with 3 in Hbz.
  change (length magic_xz) with 6 in Hxz.
  destruct (Py.bytes_eqb (firstn 2 (firstn 6 content)) magic_gz);
    [destruct (proj1 Hgz eq_refl) as [r E]; now apply Ng in E|].
  destruct (Py.bytes_eqb (firstn 3 (firstn 6 content)) magic_bz2);
    [destruct (proj1 Hbz eq_refl) as [r E]; now apply Nb in E|].
  destruct (Py.bytes_eqb (firstn 6 (firstn 6 content)) magic_xz);
    [destruct (proj1 Hxz eq_refl) as [r E]; now apply Nx in E|].
  reflexivity.
Qed.

Lemma xopen_after_sniff (w : World) (filename mode : string)
    (compresslevel threads : option Z) (r : option format) :
  filename <> "-" ->
  _detect_format_from_extension filename = None ->
  In mode ["r"; "rt"; "rb"; "a"; "at"; "ab"] ->
  _detect_format_from_content w filename =
    ([EvStat filename; EvSniff filename 6], Return r) ->
  xopen w filename mode compresslevel threads =
  (emit (EvStat filename) ;;; emit (EvSniff filename 6) ;;;
   match r with
   | Some gz => _open_gz w filename (normalize_mode mode) compresslevel threads
   | Some xz => _open_xz w filename (normalize_mode mode)
   | Some bz2 => _open_bz2 w filename (normalize_mode mode)
   | None =>
       builtin_open w filename (normalize_mode mode) ;;;
       ret (PlainFile filename (normalize_mode mode))
   end).
Proof.
  intros Hdash Hext Hmode Hsniff.
  assert (Hm : In (normalize_mode mode) legal_modes
               /\ Py.char_in "w" (normalize_mode mode) = false).
  { simpl in Hmode.
    destruct Hmode as [<- | [<- | [<- | [<- | [<- | [<- | []]]]]]];
      simpl; auto 10. }
  destruct Hm as [Hlegal Hw].
  rewrite xopen_dispatch by assumption.
  unfold detect_format. rewrite Hext, Hw, Hsniff. cbn [negb bind emit].
  match goal with
  | |- context [match r with Some _ => _ | None => _ end] =>
      destruct (match r with
                | Some gz => _open_gz w filename (normalize_mode mode)
                               compresslevel threads
                | Some xz => _open_xz w filename (normalize_mode mode)
                | Some bz2 => _open_bz2 w filename (normalize_mode mode)
                | None =>
                    builtin_open w filename (normalize_mode mode) ;;;
                    ret (PlainFile filename (normalize_mode mode))
                end)
  end.
  reflexivity.
Qed.

(** X3: reading or appending to a regular file whose name has no known
    extension: after the stat and the six-byte read, a bz2 magic number
    sends the call to [bz2.open], an xz one to [lzma.open], a gzip one to
    the gzip opener [_open_gz] with the caller's level and thread setting
    (so with [threads=0] to the codec), and a file with none of them is
    opened as a plain file; in each case with the normalized mode, and the
    caller gets what that opener gives. *)
Theorem sniffed_format_selects_opener (w : World) (filename mode : string)
    (compresslevel threads : option Z) (content : list byte) :
  filename <> "-" ->
  _detect_format_from_extension filename = None ->
  In mode ["r"; "rt"; "rb"; "a"; "at"; "ab"] ->
  stat_isreg w filename = Some true ->
  file_bytes w filename = Some content ->
  ((exists rest, content = magic_bz2 ++ rest) ->
   xopen w filename mode compresslevel threads =
   ([EvStat filename; EvSniff filename 6;
     EvCodecOpen bz2 filename (normalize_mode mode) None],
    match codec_error w bz2 filename (normalize_mode mode) None with
    | Some e => Raise e
    | None => Return (CodecFile bz2 filename (normalize_mode mode) None)
    end)) /\
  ((exists rest, content = magic_xz ++ rest) ->
   lzma_present w = true ->
   xopen w filename mode compresslevel threads =
   ([EvStat filename; EvSniff filename 6;
     EvCodecOpen xz filename (normalize_mode mode) None],
    match codec_error w xz filename (normalize_mode mode) None with
    | Some e => Raise e
    | None => Return (CodecFile xz filename (normalize_mode mode) None)
    end)) /\
  ((exists rest, content = magic_gz ++ rest) ->
   xopen w filename mode compresslevel threads =
   ([EvStat filename; EvSniff filename 6] ++
    trace (_open_gz w filename (normalize_mode mode) compresslevel threads),
    outcome (_open_gz w filename (normalize_mode mode) compresslevel threads))) /\
  ((exists rest, content = magic_gz ++ rest) ->
   xopen w filename mode compresslevel (Some 0%Z) =
   ([EvStat filename; EvSniff filename 6;
     EvCodecOpen gz filename (normalize_mode mode)
       (gzip_codec_level (normalize_mode mode) compresslevel)],
    match codec_error w gz filename (normalize_mode mode)
            (gzip_codec_level (normalize_mode mode) compresslevel) with
    | Some e => Raise e
    | None => Return (CodecFile gz filename (normalize_mode mode)
                        (gzip_codec_level (normalize_mode mode) compresslevel))
    end)) /\
  ((forall rest, content <> magic_gz ++ rest) ->
   (forall rest, content <> magic_bz2 ++ rest) ->
   (forall rest, content <> magic_xz ++ rest) ->
   xopen w filename mode compresslevel threads =
   ([EvStat filename; EvSniff filename 6;
     EvOpen filename (normalize_mode mode)],
    match open_error w filename (normalize_mode mode) with
    | Some e => Raise (exn_of_os_error e)
    | None => Return (PlainFile filename (normalize_mode mode))
    end)).
Proof.
  intros Hdash Hext Hmode Hreg Hbytes.
  split; [| split; [| split; [| split]]].
  - intros [rest ->].
    rewrite (xopen_after_sniff w filename mode compresslevel threads (Some bz2)
               Hdash Hext Hmode (sniff_bz2 w filename rest Hreg Hbytes)).
    unfold _open_bz2. rewrite codec_open_eq. reflexivity.
  - intros [rest ->] Hlzma.
    rewrite (xopen_after_sniff w filename mode compresslevel threads (Some xz)
               Hdash Hext Hmode (sniff_xz w filename rest Hreg Hbytes)).
    unfold _open_xz. rewrite Hlzma, codec_open_eq. reflexivity.
  - intros [rest ->].
    rewrite (xopen_after_sniff w filename mode compresslevel threads (Some gz)
               Hdash Hext Hmode (sniff_gz w filename rest Hreg Hbytes)).
    now destruct (_open_gz w filename (normalize_mode mode) compresslevel
                    threads).
  - intros [rest ->].
    rewrite (xopen_after_sniff w filename mode compresslevel (Some 0%Z) (Some gz)
               Hdash Hext Hmode (sniff_gz w filename rest Hreg Hbytes)).
    rewrite open_gz_threads_zero, codec_open_eq. reflexivity.
  - intros Ng Nb Nx.
    rewrite (xopen_after_sniff w filename mode compresslevel threads None
               Hdash Hext Hmode
               (sniff_none w filename content Hreg Hbytes Ng Nb Nx)).
    unfold builtin_open. cbn [bind emit app].
    destruct (open_error w filename (normalize_mode mode)); reflexivity.
Qed.

Lemma sniffed_format_selects_opener_witness :
  xopen full_world "data" "r" None None =
    ([EvStat "data"; EvSniff "data" 6] ++
     trace (_open_gz full_world "data" (normalize_mode "r") None None),
     outcome (_open_gz full_world "data" (normalize_mode "r") None None)) /\
  xopen full_world "data" "r" None (Some 0%Z) =
    ([EvStat "data"; EvSniff "data" 6; EvCodecOpen gz "data" "rt" None],
     Return (CodecFile gz "data" "rt" None)) /\
  xopen full_world "notes" "a" (Some 4%Z) None =
    ([EvStat "notes"; EvSniff "notes" 6; EvOpen "notes" "at"],
     Return (PlainFile "notes" "at")).
Proof.
  assert (Hr : In "r" ["r"; "rt"; "rb"; "a"; "at"; "ab"]) by (simpl; auto).
  assert (Ha : In "a" ["r"; "rt"; "rb"; "a"; "at"; "ab"]) by (simpl; auto 10).
  destruct (sniffed_format_selects_opener full_world "data" "r" None None
              [x1f; x8b; x08; x00; x00; x00; x00; x00]
              ltac:(discriminate) eq_refl Hr eq_refl eq_refl)
    as [_ [_ [Hgz _]]].
  destruct (sniffed_format_selects_opener full_world "data" "r" None (Some 0%Z)
              [x1f; x8b; x08; x00; x00; x00; x00; x00]
              ltac:(discriminate) eq_refl Hr eq_refl eq_refl)
    as [_ [_ [_ [Hzero _]]]].
  destruct (sniffed_format_selects_opener full_world "notes" "a" (Some 4%Z) None
              ["h"; "i"]%byte
              ltac:(discriminate) eq_refl Ha eq_refl eq_refl)
    as [_ [_ [_ [_ Hplain]]]].
  split; [| split].
  - apply Hgz. now exists [x08; x00; x00; x00; x00; x00].
  - apply Hzero. now exists [x08; x00; x00; x00; x00; x00].
  - apply Hplain; intros rest; discriminate.
Defined.

(** The sniffed gzip file read with the defaults goes to igzip. *)
Example sniffed_gzip_default_threads :
  trace (xopen full_world "data" "rb" None None) =
  [EvStat "data"; EvSniff "data" 6;
   EvRun ["igzip"; "-c"; "-d"; test_gz];
   EvSpawn ["igzip"; "-cd"; "data"]; EvSleep; EvPoll "igzip"].
Proof. reflexivity. Qed.

(** ** What the optional arguments can change *)

Lemma stdin_or_out_no_subprocess (w : World) (mode : string) :
  existsb is_subprocess_event (trace (_open_stdin_or_out w mode)) = false.
Proof.
  unfold _open_stdin_or_out. destruct mode as [| c mode]; [reflexivity|].
  destruct (Ascii.eqb c "r"); [| destruct (Ascii.eqb c "w")]; simpl;
    try reflexivity;
    match goal with
    | |- context [fdopen_error ?w ?fd ?m] => destruct (fdopen_error w fd m)
    end; reflexivity.
Qed.

Lemma detect_format_no_subprocess (w : World) (filename mode : string) :
  existsb is_subprocess_event (trace (detect_format w filename mode)) = false.
Proof.
  eapply existsb_false_of_forallb; [| apply detect_format_trace].
  intros ev. destruct ev; simpl; auto; discriminate.
Qed.

Lemma xopen_dash_ignores_options (w : World) (mode : string)
    (level level' threads threads' : option Z) :
  xopen w "-" mode level threads = xopen w "-" mode level' threads'.
Proof. reflexivity. Qed.

(** X4: [compresslevel] and [threads] matter for gzip only.  For the path
    ['-'] and for every path that detection does not tag gz (bz2, xz, plain
    files), [xopen] does and returns the same whatever the two arguments
    are. *)
Theorem level_and_threads_only_matter_for_gzip (w : World)
    (filename mode : string) (level level' threads threads' : option Z) :
  filename = "-" \/
  outcome (detect_format w filename (normalize_mode mode)) <> Return (Some gz) ->
  xopen w filename mode level threads = xopen w filename mode level' threads'.
Proof.
  intros H.
  destruct (Py.str_in (normalize_mode mode) legal_modes) eqn:Hlegal;
    [| unfold xopen; now rewrite Hlegal].
  destruct (String.eqb_spec filename "-") as [-> | Hdash];
    [unfold xopen; now rewrite Hlegal|].
  destruct H as [H | H]; [contradiction|].
  apply str_in_In in Hlegal.
  rewrite !xopen_dispatch by assumption.
  destruct (detect_format w filename (normalize_mode mode)) as [t [d | e]];
    [| reflexivity].
  destruct d as [[| |] |]; try reflexivity.
  now contradiction H.
Qed.

Lemma level_and_threads_only_matter_for_gzip_witness :
  xopen full_world "log.bz2" "w" (Some 9%Z) (Some 8%Z)
    = xopen full_world "log.bz2" "w" None None /\
  xopen full_world "-" "r" (Some 9%Z) (Some 0%Z)
    = xopen full_world "-" "r" None None.
Proof.
  split.
  - apply (level_and_threads_only_matter_for_gzip full_world "log.bz2" "w").
    right. discriminate.
  - apply (level_and_threads_only_matter_for_gzip full_world "-" "r").
    now left.
Defined.

(** X5: on a read ([r], [rt], [rb]) the compression level is never looked
    at, not even to validate it: any two levels give the same run. *)
Theorem compresslevel_ignored_on_read (w : World) (filename mode : string)
    (level level' threads : option Z) :
  In mode ["r"; "rt"; "rb"] ->
  xopen w filename mode level threads = xopen w filename mode level' threads.
Proof.
  intros Hmode.
  assert (Hm : In (normalize_mode mode) legal_modes
               /\ Py.char_in "r" (normalize_mode mode) = true).
  { simpl in Hmode.
    destruct Hmode as [<- | [<- | [<- | []]]]; simpl; auto 10. }
  destruct Hm as [Hlegal Hr].
  destruct (String.eqb_spec filename "-") as [-> | Hdash].
  - apply xopen_dash_ignores_options.
  - rewrite !xopen_dispatch by assumption.
    assert (E : _open_gz w filename (normalize_mode mode) level threads
                = _open_gz w filename (normalize_mode mode) level' threads).
    { unfold _open_gz, _open_gz_inprocess. now rewrite Hr. }
    now rewrite E.
Qed.

Lemma compresslevel_ignored_on_read_witness :
  xopen full_world "reads.gz" "rb" (Some 99%Z) None
    = xopen full_world "reads.gz" "rb" None None.
Proof.
  apply (compresslevel_ignored_on_read full_world "reads.gz" "rb").
  simpl. auto.
Defined.

Lemma dispatch_no_subprocess (w : World) (filename mode : string)
    (compresslevel threads : option Z) (detected_format : option format) :
  detected_format <> Some gz \/ threads_nonzero threads = false ->
  existsb is_subprocess_event
    (trace match detected_format with
           | Some gz => _open_gz w filename mode compresslevel threads
           | Some xz => _open_xz w filename mode
           | Some bz2 => _open_bz2 w filename mode
           | None => builtin_open w filename mode ;;; ret (PlainFile filename mode)
           end) = false.
Proof.
  intros H. destruct detected_format as [[| |] |].
  - destruct H as [H | H]; [congruence|].
    unfold _open_gz. rewrite H. now rewrite open_gz_inprocess_trace.
  - unfold _open_bz2. now rewrite codec_open_eq.
  - unfold _open_xz. destruct (lzma_present w); [| reflexivity].
    now rewrite codec_open_eq.
  - unfold builtin_open. simpl.
    destruct (open_error w filename mode); reflexivity.
Qed.

(** X6: [xopen] touches the subprocess machinery (the probe, a spawn or an
    attempt at one, the grace sleep, a poll) only for a path tagged gz and
    only when [threads] is not 0; bz2, xz, plain files and ['-'] never start
    a process. *)
Theorem subprocess_only_for_gzip_with_threads (w : World)
    (filename mode : string) (compresslevel threads : option Z) :
  existsb is_subprocess_event
    (trace (xopen w filename mode compresslevel threads)) = true ->
  filename <> "-" /\
  outcome (detect_format w filename (normalize_mode mode)) = Return (Some gz) /\
  threads_nonzero threads = true.
Proof.
  destruct (Py.str_in (normalize_mode mode) legal_modes) eqn:Hlegal;
    [| unfold xopen; rewrite Hlegal; discriminate].
  destruct (String.eqb_spec filename "-") as [-> | Hdash].
  - unfold xopen. rewrite Hlegal. cbn [negb String.eqb Ascii.eqb Bool.eqb].
    now rewrite stdin_or_out_no_subprocess.
  - apply str_in_In in Hlegal.
    rewrite xopen_dispatch, trace_bind, existsb_app,
      detect_format_no_subprocess by assumption.
    destruct (outcome (detect_format w filename (normalize_mode mode)))
      as [d | e]; [| discriminate].
    cbn [orb]. intros H.
    destruct (threads_nonzero threads) eqn:Ht.
    + pose proof (dispatch_no_subprocess w filename (normalize_mode mode)
                    compresslevel threads d) as Hn.
      destruct d as [[| |] |]; auto;
        rewrite Hn in H by (left; discriminate); discriminate.
    + rewrite dispatch_no_subprocess in H by now right. discriminate.
Qed.

Lemma subprocess_only_for_gzip_with_threads_witness :
  "data" <> "-" /\
  outcome (detect_format full_world "data" (normalize_mode "rb"))
    = Return (Some gz) /\
  threads_nonzero None = true.
Proof.
  apply (subprocess_only_for_gzip_with_threads full_world "data" "rb" None None).
  reflexivity.
Defined.

(** ** Standard input and output *)

(** X7: for the path ['-'], a read mode opens file descriptor 0 and a
    write mode file descriptor 1, each with the normalized mode and without
    taking ownership of the descriptor; this single [open] is all [xopen]
    does, and its failure, if any, is the caller's. *)
Theorem dash_opens_standard_stream (w : World) (mode : string)
    (compresslevel threads : option Z) :
  In mode ["r"; "rt"; "rb"; "w"; "wt"; "wb"] ->
  xopen w "-" mode compresslevel threads =
  ([EvOpenFd (if Py.char_in "r" mode then 0 else 1)%Z (normalize_mode mode)],
   match fdopen_error w (if Py.char_in "r" mode then 0 else 1)%Z
           (normalize_mode mode) with
   | Some e => Raise (exn_of_os_error e)
   | None => Return (StdStream (if Py.char_in "r" mode then 0 else 1)%Z
                       (normalize_mode mode))
   end).
Proof.
  simpl. intros [<- | [<- | [<- | [<- | [<- | [<- | []]]]]]]; cbn;
    match goal with
    | |- context [fdopen_error ?w ?fd ?m] => destruct (fdopen_error w fd m)
    end; reflexivity.
Qed.

Lemma dash_opens_standard_stream_witness :
  xopen full_world "-" "w" None None =
  ([EvOpenFd 1 "wt"], Return (StdStream 1 "wt")).
Proof.
  apply (dash_opens_standard_stream full_world "w" None None).
  simpl. auto 10.
Defined.

(** ** Building a piped writer *)

Lemma not_in_str_in (s : string) (ts : list string) :
  ~ In s ts -> Py.str_in s ts = false.
Proof.
  intros H. destruct (Py.str_in s ts) eqn:E; [| reflexivity].
  apply str_in_In in E. contradiction.
Qed.

(** X8: a piped writer asked for a mode that is not a write or append mode
    raises ValueError before it opens anything.  This holds for the base
    class, for the gzip writer (which, given an acceptable level, does not
    go on to try [gzip] after [pigz]) and for the igzip writer. *)
Theorem writers_reject_other_modes (w : World) (path program mode : string)
    (compresslevel : option Z) (threads_flag : option string)
    (threads : option Z) :
  ~ In mode ["w"; "wt"; "wb"; "a"; "at"; "ab"] ->
  PipedCompressionWriter_init w path program mode compresslevel threads_flag
    threads =
    ([], Raise (ValueError
                  ("Mode is '" ++ mode ++
                   "', but it must be 'w', 'wt', 'wb', 'a', 'at' or 'ab'")%string)) /\
  (compresslevel = None \/
   (exists level, compresslevel = Some level /\ (1 <= level <= 9)%Z) ->
   PipedGzipWriter_init w path mode compresslevel threads =
     ([], Raise (ValueError
                   ("Mode is '" ++ mode ++
                    "', but it must be 'w', 'wt', 'wb', 'a', 'at' or 'ab'")%string))) /\
  (compresslevel = None \/
   (exists level, compresslevel = Some level /\ (0 <= level <= 3)%Z) ->
   PipedIGzipWriter_init w path mode compresslevel =
     ([], Raise (ValueError
                   ("Mode is '" ++ mode ++
                    "', but it must be 'w', 'wt', 'wb', 'a', 'at' or 'ab'")%string))).
Proof.
  intros Hmode. apply not_in_str_in in Hmode.
  assert (Hbase : forall program' level' flag' threads',
             PipedCompressionWriter_init w path program' mode level' flag'
               threads' =
             ([], Raise (ValueError
                           ("Mode is '" ++ mode ++
                            "', but it must be 'w', 'wt', 'wb', 'a', 'at' or 'ab'")%string))).
  { intros. unfold PipedCompressionWriter_init. now rewrite Hmode. }
  split; [apply Hbase|]. split.
  - intros [-> | [level [-> Hlevel]]]; unfold PipedGzipWriter_init.
    + now rewrite !Hbase.
    + assert (H19 : Py.in_range level 1 10 = true).
      { unfold Py.in_range. apply andb_true_intro.
        split; [apply Z.leb_le | apply Z.ltb_lt]; lia. }
      now rewrite H19, !Hbase.
  - intros [-> | [level [-> Hlevel]]]; unfold PipedIGzipWriter_init.
    + apply Hbase.
    + assert (H03 : Py.in_range level 0 4 = true).
      { unfold Py.in_range. apply andb_true_intro.
        split; [apply Z.leb_le | apply Z.ltb_lt]; lia. }
      rewrite H03. apply Hbase.
Qed.

Lemma writers_reject_other_modes_witness :
  PipedCompressionWriter_init full_world "out.gz" "pigz" "rb" None (Some "-p")
    None =
    ([], Raise (ValueError
                  "Mode is 'rb', but it must be 'w', 'wt', 'wb', 'a', 'at' or 'ab'")) /\
  PipedGzipWriter_init full_world "out.gz" "rb" (Some 5%Z) None =
    ([], Raise (ValueError
                  "Mode is 'rb', but it must be 'w', 'wt', 'wb', 'a', 'at' or 'ab'")).
Proof.
  assert (Hm : ~ In "rb" ["w"; "wt"; "wb"; "a"; "at"; "ab"])
    by (simpl; intuition discriminate).
  destruct (writers_reject_other_modes full_world "out.gz" "pigz" "rb" None
              (Some "-p") None Hm) as [Hbase _].
  destruct (writers_reject_other_modes full_world "out.gz" "pigz" "rb"
              (Some 5%Z) (Some "-p") None Hm) as [_ [Hgzip _]].
  split; [exact Hbase|].
  apply Hgzip. right. exists 5%Z. split; [reflexivity | lia].
Defined.

(** X9: when the program cannot be started, the writer closes the
    destination and the discard sink it had just opened, in that order, and
    lets the error through; the only other events are the two opens and
    the failed spawn. *)
Theorem writer_closes_files_when_spawn_fails (w : World)
    (path program mode : string) (compresslevel : option Z)
    (threads_flag : option string) (threads : option Z) (e : os_error) :
  In mode ["w"; "wt"; "wb"; "a"; "at"; "ab"] ->
  open_error w path mode = None ->
  open_error w devnull mode = None ->
  popen_error w program = Some e ->
  exists args,
    hd "" args = program /\
    PipedCompressionWriter_init w path program mode compresslevel threads_flag
      threads =
    ([EvOpen path mode; EvOpen devnull mode; EvSpawnFailed args;
      EvClose path; EvClose devnull],
     Raise (exn_of_os_error e)).
Proof.
  intros Hmode Hopen Hnull Hpopen. apply str_in_In in Hmode.
  unfold PipedCompressionWriter_init, builtin_open, _open_process, Popen.
  rewrite Hmode, Hopen, Hnull. cbn [negb bind emit ret app hd].
  rewrite Hpopen. eexists. split; [| cbn; destruct e; reflexivity].
  reflexivity.
Qed.

Lemma writer_closes_files_when_spawn_fails_witness :
  exists args,
    hd "" args = "pigz" /\
    PipedCompressionWriter_init bare_world "out.gz" "pigz" "wb" (Some 5%Z)
      (Some "-p") (Some 2%Z) =
    ([EvOpen "out.gz" "wb"; EvOpen devnull "wb"; EvSpawnFailed args;
      EvClose "out.gz"; EvClose devnull],
     Raise (exn_of_os_error ENOENT)).
Proof.
  apply (writer_closes_files_when_spawn_fails bare_world "out.gz" "pigz" "wb"
           (Some 5%Z) (Some "-p") (Some 2%Z) ENOENT).
  - simpl. auto.
  - reflexivity.
  - reflexivity.
  - reflexivity.
Defined.

(** X10: when the destination cannot be opened the writer raises that
    error having done nothing else; when the discard sink cannot be opened
    it raises that error without starting any process, and without closing
    the destination it had opened. *)
Theorem writer_open_failure_starts_nothing (w : World)
    (path program mode : string) (compresslevel : option Z)
    (threads_flag : option string) (threads : option Z) (e : os_error) :
  In mode ["w"; "wt"; "wb"; "a"; "at"; "ab"] ->
  (open_error w path mode = Some e ->
   PipedCompressionWriter_init w path program mode compresslevel threads_flag
     threads = ([EvOpen path mode], Raise (exn_of_os_error e))) /\
  (open_error w path mode = None ->
   open_error w devnull mode = Some e ->
   PipedCompressionWriter_init w path program mode compresslevel threads_flag
     threads =
   ([EvOpen path mode; EvOpen devnull mode], Raise (exn_of_os_error e))).
Proof.
  intros Hmode. apply str_in_In in Hmode.
  unfold PipedCompressionWriter_init, builtin_open. rewrite Hmode.
  split.
  - intros Hopen. rewrite Hopen. reflexivity.
  - intros Hopen Hnull. rewrite Hopen. cbn [negb bind emit ret app].
    rewrite Hnull. reflexivity.
Qed.

Lemma writer_open_failure_starts_nothing_witness :
  PipedCompressionWriter_init broken_world "gone/out.gz" "pigz" "wt" None
    (Some "-p") None =
  ([EvOpen "gone/out.gz" "wt"], Raise FileNotFoundError).
Proof.
  destruct (writer_open_failure_starts_nothing broken_world "gone/out.gz"
              "pigz" "wt" None (Some "-p") None ENOENT) as [Hdest _].
  - simpl. auto.
  - apply Hdest. reflexivity.
Defined.

(** ** Command lines of the writers *)

Lemma writer_init_spawn_args (w : World) (path program mode : string)
    (compresslevel : option Z) (threads_flag : option string)
    (threads : option Z) (ev : event) (args : list string) :
  In ev (trace (PipedCompressionWriter_init w path program mode compresslevel
                  threads_flag threads)) ->
  spawn_args ev = Some args ->
  args = program ::
         match threads_flag with
         | Some flag =>
             if negb (effective_threads w threads =? 0)%Z
             then [flag; Py.str (effective_threads w threads)]
             else []
         | None => []
         end ++ level_flag mode compresslevel.
Proof.
  unfold PipedCompressionWriter_init, builtin_open, _open_process, Popen,
    effective_threads, level_flag.
  destruct (negb (Py.str_in mode ["w"; "wt"; "wb"; "a"; "at"; "ab"]));
    [intros []|].
  destruct (open_error w path mode); [simpl; intros [<- | []]; discriminate|].
  cbn [bind emit ret app].
  destruct (open_error w devnull mode);
    [simpl; intros [<- | [<- | []]]; discriminate|].
  cbn [bind emit ret app hd].
  destruct (popen_error w program); cbn [bind emit ret app hd trace fst
    try_except is_OSError exn_of_os_error raise];
    [destruct o|]; cbn [bind emit ret app hd trace fst
    try_except is_OSError exn_of_os_error raise];
    intros H; repeat (destruct H as [<- | H]; try discriminate);
    try destruct H; cbn [spawn_args]; intros [= <-]; reflexivity.
Qed.

(** X11: when appending, an external writer never passes the compression
    level to its program: the base writer behaves as if no level had been
    given, and the gzip and igzip writers use the level for their range
    check only. *)
Theorem append_never_passes_level (w : World) (path program mode : string)
    (level : Z) (threads_flag : option string) (threads : option Z) :
  In mode ["a"; "at"; "ab"] ->
  PipedCompressionWriter_init w path program mode (Some level) threads_flag
    threads =
  PipedCompressionWriter_init w path program mode None threads_flag threads /\
  ((1 <= level <= 9)%Z ->
   PipedGzipWriter_init w path mode (Some level) threads =
   PipedGzipWriter_init w path mode None threads) /\
  ((0 <= level <= 3)%Z ->
   PipedIGzipWriter_init w path mode (Some level) =
   PipedIGzipWriter_init w path mode None).
Proof.
  intros Hmode.
  assert (Hw : Py.char_in "w" mode = false).
  { simpl in Hmode. destruct Hmode as [<- | [<- | [<- | []]]]; reflexivity. }
  assert (Hbase : forall program' flag' threads',
             PipedCompressionWriter_init w path program' mode (Some level)
               flag' threads' =
             PipedCompressionWriter_init w path program' mode None flag'
               threads').
  { intros. unfold PipedCompressionWriter_init, _open_process.
    now rewrite Hw. }
  split; [apply Hbase|]. split; intros Hlevel.
  - unfold PipedGzipWriter_init.
    assert (H19 : Py.in_range level 1 10 = true).
    { unfold Py.in_range. apply andb_true_intro.
      split; [apply Z.leb_le | apply Z.ltb_lt]; lia. }
    now rewrite H19, !Hbase.
  - unfold PipedIGzipWriter_init.
    assert (H03 : Py.in_range level 0 4 = true).
    { unfold Py.in_range. apply andb_true_intro.
      split; [apply Z.leb_le | apply Z.ltb_lt]; lia. }
    now rewrite H03, Hbase.
Qed.

Lemma append_never_passes_level_witness :
  PipedCompressionWriter_init full_world "log.gz" "pigz" "ab" (Some 9%Z)
    (Some "-p") None =
  PipedCompressionWriter_init full_world "log.gz" "pigz" "ab" None
    (Some "-p") None /\
  PipedGzipWriter_init full_world "log.gz" "ab" (Some 9%Z) None =
  PipedGzipWriter_init full_world "log.gz" "ab" None None.
Proof.
  destruct (append_never_passes_level full_world "log.gz" "pigz" "ab" 9
              (Some "-p") None) as [Hbase [Hgzip _]].
  - simpl. auto.
  - split; [exact Hbase | apply Hgzip; lia].
Defined.

(** In write mode the level does reach the program. *)
Example write_passes_level :
  trace (PipedGzipWriter_init full_world "log.gz" "wb" (Some 9%Z) None) =
    [EvOpen "log.gz" "wb"; EvOpen "/dev/null" "wb";
     EvSpawn ["pigz"; "-p"; "4"; "-9"]] /\
  trace (PipedGzipWriter_init full_world "log.gz" "ab" (Some 9%Z) None) =
    [EvOpen "log.gz" "ab"; EvOpen "/dev/null" "ab";
     EvSpawn ["pigz"; "-p"; "4"]].
Proof. split; reflexivity. Qed.

(** X12: the command lines of the gzip writer.  [pigz] is run as
    [pigz -p N [-LEVEL]], where N is the caller's thread count or, when that
    is unset, the CPU count capped at four, and without [-p] when N is 0;
    the [gzip] fallback is run with no thread option at all. *)
Theorem gzip_writer_command_lines (w : World) (path mode : string)
    (compresslevel threads : option Z) (ev : event) (args : list string) :
  In ev (trace (PipedGzipWriter_init w path mode compresslevel threads)) ->
  spawn_args ev = Some args ->
  (effective_threads w None <= 4)%Z /\
  (args = "pigz" ::
          (if (effective_threads w threads =? 0)%Z then []
           else ["-p"; Py.str (effective_threads w threads)])
          ++ level_flag mode compresslevel
   \/ args = "gzip" :: level_flag mode compresslevel).
Proof.
  intros Hin Hargs. split; [apply Z.le_min_r|].
  assert (Hchain :
    In ev (trace (try_except
                    (PipedCompressionWriter_init w path "pigz" mode
                       compresslevel (Some "-p") threads)
                    is_FileNotFoundError
                    (fun _ => PipedCompressionWriter_init w path "gzip" mode
                                compresslevel None threads))) ->
    args = "pigz" ::
           (if (effective_threads w threads =? 0)%Z then []
            else ["-p"; Py.str (effective_threads w threads)])
           ++ level_flag mode compresslevel
    \/ args = "gzip" :: level_flag mode compresslevel).
  { intros H. apply in_trace_try in H.
    destruct H as [H | [e [_ [_ H]]]].
    - left. rewrite (writer_init_spawn_args _ _ _ _ _ _ _ _ _ H Hargs).
      now destruct (effective_threads w threads =? 0)%Z.
    - right. now rewrite (writer_init_spawn_args _ _ _ _ _ _ _ _ _ H Hargs). }
  unfold PipedGzipWriter_init in Hin.
  destruct compresslevel as [level |]; [| auto].
  destruct (negb (Py.in_range level 1 10)); [destruct Hin | auto].
Qed.

Lemma gzip_writer_command_lines_witness :
  (effective_threads full_world None <= 4)%Z /\
  (["pigz"; "-p"; "4"; "-7"] =
   "pigz" ::
     (if (effective_threads full_world None =? 0)%Z then []
      else ["-p"; Py.str (effective_threads full_world None)])
     ++ level_flag "wt" (Some 7%Z)
   \/ ["pigz"; "-p"; "4"; "-7"] = "gzip" :: level_flag "wt" (Some 7%Z)).
Proof.
  apply (gzip_writer_command_lines full_world "out.gz" "wt" (Some 7%Z) None
           (EvSpawn ["pigz"; "-p"; "4"; "-7"])).
  - simpl. auto.
  - reflexivity.
Defined.

(** ** The first close *)

Lemma writer_close_log_closed (n : nat) (self : PipedCompressionWriter) :
  pw_closed self = true -> writer_close_log n self = [].
Proof.
  revert self. induction n as [| n IH]; intros self H; [reflexivity|].
  simpl. rewrite (writer_close_when_closed self H). simpl. now apply IH.
Qed.

Lemma reader_close_log_closed (n : nat) (self : PipedCompressionReader) :
  pr_closed self = true -> reader_close_log n self = [].
Proof.
  revert self. induction n as [| n IH]; intros self H; [reflexivity|].
  simpl. rewrite (reader_close_when_closed self H). simpl. now apply IH.
Qed.

(** X13: closing an open piped writer starts by closing the pipe to the
    program.  If that fails (a broken pipe), the error is raised at once:
    the program is not waited for and the destination and the discard sink
    are not closed, by this call or by any later [close].  If it succeeds,
    the call waits for the program, then closes the destination and the
    discard sink, whatever the exit status, and raises OSError, naming the
    program and the status, exactly when the status is not 0; however many
    times [close] is called afterwards, these four steps happen once. *)
Theorem writer_close_releases_once (self : PipedCompressionWriter) (n : nat) :
  pw_closed self = false ->
  (p_stdin_close_error (pw_process self) = None ->
   writer_close_log (S n) self =
     [EvClose "stdin"; EvWait (pw_program self); EvClose (pw_name self);
      EvClose devnull] /\
   (retcode_of (pw_process self) = 0%Z ->
    outcome (snd (PipedCompressionWriter_close self)) = Return tt) /\
   (retcode_of (pw_process self) <> 0%Z ->
    outcome (snd (PipedCompressionWriter_close self)) =
    Raise (OSError ("Output " ++ pw_program self ++
                    " process terminated with exit code " ++
                    Py.str (retcode_of (pw_process self)))%string)) /\
   p_returncode (pw_process (fst (PipedCompressionWriter_close self)))
     = Some (retcode_of (pw_process self))) /\
  (forall e,
      p_stdin_close_error (pw_process self) = Some e ->
      writer_close_log (S n) self = [EvClose "stdin"] /\
      outcome (snd (PipedCompressionWriter_close self))
        = Raise (exn_of_os_error e) /\
      pw_process (fst (PipedCompressionWriter_close self)) = pw_process self).
Proof.
  intros Hopen. split.
  - intros Hpipe.
    assert (Hlog : trace (snd (PipedCompressionWriter_close self)) =
                   [EvClose "stdin"; EvWait (pw_program self);
                    EvClose (pw_name self); EvClose devnull]).
    { unfold PipedCompressionWriter_close. rewrite Hopen, Hpipe. cbn.
      destruct (retcode_of (pw_process self) =? 0)%Z; reflexivity. }
    split; [| split; [| split]].
    + cbn [writer_close_log].
      rewrite writer_close_log_closed by apply writer_close_sets_closed.
      now rewrite app_nil_r.
    + intros Hrc. unfold PipedCompressionWriter_close.
      rewrite Hopen, Hpipe, Hrc. reflexivity.
    + intros Hrc. unfold PipedCompressionWriter_close.
      rewrite Hopen, Hpipe. cbn.
      apply Z.eqb_neq in Hrc. now rewrite Hrc.
    + unfold PipedCompressionWriter_close. rewrite Hopen, Hpipe. cbn.
      unfold wait, retcode_of.
      destruct (p_returncode (pw_process self)) eqn:E; [exact E | reflexivity].
  - intros e Hpipe.
    assert (Hlog : trace (snd (PipedCompressionWriter_close self)) =
                   [EvClose "stdin"]).
    { unfold PipedCompressionWriter_close. now rewrite Hopen, Hpipe. }
    split; [| split].
    + cbn [writer_close_log].
      rewrite writer_close_log_closed by apply writer_close_sets_closed.
      now rewrite app_nil_r.
    + unfold PipedCompressionWriter_close. now rewrite Hopen, Hpipe.
    + unfold PipedCompressionWriter_close. now rewrite Hopen, Hpipe.
Qed.

Lemma writer_close_releases_once_witness :
  (writer_close_log 3 failing_writer =
     [EvClose "stdin"; EvWait "pigz"; EvClose "out.gz"; EvClose devnull] /\
   outcome (snd (PipedCompressionWriter_close failing_writer)) =
     Raise (OSError "Output pigz process terminated with exit code 1")) /\
  (writer_close_log 3 broken_pipe_writer = [EvClose "stdin"] /\
   outcome (snd (PipedCompressionWriter_close broken_pipe_writer))
     = Raise (OSError "[Errno 32] Broken pipe") /\
   pw_process (fst (PipedCompressionWriter_close broken_pipe_writer))
     = pw_process broken_pipe_writer).
Proof.
  destruct (writer_close_releases_once failing_writer 2 eq_refl)
    as [Hok _].
  destruct (writer_close_releases_once broken_pipe_writer 2 eq_refl)
    as [_ Hbroken].
  split.
  - destruct (Hok eq_refl) as [Hlog [_ [Hfail _]]].
    split; [exact Hlog | apply Hfail; discriminate].
  - apply (Hbroken (EOTHER "[Errno 32] Broken pipe")). reflexivity.
Defined.

(** X14: closing an open piped reader.  If the program is still running it
    is sent SIGTERM and waited for, and the close succeeds exactly when the
    program then ends with status 0 or with the SIGTERM status; if the
    program had already ended it is not signalled, and the close succeeds
    exactly when its status is 0 (a SIGTERM status is then an error like
    any other).  Later closes add nothing. *)
Theorem reader_close_terminates_running (self : PipedCompressionReader)
    (n : nat) :
  pr_closed self = false ->
  reader_close_log (S n) self = trace (snd (PipedCompressionReader_close self)) /\
  (p_returncode (pr_process self) = None ->
   In (EvTerminate (pr_program self))
      (trace (snd (PipedCompressionReader_close self))) /\
   (outcome (snd (PipedCompressionReader_close self)) = Return tt <->
    p_term_exit (pr_process self) = 0%Z \/
    p_term_exit (pr_process self) = (- Py.SIGTERM)%Z)) /\
  (forall rc,
      p_returncode (pr_process self) = Some rc ->
      ~ In (EvTerminate (pr_program self))
           (trace (snd (PipedCompressionReader_close self))) /\
      (outcome (snd (PipedCompressionReader_close self)) = Return tt <->
       rc = 0%Z)).
Proof.
  intros Hopen. split; [| split].
  - cbn [reader_close_log].
    rewrite reader_close_log_closed by apply reader_close_sets_closed.
    now rewrite app_nil_r.
  - intros Hrun. unfold PipedCompressionReader_close.
    rewrite Hopen, Hrun. unfold terminate, wait, _raise_if_error.
    rewrite Hrun. cbn.
    destruct (p_stderr_decodable (pr_process self));
      (destruct (Z.eqb_spec (p_term_exit (pr_process self)) 0) as [E0 | E0];
       cbn; [split; [auto | intuition auto]|];
       change (- Py.SIGTERM)%Z with (-15)%Z;
       destruct (Z.eqb_spec (p_term_exit (pr_process self)) (-15))
         as [E1 | E1]; cbn; [split; [auto | intuition auto]|];
       (split; [auto|]); split; [discriminate | intuition congruence]).
  - intros rc Hrc. unfold PipedCompressionReader_close.
    rewrite Hopen, Hrc. unfold wait, _raise_if_error. rewrite Hrc. cbn.
    rewrite ?Hrc. cbn.
    destruct (p_stderr_decodable (pr_process self));
      (destruct (Z.eqb_spec rc 0) as [E0 | E0]; cbn;
       [split; [| intuition auto]
       | split; [| split; [discriminate | intuition congruence]]];
       intros H; repeat (destruct H as [H | H]; try discriminate); exact H).
Qed.

Lemma reader_close_terminates_running_witness :
  reader_close_log 2 running_reader =
    [EvPoll "pigz"; EvTerminate "pigz"; EvWait "pigz"; EvClose "stdout";
     EvPoll "pigz"; EvClose "stderr"] /\
  outcome (snd (PipedCompressionReader_close running_reader)) = Return tt.
Proof.
  destruct (reader_close_terminates_running running_reader 1 eq_refl)
    as [Hlog [Hrun _]].
  split; [exact Hlog|].
  apply (proj2 (Hrun eq_refl)). now right.
Defined.

(** ** Building a piped reader *)

Lemma reader_init_started (w : World) (path program mode : string)
    (threads_flag : option string) (threads : option Z) :
  In mode ["r"; "rt"; "rb"] ->
  popen_error w program = None ->
  PipedCompressionReader_init w path program mode threads_flag threads =
  if proc_quick w (reader_args program path threads_flag threads)
     && negb (proc_exit w (reader_args program path threads_flag threads) =? 0)%Z
  then
    if proc_stderr_decodable w (reader_args program path threads_flag threads)
    then
      ([EvSpawn (reader_args program path threads_flag threads); EvSleep;
        EvPoll program; EvReadStderr program; EvClose "stdout";
        EvClose "stderr"],
       Raise (reader_error w (reader_args program path threads_flag threads)))
    else
      ([EvSpawn (reader_args program path threads_flag threads); EvSleep;
        EvPoll program; EvReadStderr program],
       Raise UnicodeDecodeError)
  else
    ([EvSpawn (reader_args program path threads_flag threads); EvSleep;
      EvPoll program],
     Return {| pr_name := path; pr_program := program; pr_closed := false;
               pr_process :=
                 after_grace
                   (spawned_process w
                      (reader_args program path threads_flag threads));
               pr_text := negb (Py.char_in "b" mode) |}).
Proof.
  intros Hmode Hpopen. apply str_in_In in Hmode.
  unfold PipedCompressionReader_init, Popen. rewrite Hmode.
  fold (reader_args program path threads_flag threads).
  assert (Hhd : hd "" (reader_args program path threads_flag threads) = program)
    by reflexivity.
  rewrite Hhd, Hpopen.
  fold (spawned_process w (reader_args program path threads_flag threads)).
  unfold after_grace, _raise_if_error, reader_error, p_program, spawned_process.
  cbn [negb bind emit ret app p_returncode p_quick p_exit p_args p_stderr
       p_stderr_decodable].
  destruct (proc_quick w (reader_args program path threads_flag threads));
    cbn [andb p_returncode p_args p_stderr p_stderr_decodable];
    [| rewrite Hhd; reflexivity].
  rewrite Hhd.
  destruct (proc_exit w (reader_args program path threads_flag threads) =? 0)%Z;
    [reflexivity|].
  destruct (proc_stderr_decodable w
              (reader_args program path threads_flag threads)); reflexivity.
Qed.

Lemma reader_init_missing (w : World) (path program mode : string)
    (threads_flag : option string) (threads : option Z) (e : os_error) :
  In mode ["r"; "rt"; "rb"] ->
  popen_error w program = Some e ->
  PipedCompressionReader_init w path program mode threads_flag threads =
  ([EvSpawnFailed (reader_args program path threads_flag threads)],
   Raise (exn_of_os_error e)).
Proof.
  intros Hmode Hpopen. apply str_in_In in Hmode.
  unfold PipedCompressionReader_init, Popen. rewrite Hmode.
  fold (reader_args program path threads_flag threads).
  assert (Hhd : hd "" (reader_args program path threads_flag threads) = program)
    by reflexivity.
  rewrite Hhd, Hpopen. reflexivity.
Qed.

(** X15: a reader whose program has already died with a nonzero status at
    the end of the grace interval does not come into being.  The
    constructor reads the program's stderr; if that decodes, it closes both
    pipes and raises OSError with the stripped stderr text and the exit
    status; if it does not decode, the read itself raises UnicodeDecodeError
    (a ValueError) and neither pipe is closed.  A program still running, or
    one that ended with status 0, gives an open reader for [path]. *)
Theorem reader_reports_early_exit (w : World) (path program mode : string)
    (threads_flag : option string) (threads : option Z) :
  In mode ["r"; "rt"; "rb"] ->
  popen_error w program = None ->
  (proc_quick w (reader_args program path threads_flag threads) = true ->
   proc_exit w (reader_args program path threads_flag threads) <> 0%Z ->
   proc_stderr_decodable w (reader_args program path threads_flag threads)
     = true ->
   PipedCompressionReader_init w path program mode threads_flag threads =
   ([EvSpawn (reader_args program path threads_flag threads); EvSleep;
     EvPoll program; EvReadStderr program; EvClose "stdout"; EvClose "stderr"],
    Raise (reader_error w (reader_args program path threads_flag threads)))) /\
  (proc_quick w (reader_args program path threads_flag threads) = true ->
   proc_exit w (reader_args program path threads_flag threads) <> 0%Z ->
   proc_stderr_decodable w (reader_args program path threads_flag threads)
     = false ->
   PipedCompressionReader_init w path program mode threads_flag threads =
   ([EvSpawn (reader_args program path threads_flag threads); EvSleep;
     EvPoll program; EvReadStderr program],
    Raise UnicodeDecodeError)) /\
  (proc_quick w (reader_args program path threads_flag threads) = false \/
   proc_exit w (reader_args program path threads_flag threads) = 0%Z ->
   exists rd,
     PipedCompressionReader_init w path program mode threads_flag threads =
     ([EvSpawn (reader_args program path threads_flag threads); EvSleep;
       EvPoll program], Return rd) /\
     pr_closed rd = false /\ pr_name rd = path /\ pr_program rd = program /\
     p_args (pr_process rd) = reader_args program path threads_flag threads).
Proof.
  intros Hmode Hpopen.
  rewrite (reader_init_started w path program mode threads_flag threads
             Hmode Hpopen).
  split; [| split].
  - intros Hquick Hexit Hdec. apply Z.eqb_neq in Hexit.
    now rewrite Hquick, Hexit, Hdec.
  - intros Hquick Hexit Hdec. apply Z.eqb_neq in Hexit.
    now rewrite Hquick, Hexit, Hdec.
  - intros H.
    assert (E : proc_quick w (reader_args program path threads_flag threads)
                && negb (proc_exit w (reader_args program path threads_flag
                                        threads) =? 0)%Z = false).
    { destruct H as [-> | ->]; [reflexivity|]. apply andb_false_r. }
    rewrite E. eexists. split; [reflexivity|].
    split; [reflexivity|]. split; [reflexivity|]. split; [reflexivity|].
    unfold after_grace, spawned_process. cbn [p_returncode p_quick pr_process].
    destruct (proc_quick w (reader_args program path threads_flag threads));
      reflexivity.
Qed.

Lemma reader_reports_early_exit_witness :
  PipedCompressionReader_init broken_world "missing.gz" "igzip" "rb" None None =
    ([EvSpawn ["igzip"; "-cd"; "missing.gz"]; EvSleep; EvPoll "igzip";
      EvReadStderr "igzip"; EvClose "stdout"; EvClose "stderr"],
     Raise (OSError "igzip: missing.gz does not exist (exit code 1)")) /\
  PipedCompressionReader_init garbled_world "missing.gz" "igzip" "rb" None None =
    ([EvSpawn ["igzip"; "-cd"; "missing.gz"]; EvSleep; EvPoll "igzip";
      EvReadStderr "igzip"],
     Raise UnicodeDecodeError).
Proof.
  assert (Hm : In "rb" ["r"; "rt"; "rb"]) by (simpl; auto).
  destruct (reader_reports_early_exit broken_world "missing.gz" "igzip" "rb"
              None None Hm eq_refl) as [Hfail _].
  destruct (reader_reports_early_exit garbled_world "missing.gz" "igzip" "rb"
              None None Hm eq_refl) as [_ [Hgarbled _]].
  split.
  - apply Hfail; [reflexivity | discriminate | reflexivity].
  - apply Hgarbled; [reflexivity | discriminate | reflexivity].
Defined.

(** [strip] removes the white space of [str.isspace], not that of ASCII
    alone: here U+00A0 and a tab in front, U+2028, U+0085 and a newline
    behind, while U+00A0 inside the text stays. *)
Example strip_unicode_space :
  strip (string_of_codes
           [194; 160; 9; 110; 111; 194; 160; 102; 105; 108; 101;
            226; 128; 168; 194; 133; 10])
  = string_of_codes [110; 111; 194; 160; 102; 105; 108; 101].
Proof. reflexivity. Qed.

(** ** Choosing the backend of a gzip read *)

Lemma probe_passes (w : World) (program : string) :
  run_finds w program = true ->
  probe_run w program = (0%Z, ["A"; "B"; "C"; "D"; "E"; "F"; "G"; "H"]%byte) ->
  _can_read_concatenated_gz w program =
  ([EvRun [program; "-c"; "-d"; test_gz]], Return true).
Proof.
  intros Hfinds Hrun. unfold _can_read_concatenated_gz.
  rewrite Hfinds, Hrun. reflexivity.
Qed.

Lemma probe_fails (w : World) (program : string) :
  run_finds w program = false \/
  fst (probe_run w program) <> 0%Z \/
  snd (probe_run w program) <> ["A"; "B"; "C"; "D"; "E"; "F"; "G"; "H"]%byte ->
  exists ev r,
    _can_read_concatenated_gz w program = ([ev], r) /\
    (ev = EvRun [program; "-c"; "-d"; test_gz] \/
     ev = EvRunFailed [program; "-c"; "-d"; test_gz]) /\
    (r = Return false \/ r = Raise FileNotFoundError).
Proof.
  intros H. unfold _can_read_concatenated_gz.
  destruct (run_finds w program) eqn:Hfinds.
  - destruct (probe_run w program) as [rc stdout]. cbn [fst snd] in H.
    exists (EvRun [program; "-c"; "-d"; test_gz]), (Return false).
    split; [| auto].
    cbn [bind emit app].
    destruct H as [H | [H | H]]; [discriminate | |].
    + apply Z.eqb_neq in H. now rewrite H.
    + destruct (rc =? 0)%Z; [| reflexivity].
      destruct (Py.bytes_eqb stdout
                  ["A"; "B"; "C"; "D"; "E"; "F"; "G"; "H"]%byte) eqn:E;
        [| reflexivity].
      apply bytes_eqb_eq in E. contradiction.
  - exists (EvRunFailed [program; "-c"; "-d"; test_gz]),
      (Raise FileNotFoundError).
    split; [reflexivity | auto].
Qed.

Lemma open_gz_read_unfold (w : World) (filename mode : string)
    (compresslevel threads : option Z) :
  Py.char_in "r" mode = true -> threads_nonzero threads = true ->
  _open_gz w filename mode compresslevel threads =
  try_except
    (try_except
       (rd <- PipedIGzipReader_init w filename mode ;; ret (PipedReader rd))
       handles_missing_or_value
       (fun _ =>
          rd <- PipedGzipReader_init w filename mode threads ;;
          ret (PipedReader rd)))
    is_FileNotFoundError
    (fun _ => codec_open w gz filename mode None).
Proof.
  intros Hr Ht. unfold _open_gz, _open_gz_inprocess. now rewrite Hr, Ht.
Qed.

Lemma try_except_cons {A} (ev : event) (m : M A) (handles : exn -> bool)
    (h : exn -> M A) :
  try_except (ev :: trace m, outcome m) handles h =
  (ev :: trace (try_except m handles h), outcome (try_except m handles h)).
Proof.
  destruct m as [t [a | e]]; cbn; [reflexivity|].
  destruct (handles e); [destruct (h e)|]; reflexivity.
Qed.

Lemma read_mode_facts (mode : string) :
  In mode ["r"; "rt"; "rb"] ->
  In (normalize_mode mode) ["r"; "rt"; "rb"] /\
  In (normalize_mode mode) legal_modes /\
  Py.char_in "r" (normalize_mode mode) = true.
Proof.
  simpl. intros [<- | [<- | [<- | []]]]; simpl; auto 10.
Qed.

(** X16: igzip has passed the probe, has been started on a [.gz] file and
    dies early with a nonzero status (a missing or corrupt input, say).  If
    what it left on stderr decodes, the failure is final: [xopen] raises
    OSError with igzip's stderr text and status and tries neither pigz, nor
    gzip, nor the in-process codec.  If it does not decode, the
    UnicodeDecodeError of the read is caught like the ValueError of an
    unusable igzip, and the read goes on with the general chain (pigz, then
    gzip, then the codec). *)
Theorem failure_of_started_igzip (w : World) (filename mode : string)
    (compresslevel threads : option Z) :
  Py.endswith filename ".gz" = true ->
  In mode ["r"; "rt"; "rb"] ->
  threads_nonzero threads = true ->
  run_finds w "igzip" = true ->
  probe_run w "igzip" = (0%Z, ["A"; "B"; "C"; "D"; "E"; "F"; "G"; "H"]%byte) ->
  popen_error w "igzip" = None ->
  proc_quick w ["igzip"; "-cd"; filename] = true ->
  proc_exit w ["igzip"; "-cd"; filename] <> 0%Z ->
  (proc_stderr_decodable w ["igzip"; "-cd"; filename] = true ->
   xopen w filename mode compresslevel threads =
   ([EvRun ["igzip"; "-c"; "-d"; test_gz];
     EvSpawn ["igzip"; "-cd"; filename]; EvSleep; EvPoll "igzip";
     EvReadStderr "igzip"; EvClose "stdout"; EvClose "stderr"],
    Raise (reader_error w ["igzip"; "-cd"; filename]))) /\
  (proc_stderr_decodable w ["igzip"; "-cd"; filename] = false ->
   xopen w filename mode compresslevel threads =
   ([EvRun ["igzip"; "-c"; "-d"; test_gz];
     EvSpawn ["igzip"; "-cd"; filename]; EvSleep; EvPoll "igzip";
     EvReadStderr "igzip"] ++
    trace (try_except
             (rd <- PipedGzipReader_init w filename (normalize_mode mode)
                      threads ;;
              ret (PipedReader rd))
             is_FileNotFoundError
             (fun _ => codec_open w gz filename (normalize_mode mode) None)),
    outcome (try_except
               (rd <- PipedGzipReader_init w filename (normalize_mode mode)
                        threads ;;
                ret (PipedReader rd))
               is_FileNotFoundError
               (fun _ => codec_open w gz filename (normalize_mode mode)
                           None)))).
Proof.
  intros Hgz Hmode Hthreads Hfinds Hprobe Hpopen Hquick Hexit.
  destruct (read_mode_facts mode Hmode) as [Hm [Hlegal Hr]].
  rewrite xopen_gz_by_extension, open_gz_read_unfold by assumption.
  unfold PipedIGzipReader_init.
  rewrite (probe_passes w "igzip" Hfinds Hprobe). cbn [bind negb].
  rewrite (reader_init_started w filename "igzip" (normalize_mode mode)
             None None Hm Hpopen).
  change (reader_args "igzip" filename None None)
    with ["igzip"; "-cd"; filename].
  apply Z.eqb_neq in Hexit. rewrite Hquick, Hexit. cbn [andb negb].
  split; intros Hdec; rewrite Hdec; [reflexivity|].
  destruct (rd <- PipedGzipReader_init w filename (normalize_mode mode)
                    threads ;; ret (PipedReader rd)) as [t [a | e]];
    cbn; [reflexivity|].
  destruct (is_FileNotFoundError e); [| reflexivity].
  destruct (codec_error w gz filename (normalize_mode mode) None);
    reflexivity.
Qed.

Lemma failure_of_started_igzip_witness :
  xopen broken_world "missing.gz" "r" None None =
    ([EvRun ["igzip"; "-c"; "-d"; test_gz];
      EvSpawn ["igzip"; "-cd"; "missing.gz"]; EvSleep; EvPoll "igzip";
      EvReadStderr "igzip"; EvClose "stdout"; EvClose "stderr"],
     Raise (reader_error broken_world ["igzip"; "-cd"; "missing.gz"])) /\
  xopen garbled_world "missing.gz" "r" None None =
    ([EvRun ["igzip"; "-c"; "-d"; test_gz];
      EvSpawn ["igzip"; "-cd"; "missing.gz"]; EvSleep; EvPoll "igzip";
      EvReadStderr "igzip"] ++
     trace (try_except
              (rd <- PipedGzipReader_init garbled_world "missing.gz"
                       (normalize_mode "r") None ;;
               ret (PipedReader rd))
              is_FileNotFoundError
              (fun _ => codec_open garbled_world gz "missing.gz"
                          (normalize_mode "r") None)),
     outcome (try_except
                (rd <- PipedGzipReader_init garbled_world "missing.gz"
                         (normalize_mode "r") None ;;
                 ret (PipedReader rd))
                is_FileNotFoundError
                (fun _ => codec_open garbled_world gz "missing.gz"
                            (normalize_mode "r") None))).
Proof.
  assert (Hm : In "r" ["r"; "rt"; "rb"]) by (simpl; auto).
  destruct (failure_of_started_igzip broken_world "missing.gz" "r" None None
              eq_refl Hm eq_refl eq_refl eq_refl eq_refl eq_refl
              ltac:(discriminate)) as [Hfinal _].
  destruct (failure_of_started_igzip garbled_world "missing.gz" "r" None None
              eq_refl Hm eq_refl eq_refl eq_refl eq_refl eq_refl
              ltac:(discriminate)) as [_ Hcaught].
  split; [apply Hfinal | apply Hcaught]; reflexivity.
Defined.

(** With undecodable stderr the failed igzip is followed by pigz, which
    here fails the same way; that second UnicodeDecodeError is the
    caller's. *)
Example garbled_igzip_then_pigz :
  xopen garbled_world "missing.gz" "r" None None =
  ([EvRun ["igzip"; "-c"; "-d"; test_gz];
    EvSpawn ["igzip"; "-cd"; "missing.gz"]; EvSleep; EvPoll "igzip";
    EvReadStderr "igzip";
    EvSpawn ["pigz"; "-cd"; "missing.gz"; "-p"; "1"]; EvSleep; EvPoll "pigz";
    EvReadStderr "pigz"],
   Raise UnicodeDecodeError).
Proof. reflexivity. Qed.

Lemma reader_event_not_igzip_spawn (ev : event) :
  (reader_init_event ["pigz"; "gzip"] ev || is_codec_open ev) = true ->
  spawns_program "igzip" ev = false.
Proof.
  destruct ev; simpl; auto; try discriminate.
  all: unfold spawns_program; simpl;
    rewrite orb_false_r, !orb_true_iff;
    intros [H | [H | H]]; try discriminate;
    apply String.eqb_eq in H; now rewrite H.
Qed.

(** X17: an igzip that is missing, or that fails the probe (nonzero status,
    or an output other than the eight bytes of the four members), is never
    started on the file: after the probe, the read goes on exactly as the
    general chain does, pigz, then gzip if pigz is not found, then the
    in-process codec if neither is. *)
Theorem unusable_igzip_is_skipped_on_read (w : World) (filename mode : string)
    (compresslevel threads : option Z) :
  Py.endswith filename ".gz" = true ->
  In mode ["r"; "rt"; "rb"] ->
  threads_nonzero threads = true ->
  run_finds w "igzip" = false \/
  fst (probe_run w "igzip") <> 0%Z \/
  snd (probe_run w "igzip") <> ["A"; "B"; "C"; "D"; "E"; "F"; "G"; "H"]%byte ->
  exists ev,
    (ev = EvRun ["igzip"; "-c"; "-d"; test_gz] \/
     ev = EvRunFailed ["igzip"; "-c"; "-d"; test_gz]) /\
    xopen w filename mode compresslevel threads =
    (ev :: trace (try_except
                    (rd <- PipedGzipReader_init w filename
                             (normalize_mode mode) threads ;;
                     ret (PipedReader rd))
                    is_FileNotFoundError
                    (fun _ => codec_open w gz filename (normalize_mode mode)
                                None)),
     outcome (try_except
                (rd <- PipedGzipReader_init w filename
                         (normalize_mode mode) threads ;;
                 ret (PipedReader rd))
                is_FileNotFoundError
                (fun _ => codec_open w gz filename (normalize_mode mode)
                            None))) /\
    existsb (spawns_program "igzip")
      (trace (xopen w filename mode compresslevel threads)) = false.
Proof.
  intros Hgz Hmode Hthreads Hbad.
  destruct (read_mode_facts mode Hmode) as [Hm [Hlegal Hr]].
  destruct (probe_fails w "igzip" Hbad) as [ev [r [Hprobe [Hev Hres]]]].
  exists ev. split; [exact Hev|].
  assert (E : xopen w filename mode compresslevel threads =
              (ev :: trace (try_except
                              (rd <- PipedGzipReader_init w filename
                                       (normalize_mode mode) threads ;;
                               ret (PipedReader rd))
                              is_FileNotFoundError
                              (fun _ => codec_open w gz filename
                                          (normalize_mode mode) None)),
               outcome (try_except
                          (rd <- PipedGzipReader_init w filename
                                   (normalize_mode mode) threads ;;
                           ret (PipedReader rd))
                          is_FileNotFoundError
                          (fun _ => codec_open w gz filename
                                      (normalize_mode mode) None)))).
  { rewrite xopen_gz_by_extension, open_gz_read_unfold by assumption.
    unfold PipedIGzipReader_init. rewrite Hprobe.
    rewrite <- try_except_cons.
    destruct Hres as [-> | ->]; cbn [bind negb raise try_except
      handles_missing_or_value is_FileNotFoundError is_ValueError orb app];
      destruct (rd <- PipedGzipReader_init w filename (normalize_mode mode)
                        threads ;; ret (PipedReader rd)) as [t o];
      reflexivity. }
  split; [exact E|].
  rewrite E. cbn [trace fst existsb].
  assert (Hev' : spawns_program "igzip" ev = false)
    by (destruct Hev as [-> | ->]; reflexivity).
  rewrite Hev'. cbn [orb].
  eapply existsb_false_of_forallb; [apply reader_event_not_igzip_spawn|].
  apply forallb_trace_try.
  - rewrite trace_bind_ret.
    eapply forallb_impl; [| apply gzip_reader_init_trace].
    intros e H. now rewrite H.
  - intros _ _ _. now rewrite codec_open_eq.
Qed.

Lemma unusable_igzip_is_skipped_on_read_witness :
  exists ev,
    (ev = EvRun ["igzip"; "-c"; "-d"; test_gz] \/
     ev = EvRunFailed ["igzip"; "-c"; "-d"; test_gz]) /\
    xopen defective_igzip_world "reads.gz" "rb" None None =
    (ev :: trace (try_except
                    (rd <- PipedGzipReader_init defective_igzip_world
                             "reads.gz" (normalize_mode "rb") None ;;
                     ret (PipedReader rd))
                    is_FileNotFoundError
                    (fun _ => codec_open defective_igzip_world gz "reads.gz"
                                (normalize_mode "rb") None)),
     outcome (try_except
                (rd <- PipedGzipReader_init defective_igzip_world
                         "reads.gz" (normalize_mode "rb") None ;;
                 ret (PipedReader rd))
                is_FileNotFoundError
                (fun _ => codec_open defective_igzip_world gz "reads.gz"
                            (normalize_mode "rb") None))) /\
    existsb (spawns_program "igzip")
      (trace (xopen defective_igzip_world "reads.gz" "rb" None None)) = false.
Proof.
  apply (unusable_igzip_is_skipped_on_read defective_igzip_world "reads.gz"
           "rb" None None).
  - reflexivity.
  - simpl. auto.
  - reflexivity.
  - right. right. discriminate.
Defined.

(** With the defective igzip the file is read through pigz. *)
Example defective_igzip_read :
  trace (xopen defective_igzip_world "reads.gz" "rb" None None) =
  [EvRun ["igzip"; "-c"; "-d"; test_gz];
   EvSpawn ["pigz"; "-cd"; "reads.gz"; "-p"; "1"]; EvSleep; EvPoll "pigz"].
Proof. reflexivity. Qed.

(** ** Command lines of the readers *)

Lemma reader_init_spawn_args (w : World) (path program mode : string)
    (threads_flag : option string) (threads : option Z) (ev : event)
    (args : list string) :
  In ev (trace (PipedCompressionReader_init w path program mode threads_flag
                  threads)) ->
  spawn_args ev = Some args ->
  args = reader_args program path threads_flag threads.
Proof.
  destruct (Py.str_in mode ["r"; "rt"; "rb"]) eqn:Hmode.
  - apply str_in_In in Hmode.
    destruct (popen_error w program) as [e |] eqn:Hpopen.
    + rewrite (reader_init_missing w path program mode threads_flag threads e
                 Hmode Hpopen).
      simpl. intros [<- | []] [= <-]. reflexivity.
    + rewrite (reader_init_started w path program mode threads_flag threads
                 Hmode Hpopen).
      destruct (proc_quick w _ && negb (proc_exit w _ =? 0)%Z);
        [destruct (proc_stderr_decodable w _)|]; simpl;
        intros H; repeat (destruct H as [<- | H]; try discriminate);
        try destruct H; intros [= <-]; reflexivity.
  - unfold PipedCompressionReader_init. rewrite Hmode. intros [].
Qed.

(** X18: the command lines of the gzip reader.  [pigz] is run as
    [pigz -cd PATH -p N] with N the caller's thread count and 1 when that is
    unset; the [gzip] fallback is run as [gzip -cd PATH], with no thread
    option whatever the caller asked for. *)
Theorem gzip_reader_command_lines (w : World) (path mode : string)
    (threads : option Z) (ev : event) (args : list string) :
  In ev (trace (PipedGzipReader_init w path mode threads)) ->
  spawn_args ev = Some args ->
  args = ["pigz"; "-cd"; path; "-p";
          Py.str match threads with None => 1%Z | Some n => n end]
  \/ args = ["gzip"; "-cd"; path].
Proof.
  intros Hin Hargs. unfold PipedGzipReader_init in Hin.
  apply in_trace_try in Hin. destruct Hin as [H | [e [_ [_ H]]]].
  - left. now rewrite (reader_init_spawn_args _ _ _ _ _ _ _ _ H Hargs).
  - right. now rewrite (reader_init_spawn_args _ _ _ _ _ _ _ _ H Hargs).
Qed.

Lemma gzip_reader_command_lines_witness :
  ["gzip"; "-cd"; "reads.gz"] =
    ["pigz"; "-cd"; "reads.gz"; "-p";
     Py.str match Some 8%Z with None => 1%Z | Some n => n end]
  \/ ["gzip"; "-cd"; "reads.gz"] = ["gzip"; "-cd"; "reads.gz"].
Proof.
  apply (gzip_reader_command_lines bare_world "reads.gz" "rb" (Some 8%Z)
           (EvSpawnFailed ["gzip"; "-cd"; "reads.gz"])).
  - simpl. auto.
  - reflexivity.
Defined.

(** X19: readers check the mode too, but the igzip reader runs its probe
    first.  With a mode that is not a read mode the base reader and the gzip
    reader raise ValueError having started nothing, while the igzip reader
    raises only after the probe subprocess has run (the probe aside, it
    starts nothing either). *)
Theorem readers_reject_other_modes (w : World) (path program mode : string)
    (threads_flag : option string) (threads : option Z) :
  ~ In mode ["r"; "rt"; "rb"] ->
  PipedCompressionReader_init w path program mode threads_flag threads =
    ([], Raise (ValueError ("Mode is '" ++ mode ++
                            "', but it must be 'r', 'rt' or 'rb'")%string)) /\
  PipedGzipReader_init w path mode threads =
    ([], Raise (ValueError ("Mode is '" ++ mode ++
                            "', but it must be 'r', 'rt' or 'rb'")%string)) /\
  (exists e, outcome (PipedIGzipReader_init w path mode) = Raise e) /\
  trace (PipedIGzipReader_init w path mode) =
    [if run_finds w "igzip"
     then EvRun ["igzip"; "-c"; "-d"; test_gz]
     else EvRunFailed ["igzip"; "-c"; "-d"; test_gz]].
Proof.
  intros Hmode. apply not_in_str_in in Hmode.
  assert (Hbase : forall program' flag' threads',
             PipedCompressionReader_init w path program' mode flag' threads' =
             ([], Raise (ValueError ("Mode is '" ++ mode ++
                                     "', but it must be 'r', 'rt' or 'rb'")%string))).
  { intros. unfold PipedCompressionReader_init. now rewrite Hmode. }
  split; [apply Hbase|]. split.
  - unfold PipedGzipReader_init. now rewrite !Hbase.
  - unfold PipedIGzipReader_init.
    rewrite outcome_bind, trace_bind, probe_trace.
    destruct (outcome (_can_read_concatenated_gz w "igzip")) as [[|] | e];
      cbn [negb]; rewrite ?Hbase;
      (split; [eexists; reflexivity | reflexivity]).
Qed.

Lemma readers_reject_other_modes_witness :
  PipedGzipReader_init full_world "reads.gz" "wb" None =
    ([], Raise (ValueError "Mode is 'wb', but it must be 'r', 'rt' or 'rb'")) /\
  trace (PipedIGzipReader_init full_world "reads.gz" "wb") =
    [if run_finds full_world "igzip"
     then EvRun ["igzip"; "-c"; "-d"; test_gz]
     else EvRunFailed ["igzip"; "-c"; "-d"; test_gz]].
Proof.
  destruct (readers_reject_other_modes full_world "reads.gz" "pigz" "wb"
              (Some "-p") None) as [_ [Hgzip [_ Higzip]]].
  - simpl. intuition discriminate.
  - split; [exact Hgzip | exact Higzip].
Defined.

(** ** Falling back to the in-process codec *)

Lemma writer_init_missing (w : World) (path program mode : string)
    (compresslevel : option Z) (threads_flag : option string)
    (threads : option Z) (e : os_error) :
  In mode ["w"; "wt"; "wb"; "a"; "at"; "ab"] ->
  open_error w path mode = None ->
  open_error w devnull mode = None ->
  popen_error w program = Some e ->
  PipedCompressionWriter_init w path program mode compresslevel threads_flag
    threads =
  ([EvOpen path mode; EvOpen devnull mode;
    EvSpawnFailed (writer_args w program threads_flag mode compresslevel threads);
    EvClose path; EvClose devnull],
   Raise (exn_of_os_error e)).
Proof.
  intros Hmode Hopen Hnull Hpopen. apply str_in_In in Hmode.
  unfold PipedCompressionWriter_init, builtin_open, _open_process, Popen.
  rewrite Hmode, Hopen, Hnull. cbn [negb bind emit ret app hd].
  rewrite Hpopen. destruct e; reflexivity.
Qed.

Lemma writer_init_no_destination (w : World) (path program mode : string)
    (compresslevel : option Z) (threads_flag : option string)
    (threads : option Z) (e : os_error) :
  In mode ["w"; "wt"; "wb"; "a"; "at"; "ab"] ->
  open_error w path mode = Some e ->
  PipedCompressionWriter_init w path program mode compresslevel threads_flag
    threads = ([EvOpen path mode], Raise (exn_of_os_error e)).
Proof.
  intros Hmode Hopen. apply str_in_In in Hmode.
  unfold PipedCompressionWriter_init, builtin_open.
  rewrite Hmode, Hopen. reflexivity.
Qed.

Lemma write_mode_facts (mode : string) :
  In mode ["w"; "wt"; "wb"; "a"; "at"; "ab"] ->
  In (normalize_mode mode) ["w"; "wt"; "wb"; "a"; "at"; "ab"] /\
  In (normalize_mode mode) legal_modes /\
  Py.char_in "r" (normalize_mode mode) = false.
Proof.
  simpl. intros [<- | [<- | [<- | [<- | [<- | [<- | []]]]]]]; simpl; auto 10.
Qed.

(** What [_open_gz] does on a write once each of the three writers has
    been found to raise FileNotFoundError. *)
Lemma open_gz_write_all_missing (w : World) (filename mode : string)
    (compresslevel threads : option Z) (t : list event) :
  Py.char_in "r" mode = false ->
  threads_nonzero threads = true ->
  compresslevel = None \/
  (exists level, compresslevel = Some level /\ (1 <= level <= 9)%Z) ->
  (forall program flag threads',
      PipedCompressionWriter_init w filename program mode compresslevel flag
        threads' = (t, Raise FileNotFoundError)) ->
  outcome (_open_gz w filename mode compresslevel threads) =
    outcome (codec_open w gz filename mode (inprocess_level compresslevel)) /\
  exists t',
    trace (_open_gz w filename mode compresslevel threads) =
    t' ++ [EvCodecOpen gz filename mode (inprocess_level compresslevel)] /\
    (t' = t ++ t ++ t \/ t' = t ++ t).
Proof.
  intros Hr Hthreads Hlevel Hinit.
  unfold _open_gz, _open_gz_inprocess, PipedIGzipWriter_init,
    PipedGzipWriter_init.
  rewrite Hr, Hthreads.
  fold (inprocess_level compresslevel).
  rewrite !codec_open_eq.
  destruct Hlevel as [-> | [level [-> Hlevel]]].
  - repeat (rewrite ?Hinit;
            cbn [bind try_except handles_missing_or_value is_FileNotFoundError
                 is_ValueError orb ret raise app trace outcome fst snd]).
    split; [reflexivity|]. exists (t ++ t ++ t).
    split; [now rewrite <- !app_assoc | now left].
  - assert (H19 : Py.in_range level 1 10 = true).
    { unfold Py.in_range. apply andb_true_intro.
      split; [apply Z.leb_le | apply Z.ltb_lt]; lia. }
    rewrite H19.
    destruct (Py.in_range level 0 4); cbn [negb].
    + repeat (rewrite ?Hinit;
              cbn [bind try_except handles_missing_or_value
                   is_FileNotFoundError is_ValueError orb ret raise app trace
                   outcome fst snd]).
      split; [reflexivity|]. exists (t ++ t ++ t).
      split; [now rewrite <- !app_assoc | now left].
    + repeat (rewrite ?Hinit;
              cbn [bind try_except handles_missing_or_value
                   is_FileNotFoundError is_ValueError orb ret raise app trace
                   outcome fst snd]).
      split; [reflexivity|]. exists (t ++ t).
      split; [now rewrite <- !app_assoc | now right].
Qed.

(** The same when the three writers raise FileNotFoundError each in its
    own way. *)
Lemma open_gz_write_falls_through (w : World) (filename mode : string)
    (compresslevel threads : option Z) :
  Py.char_in "r" mode = false ->
  threads_nonzero threads = true ->
  compresslevel = None \/
  (exists level, compresslevel = Some level /\ (1 <= level <= 9)%Z) ->
  (forall program flag threads',
      outcome (PipedCompressionWriter_init w filename program mode
                 compresslevel flag threads') = Raise FileNotFoundError) ->
  outcome (_open_gz w filename mode compresslevel threads) =
    outcome (codec_open w gz filename mode (inprocess_level compresslevel)) /\
  exists t',
    trace (_open_gz w filename mode compresslevel threads) =
    t' ++ [EvCodecOpen gz filename mode (inprocess_level compresslevel)] /\
    forallb (writer_init_event ["igzip"; "pigz"; "gzip"]) t' = true.
Proof.
  intros Hr Hthreads Hlevel Hinit.
  assert (Hgzip : outcome (PipedGzipWriter_init w filename mode compresslevel
                             threads) = Raise FileNotFoundError).
  { unfold PipedGzipWriter_init.
    assert (Hchain : outcome
              (try_except
                 (PipedCompressionWriter_init w filename "pigz" mode
                    compresslevel (Some "-p") threads)
                 is_FileNotFoundError
                 (fun _ => PipedCompressionWriter_init w filename "gzip" mode
                             compresslevel None threads))
            = Raise FileNotFoundError).
    { rewrite outcome_try_except, Hinit. cbn. apply Hinit. }
    destruct Hlevel as [-> | [level [-> Hlevel]]]; [exact Hchain|].
    assert (H19 : Py.in_range level 1 10 = true).
    { unfold Py.in_range. apply andb_true_intro.
      split; [apply Z.leb_le | apply Z.ltb_lt]; lia. }
    rewrite H19. exact Hchain. }
  assert (Higzip : exists e,
             outcome (PipedIGzipWriter_init w filename mode compresslevel)
               = Raise e /\ handles_missing_or_value e = true).
  { unfold PipedIGzipWriter_init.
    destruct compresslevel as [level |];
      [destruct (negb (Py.in_range level 0 4))|];
      eexists; (split; [first [apply Hinit | reflexivity] | reflexivity]). }
  destruct Higzip as [e [Hig He]].
  assert (Hinner : outcome
            (try_except
               (wr <- PipedIGzipWriter_init w filename mode compresslevel ;;
                ret (PipedWriter wr))
               handles_missing_or_value
               (fun _ =>
                  wr <- PipedGzipWriter_init w filename mode compresslevel
                          threads ;;
                  ret (PipedWriter wr)))
          = Raise FileNotFoundError).
  { rewrite outcome_try_except, !outcome_bind_ret, Hig, He, Hgzip.
    reflexivity. }
  unfold _open_gz, _open_gz_inprocess. rewrite Hr, Hthreads.
  fold (inprocess_level compresslevel).
  split.
  - rewrite outcome_try_except, Hinner. reflexivity.
  - rewrite trace_try_except, Hinner. cbn [is_FileNotFoundError].
    rewrite codec_open_eq. cbn [trace fst].
    eexists. split; [reflexivity|].
    apply forallb_forall. intros ev Hin.
    now apply (open_gz_write_external w filename mode compresslevel threads).
Qed.



(** X21: writing a [.gz] file on a machine with none of igzip, pigz and
    gzip is not an error either, for a level that is unset or within 1..9:
    the last thing [xopen] does is to open the file with the in-process
    codec, at level 6 or the caller's, and the codec's result is the
    caller's. *)
Theorem gzip_write_without_programs (w : World) (filename mode : string)
    (compresslevel threads : option Z) :
  Py.endswith filename ".gz" = true ->
  In mode ["w"; "wt"; "wb"; "a"; "at"; "ab"] ->
  threads_nonzero threads = true ->
  compresslevel = None \/
  (exists level, compresslevel = Some level /\ (1 <= level <= 9)%Z) ->
  open_error w filename (normalize_mode mode) = None ->
  open_error w devnull (normalize_mode mode) = None ->
  (forall program, popen_error w program = Some ENOENT) ->
  outcome (xopen w filename mode compresslevel threads) =
    match codec_error w gz filename (normalize_mode mode)
            (inprocess_level compresslevel) with
    | Some e => Raise e
    | None => Return (CodecFile gz filename (normalize_mode mode)
                        (inprocess_level compresslevel))
    end /\
  exists t',
    trace (xopen w filename mode compresslevel threads) =
    t' ++ [EvCodecOpen gz filename (normalize_mode mode)
             (inprocess_level compresslevel)] /\
    existsb is_spawn t' = false.
Proof.
  intros Hgz Hmode Hthreads Hlevel Hopen Hnull Hpopen.
  destruct (write_mode_facts mode Hmode) as [Hm [Hlegal Hr]].
  rewrite xopen_gz_by_extension by assumption.
  assert (Hinit : forall program flag threads',
             PipedCompressionWriter_init w filename program
               (normalize_mode mode) compresslevel flag threads' =
             ([EvOpen filename (normalize_mode mode);
               EvOpen devnull (normalize_mode mode);
               EvSpawnFailed (writer_args w program flag (normalize_mode mode)
                                compresslevel threads');
               EvClose filename; EvClose devnull],
              Raise FileNotFoundError)).
  { intros. apply (writer_init_missing w filename program (normalize_mode mode)
                     compresslevel flag threads' ENOENT); auto. }
  destruct (open_gz_write_falls_through w filename (normalize_mode mode)
              compresslevel threads Hr Hthreads Hlevel) as [Hout [t' [Ht Hev]]].
  { intros. now rewrite Hinit. }
  rewrite Hout, codec_open_eq. split; [reflexivity|].
  exists t'. split; [exact Ht|].
  assert (Hnone : forall ev, In ev t' -> is_spawn ev = false).
  { intros ev Hin.
    assert (Hin' : In ev (trace (_open_gz w filename (normalize_mode mode)
                                   compresslevel threads)))
      by (rewrite Ht; apply in_or_app; now left).
    unfold _open_gz, PipedIGzipWriter_init, PipedGzipWriter_init in Hin'.
    rewrite Hr, Hthreads in Hin'.
    apply in_trace_try in Hin'. destruct Hin' as [Hin' | [e [_ [_ Hin']]]].
    - apply in_trace_try in Hin'.
      destruct Hin' as [Hin' | [e [_ [_ Hin']]]]; rewrite trace_bind_ret in Hin'.
      + destruct compresslevel as [level |];
          [destruct (negb (Py.in_range level 0 4)); [destruct Hin'|]|];
          rewrite Hinit in Hin'; simpl in Hin';
          repeat (destruct Hin' as [<- | Hin']; try reflexivity);
          destruct Hin'.
      + assert (Hchain : forall ev',
                   In ev' (trace (try_except
                      (PipedCompressionWriter_init w filename "pigz"
                         (normalize_mode mode) compresslevel (Some "-p") threads)
                      is_FileNotFoundError
                      (fun _ => PipedCompressionWriter_init w filename "gzip"
                                  (normalize_mode mode) compresslevel None
                                  threads))) ->
                   is_spawn ev' = false).
        { intros ev' H. apply in_trace_try in H.
          destruct H as [H | [e' [_ [_ H]]]]; rewrite Hinit in H; simpl in H;
            repeat (destruct H as [<- | H]; try reflexivity); destruct H. }
        destruct compresslevel as [level |];
          [destruct (negb (Py.in_range level 1 10)); [destruct Hin'|]|];
          now apply Hchain.
    - unfold _open_gz_inprocess in Hin'. rewrite Hr, codec_open_eq in Hin'.
      simpl in Hin'. destruct Hin' as [<- | []]. reflexivity. }
  destruct (existsb is_spawn t') eqn:E; [| reflexivity].
  apply existsb_exists in E. destruct E as [ev [Hin Hsp]].
  rewrite (Hnone ev Hin) in Hsp. discriminate.
Qed.

Lemma gzip_write_without_programs_witness :
  outcome (xopen bare_world "out.gz" "w" None None) =
    match codec_error bare_world gz "out.gz" (normalize_mode "w")
            (inprocess_level None) with
    | Some e => Raise e
    | None => Return (CodecFile gz "out.gz" (normalize_mode "w")
                        (inprocess_level None))
    end /\
  exists t',
    trace (xopen bare_world "out.gz" "w" None None) =
    t' ++ [EvCodecOpen gz "out.gz" (normalize_mode "w") (inprocess_level None)] /\
    existsb is_spawn t' = false.
Proof.
  apply (gzip_write_without_programs bare_world "out.gz" "w" None None);
    try reflexivity.
  - simpl. auto.
  - now left.
Defined.

(** X22: a destination that cannot be opened because its directory does
    not exist looks to [_open_gz] like a missing program.  On a gzip write
    each piped writer tried fails at its first [open]; no spawn is ever
    attempted and the error is not reported: the in-process codec is called
    instead, and its result, usually its own FileNotFoundError, is the
    caller's. *)
Theorem missing_directory_reaches_codec (w : World) (filename mode : string)
    (compresslevel threads : option Z) :
  Py.endswith filename ".gz" = true ->
  In mode ["w"; "wt"; "wb"; "a"; "at"; "ab"] ->
  threads_nonzero threads = true ->
  compresslevel = None \/
  (exists level, compresslevel = Some level /\ (1 <= level <= 9)%Z) ->
  open_error w filename (normalize_mode mode) = Some ENOENT ->
  outcome (xopen w filename mode compresslevel threads) =
    match codec_error w gz filename (normalize_mode mode)
            (inprocess_level compresslevel) with
    | Some e => Raise e
    | None => Return (CodecFile gz filename (normalize_mode mode)
                        (inprocess_level compresslevel))
    end /\
  existsb is_spawn_attempt
    (trace (xopen w filename mode compresslevel threads)) = false /\
  (trace (xopen w filename mode compresslevel threads) =
     [EvOpen filename (normalize_mode mode);
      EvOpen filename (normalize_mode mode);
      EvOpen filename (normalize_mode mode);
      EvCodecOpen gz filename (normalize_mode mode)
        (inprocess_level compresslevel)]
   \/ trace (xopen w filename mode compresslevel threads) =
     [EvOpen filename (normalize_mode mode);
      EvOpen filename (normalize_mode mode);
      EvCodecOpen gz filename (normalize_mode mode)
        (inprocess_level compresslevel)]).
Proof.
  intros Hgz Hmode Hthreads Hlevel Hopen.
  destruct (write_mode_facts mode Hmode) as [Hm [Hlegal Hr]].
  rewrite xopen_gz_by_extension by assumption.
  destruct (open_gz_write_all_missing w filename (normalize_mode mode)
              compresslevel threads [EvOpen filename (normalize_mode mode)]
              Hr Hthreads Hlevel) as [Hout [t' [Ht Hshape]]].
  { intros. apply (writer_init_no_destination w filename program
                     (normalize_mode mode) compresslevel flag threads' ENOENT);
      assumption. }
  rewrite Hout, codec_open_eq, Ht.
  split; [reflexivity|].
  destruct Hshape as [-> | ->]; (split; [reflexivity|]); [left | right];
    reflexivity.
Qed.

Lemma missing_directory_reaches_codec_witness :
  outcome (xopen broken_world "gone/out.gz" "wb" None None) =
    Raise FileNotFoundError /\
  existsb is_spawn_attempt
    (trace (xopen broken_world "gone/out.gz" "wb" None None)) = false.
Proof.
  destruct (missing_directory_reaches_codec broken_world "gone/out.gz" "wb"
              None None) as [Hout [Hquiet _]]; try reflexivity.
  - simpl. auto.
  - now left.
  - split; [exact Hout | exact Hquiet].
Defined.

(** ** The finalizer *)

(** X23: [__del__] is [close] with every exception swallowed: it does what
    the first [close] would do, leaves the stream closed and never raises,
    not even when the compressor failed; on a stream that is already closed
    it does nothing at all. *)
Theorem finalizer_closes_silently (wr : PipedCompressionWriter)
    (rd : PipedCompressionReader) :
  (outcome (snd (Closing_del_writer wr)) = Return tt /\
   trace (snd (Closing_del_writer wr))
     = trace (snd (PipedCompressionWriter_close wr)) /\
   pw_closed (fst (Closing_del_writer wr)) = true /\
   snd (Closing_del_writer (fst (PipedCompressionWriter_close wr)))
     = ([], Return tt)) /\
  (outcome (snd (Closing_del_reader rd)) = Return tt /\
   trace (snd (Closing_del_reader rd))
     = trace (snd (PipedCompressionReader_close rd)) /\
   pr_closed (fst (Closing_del_reader rd)) = true /\
   snd (Closing_del_reader (fst (PipedCompressionReader_close rd)))
     = ([], Return tt)).
Proof.
  assert (Hswallow : forall m : M unit,
             outcome (try_except m (fun _ => true) (fun _ => ret tt))
               = Return tt /\
             trace (try_except m (fun _ => true) (fun _ => ret tt)) = trace m).
  { intros [t [[] | e]]; cbn; [auto|]. now rewrite app_nil_r. }
  split.
  - unfold Closing_del_writer. cbn [fst snd].
    split; [apply Hswallow|]. split; [apply Hswallow|].
    split; [apply writer_close_sets_closed|].
    rewrite (writer_close_when_closed _ (writer_close_sets_closed wr)).
    reflexivity.
  - unfold Closing_del_reader. cbn [fst snd].
    split; [apply Hswallow|]. split; [apply Hswallow|].
    split; [apply reader_close_sets_closed|].
    rewrite (reader_close_when_closed _ (reader_close_sets_closed rd)).
    reflexivity.
Qed.

(** The failing writer of the samples: [close] raises, [__del__] does not. *)
Example finalizer_on_failing_writer :
  snd (Closing_exit_writer failing_writer) =
    ([EvClose "stdin"; EvWait "pigz"; EvClose "out.gz"; EvClose "/dev/null"],
     Raise (OSError "Output pigz process terminated with exit code 1")) /\
  snd (Closing_del_writer failing_writer) =
    ([EvClose "stdin"; EvWait "pigz"; EvClose "out.gz"; EvClose "/dev/null"],
     Return tt) /\
  snd (Closing_exit_reader running_reader) =
    snd (PipedCompressionReader_close running_reader).
Proof. repeat split. Qed.

(** ** The stream that comes back *)

Lemma writer_init_returns (w : World) (path program mode : string)
    (compresslevel : option Z) (threads_flag : option string)
    (threads : option Z) (wr : PipedCompressionWriter) :
  outcome (PipedCompressionWriter_init w path program mode compresslevel
             threads_flag threads) = Return wr ->
  pw_name wr = path /\ pw_closed wr = false /\
  pw_text wr = negb (Py.char_in "b" mode) /\ pw_program wr = program.
Proof.
  unfold PipedCompressionWriter_init, builtin_open, _open_process, Popen.
  destruct (negb (Py.str_in mode ["w"; "wt"; "wb"; "a"; "at"; "ab"]));
    [discriminate|].
  destruct (open_error w path mode); [discriminate|].
  cbn [bind emit ret app].
  destruct (open_error w devnull mode); [discriminate|].
  cbn [bind emit ret app hd].
  destruct (popen_error w program) as [[|] |]; cbn; try discriminate.
  intros [= <-]. auto.
Qed.

Lemma reader_init_returns (w : World) (path program mode : string)
    (threads_flag : option string) (threads : option Z)
    (rd : PipedCompressionReader) :
  outcome (PipedCompressionReader_init w path program mode threads_flag
             threads) = Return rd ->
  pr_name rd = path /\ pr_closed rd = false /\
  pr_text rd = negb (Py.char_in "b" mode) /\ pr_program rd = program.
Proof.
  destruct (Py.str_in mode ["r"; "rt"; "rb"]) eqn:Hmode.
  - apply str_in_In in Hmode.
    destruct (popen_error w program) as [e |] eqn:Hpopen.
    + rewrite (reader_init_missing w path program mode threads_flag threads e
                 Hmode Hpopen). discriminate.
    + rewrite (reader_init_started w path program mode threads_flag threads
                 Hmode Hpopen).
      destruct (proc_quick w _ && negb (proc_exit w _ =? 0)%Z);
        [destruct (proc_stderr_decodable w _); discriminate|].
      intros [= <-]. auto.
  - unfold PipedCompressionReader_init. rewrite Hmode. discriminate.
Qed.

Lemma try_except_returns {A} (m : M A) (handles : exn -> bool)
    (h : exn -> M A) (a : A) :
  outcome (try_except m handles h) = Return a ->
  outcome m = Return a \/ exists e, outcome (h e) = Return a.
Proof.
  rewrite outcome_try_except.
  destruct (outcome m) as [a' | e]; [now left|].
  destruct (handles e); [right; now exists e | discriminate].
Qed.

Lemma gzip_writer_returns (w : World) (path mode : string)
    (compresslevel threads : option Z) (wr : PipedCompressionWriter) :
  outcome (PipedGzipWriter_init w path mode compresslevel threads) = Return wr ->
  pw_name wr = path /\ pw_closed wr = false /\
  pw_text wr = negb (Py.char_in "b" mode).
Proof.
  assert (Hchain :
    outcome (try_except
               (PipedCompressionWriter_init w path "pigz" mode compresslevel
                  (Some "-p") threads)
               is_FileNotFoundError
               (fun _ => PipedCompressionWriter_init w path "gzip" mode
                           compresslevel None threads)) = Return wr ->
    pw_name wr = path /\ pw_closed wr = false /\
    pw_text wr = negb (Py.char_in "b" mode)).
  { intros H. apply try_except_returns in H.
    destruct H as [H | [e H]]; apply writer_init_returns in H; tauto. }
  unfold PipedGzipWriter_init.
  destruct compresslevel as [level |]; [| exact Hchain].
  destruct (negb (Py.in_range level 1 10)); [discriminate | exact Hchain].
Qed.

Lemma igzip_writer_returns (w : World) (path mode : string)
    (compresslevel : option Z) (wr : PipedCompressionWriter) :
  outcome (PipedIGzipWriter_init w path mode compresslevel) = Return wr ->
  pw_name wr = path /\ pw_closed wr = false /\
  pw_text wr = negb (Py.char_in "b" mode).
Proof.
  unfold PipedIGzipWriter_init.
  destruct compresslevel as [level |];
    [destruct (negb (Py.in_range level 0 4)); [discriminate|]|];
    intros H; apply writer_init_returns in H; tauto.
Qed.

Lemma gzip_reader_returns (w : World) (path mode : string)
    (threads : option Z) (rd : PipedCompressionReader) :
  outcome (PipedGzipReader_init w path mode threads) = Return rd ->
  pr_name rd = path /\ pr_closed rd = false /\
  pr_text rd = negb (Py.char_in "b" mode).
Proof.
  unfold PipedGzipReader_init. intros H. apply try_except_returns in H.
  destruct H as [H | [e H]]; apply reader_init_returns in H; tauto.
Qed.

Lemma igzip_reader_returns (w : World) (path mode : string)
    (rd : PipedCompressionReader) :
  outcome (PipedIGzipReader_init w path mode) = Return rd ->
  pr_name rd = path /\ pr_closed rd = false /\
  pr_text rd = negb (Py.char_in "b" mode).
Proof.
  unfold PipedIGzipReader_init. rewrite outcome_bind.
  destruct (outcome (_can_read_concatenated_gz w "igzip")) as [[|] | e];
    cbn [negb]; try discriminate.
  intros H. apply reader_init_returns in H. tauto.
Qed.

Lemma bind_ret_returns {A B} (m : M A) (f : A -> B) (b : B) :
  outcome (x <- m ;; ret (f x)) = Return b ->
  exists a, outcome m = Return a /\ b = f a.
Proof.
  rewrite outcome_bind_ret. destruct (outcome m) as [a | e];
    [intros [= <-]; now exists a | discriminate].
Qed.

Lemma codec_open_returns (w : World) (c : format) (filename mode : string)
    (level : option Z) (h : handle) :
  outcome (codec_open w c filename mode level) = Return h ->
  h = CodecFile c filename mode level.
Proof.
  rewrite codec_open_eq. cbn.
  destruct (codec_error w c filename mode level); [discriminate|].
  now intros [= <-].
Qed.

Lemma open_gz_returns (w : World) (filename mode : string)
    (compresslevel threads : option Z) (h : handle) :
  outcome (_open_gz w filename mode compresslevel threads) = Return h ->
  handle_fits filename mode h.
Proof.
  assert (Hcodec : outcome (_open_gz_inprocess w filename mode compresslevel)
                   = Return h -> handle_fits filename mode h).
  { unfold _open_gz_inprocess.
    destruct (Py.char_in "r" mode); intros H;
      apply codec_open_returns in H; subst h;
      repeat split; try reflexivity; discriminate. }
  unfold _open_gz. destruct (threads_nonzero threads); [| exact Hcodec].
  intros H. apply try_except_returns in H.
  destruct H as [H | [e H]]; [| now apply Hcodec].
  destruct (Py.char_in "r" mode) eqn:Hr;
    apply try_except_returns in H; destruct H as [H | [e H]];
    apply bind_ret_returns in H; destruct H as [x [H ->]].
  - apply igzip_reader_returns in H. destruct H as [Hn [Hc Ht]].
    repeat split; cbn; rewrite ?Hn, ?Hc, ?Ht; try reflexivity;
      try discriminate; intros _; exact Hr.
  - apply gzip_reader_returns in H. destruct H as [Hn [Hc Ht]].
    repeat split; cbn; rewrite ?Hn, ?Hc, ?Ht; try reflexivity;
      try discriminate; intros _; exact Hr.
  - apply igzip_writer_returns in H. destruct H as [Hn [Hc Ht]].
    repeat split; cbn; rewrite ?Hn, ?Hc, ?Ht; try reflexivity;
      try discriminate; intros _; exact Hr.
  - apply gzip_writer_returns in H. destruct H as [Hn [Hc Ht]].
    repeat split; cbn; rewrite ?Hn, ?Hc, ?Ht; try reflexivity;
      try discriminate; intros _; exact Hr.
Qed.

(** X24: whenever [xopen] returns a stream, the mode was a legal one and
    the stream fits the request: it is bound to the given path (for ['-'],
    to descriptor 0 on a read and 1 on a write), it is a text stream exactly
    when the normalized mode has no ['b'], it is not closed, and it is a
    piped reader only for a read mode and a piped writer only for a write or
    append mode. *)
Theorem xopen_returns_fitting_stream (w : World) (filename mode : string)
    (compresslevel threads : option Z) (h : handle) :
  outcome (xopen w filename mode compresslevel threads) = Return h ->
  In (normalize_mode mode) legal_modes /\
  (filename <> "-" -> handle_fits filename (normalize_mode mode) h) /\
  (filename = "-" ->
   h = StdStream (if Py.char_in "r" (normalize_mode mode) then 0 else 1)%Z
         (normalize_mode mode)).
Proof.
  destruct (Py.str_in (normalize_mode mode) legal_modes) eqn:Hlegal;
    [| unfold xopen; rewrite Hlegal; discriminate].
  intros H. split; [now apply str_in_In|]. split.
  - intros Hdash. apply str_in_In in Hlegal.
    rewrite xopen_dispatch, outcome_bind in H by assumption.
    destruct (outcome (detect_format w filename (normalize_mode mode)))
      as [d | e]; [| discriminate].
    destruct d as [[| |] |].
    + now apply open_gz_returns in H.
    + unfold _open_bz2 in H. apply codec_open_returns in H. subst h.
      repeat split; try reflexivity; discriminate.
    + unfold _open_xz in H. destruct (lzma_present w); [| discriminate].
      apply codec_open_returns in H. subst h.
      repeat split; try reflexivity; discriminate.
    + unfold builtin_open in H. cbn in H.
      destruct (open_error w filename (normalize_mode mode));
        [discriminate|].
      injection H as <-. repeat split; try reflexivity; discriminate.
  - intros ->. unfold xopen in H. rewrite Hlegal in H.
    cbn [negb String.eqb Ascii.eqb Bool.eqb] in H.
    apply str_in_In in Hlegal. revert Hlegal H.
    generalize (normalize_mode mode) as m. intros m Hm.
    simpl in Hm.
    destruct Hm as [<- | [<- | [<- | [<- | [<- | [<- | []]]]]]]; cbn;
      try discriminate;
      match goal with
      | |- context [fdopen_error ?w ?fd ?m] => destruct (fdopen_error w fd m)
      end; try discriminate; now intros [= <-].
Qed.

Lemma xopen_returns_fitting_stream_witness :
  In (normalize_mode "r") legal_modes /\
  ("data" <> "-" -> handle_fits "data" (normalize_mode "r")
                      (CodecFile gz "data" "rt" None)) /\
  ("data" = "-" ->
   CodecFile gz "data" "rt" None =
   StdStream (if Py.char_in "r" (normalize_mode "r") then 0 else 1)%Z
     (normalize_mode "r")).
Proof.
  apply (xopen_returns_fitting_stream full_world "data" "r" None (Some 0%Z)).
  reflexivity.
Defined.

(** ** Falling through to the in-process codec on a write *)

Lemma open_gz_unfold (w : World) (filename mode : string)
    (compresslevel threads : option Z) :
  _open_gz w filename mode compresslevel threads =
  if threads_nonzero threads then
    try_except (open_gz_piped w filename mode compresslevel threads)
      is_FileNotFoundError
      (fun _ => _open_gz_inprocess w filename mode compresslevel)
  else _open_gz_inprocess w filename mode compresslevel.
Proof. reflexivity. Qed.

Lemma xopen_gz (w : World) (filename mode : string)
    (compresslevel threads : option Z) :
  filename <> "-" ->
  In (normalize_mode mode) legal_modes ->
  outcome (detect_format w filename (normalize_mode mode)) = Return (Some gz) ->
  xopen w filename mode compresslevel threads =
  after_detection w filename (normalize_mode mode)
    (_open_gz w filename (normalize_mode mode) compresslevel threads).
Proof.
  intros Hdash Hlegal Hgz. rewrite xopen_dispatch by assumption.
  unfold after_detection.
  rewrite (M_eta (detect_format w filename (normalize_mode mode))), Hgz.
  cbn [bind trace outcome fst snd].
  now destruct (_open_gz w filename (normalize_mode mode) compresslevel
                  threads).
Qed.

Lemma detect_format_no_codec (w : World) (filename mode : string) :
  existsb is_codec_open (trace (detect_format w filename mode)) = false.
Proof.
  eapply existsb_false_of_forallb; [| apply detect_format_trace].
  intros ev. destruct ev; simpl; auto; discriminate.
Qed.

Lemma open_gz_piped_write_no_codec (w : World) (filename mode : string)
    (compresslevel threads : option Z) :
  Py.char_in "r" mode = false ->
  existsb is_codec_open
    (trace (open_gz_piped w filename mode compresslevel threads)) = false.
Proof.
  intros Hr. unfold open_gz_piped. rewrite Hr.
  destruct (existsb is_codec_open _) eqn:E; [| reflexivity].
  apply existsb_exists in E. destruct E as [ev [Hin Hev]].
  apply open_gz_write_external in Hin. destruct ev; discriminate.
Qed.

(** C7: on the write or append of a gzip path, [xopen] falls through to the
    in-process codec when [threads] is 0 or when the external backends end
    in FileNotFoundError.  It then calls [gzip.open] once, after everything
    else, with level 6 when the caller gave no level and with the caller's
    level otherwise, and returns what the codec returns.  When it does not
    fall through, the codec is not called at all. *)
Theorem inprocess_gzip_write_level (w : World) (filename mode : string)
    (compresslevel threads : option Z) :
  filename <> "-" ->
  In mode ["w"; "wt"; "wb"; "a"; "at"; "ab"] ->
  outcome (detect_format w filename (normalize_mode mode)) = Return (Some gz) ->
  inprocess_level None = Some 6%Z /\
  (forall level, inprocess_level (Some level) = Some level) /\
  (threads_nonzero threads = false \/
   outcome (open_gz_piped w filename (normalize_mode mode) compresslevel
              threads) = Raise FileNotFoundError ->
   xopen w filename mode compresslevel threads =
   (trace (detect_format w filename (normalize_mode mode)) ++
    (if threads_nonzero threads
     then trace (open_gz_piped w filename (normalize_mode mode) compresslevel
                   threads)
     else []) ++
    [EvCodecOpen gz filename (normalize_mode mode)
       (inprocess_level compresslevel)],
    match codec_error w gz filename (normalize_mode mode)
            (inprocess_level compresslevel) with
    | Some e => Raise e
    | None => Return (CodecFile gz filename (normalize_mode mode)
                        (inprocess_level compresslevel))
    end) /\
   existsb is_codec_open
     (trace (detect_format w filename (normalize_mode mode)) ++
      (if threads_nonzero threads
       then trace (open_gz_piped w filename (normalize_mode mode)
                     compresslevel threads)
       else [])) = false) /\
  (threads_nonzero threads = true ->
   outcome (open_gz_piped w filename (normalize_mode mode) compresslevel
              threads) <> Raise FileNotFoundError ->
   xopen w filename mode compresslevel threads =
     after_detection w filename (normalize_mode mode)
       (open_gz_piped w filename (normalize_mode mode) compresslevel threads) /\
   existsb is_codec_open
     (trace (xopen w filename mode compresslevel threads)) = false).
Proof.
  intros Hdash Hmode Hgz.
  destruct (write_mode_facts mode Hmode) as [_ [Hlegal Hr]].
  split; [reflexivity|]. split; [reflexivity|].
  rewrite (xopen_gz w filename mode compresslevel threads Hdash Hlegal Hgz).
  rewrite open_gz_unfold. unfold _open_gz_inprocess. rewrite Hr.
  fold (inprocess_level compresslevel). rewrite codec_open_eq.
  pose proof (open_gz_piped_write_no_codec w filename (normalize_mode mode)
                compresslevel threads Hr) as Hquiet.
  unfold after_detection. split.
  - intros Hfall. destruct (threads_nonzero threads).
    + destruct Hfall as [Hfall | Hfall]; [discriminate|].
      split.
      * rewrite trace_try_except, outcome_try_except, Hfall. reflexivity.
      * now rewrite existsb_app, detect_format_no_codec, Hquiet.
    + split; [reflexivity|].
      now rewrite app_nil_r, detect_format_no_codec.
  - intros Hthreads Hstay. rewrite Hthreads.
    assert (E : try_except
                  (open_gz_piped w filename (normalize_mode mode)
                     compresslevel threads)
                  is_FileNotFoundError
                  (fun _ =>
                     ([EvCodecOpen gz filename (normalize_mode mode)
                         (inprocess_level compresslevel)],
                      match codec_error w gz filename (normalize_mode mode)
                              (inprocess_level compresslevel) with
                      | Some e => Raise e
                      | None =>
                          Return (CodecFile gz filename (normalize_mode mode)
                                    (inprocess_level compresslevel))
                      end))
                = open_gz_piped w filename (normalize_mode mode)
                    compresslevel threads).
    { destruct (open_gz_piped w filename (normalize_mode mode) compresslevel
                  threads) as [t [h | e]]; [reflexivity|].
      destruct e; try reflexivity. now contradiction Hstay. }
    rewrite E. split; [reflexivity|].
    cbn [trace fst].
    now rewrite existsb_app, detect_format_no_codec, Hquiet.
Qed.

Lemma inprocess_gzip_write_level_witness :
  xopen bare_world "out.gz" "w" None None =
    ([EvOpen "out.gz" "wt"; EvOpen devnull "wt"; EvSpawnFailed ["igzip"];
      EvClose "out.gz"; EvClose devnull;
      EvOpen "out.gz" "wt"; EvOpen devnull "wt";
      EvSpawnFailed ["pigz"; "-p"; "4"];
      EvClose "out.gz"; EvClose devnull;
      EvOpen "out.gz" "wt"; EvOpen devnull "wt"; EvSpawnFailed ["gzip"];
      EvClose "out.gz"; EvClose devnull;
      EvCodecOpen gz "out.gz" "wt" (Some 6%Z)],
     Return (CodecFile gz "out.gz" "wt" (Some 6%Z))) /\
  xopen full_world "data" "ab" (Some 8%Z) (Some 0%Z) =
    ([EvStat "data"; EvSniff "data" 6; EvCodecOpen gz "data" "ab" (Some 8%Z)],
     Return (CodecFile gz "data" "ab" (Some 8%Z))) /\
  existsb is_codec_open
    (trace (xopen full_world "out.gz" "w" None None)) = false.
Proof.
  assert (Hw : In "w" ["w"; "wt"; "wb"; "a"; "at"; "ab"]) by (simpl; auto).
  assert (Ha : In "ab" ["w"; "wt"; "wb"; "a"; "at"; "ab"])
    by (simpl; auto 10).
  destruct (inprocess_gzip_write_level bare_world "out.gz" "w" None None
              ltac:(discriminate) Hw eq_refl) as [_ [_ [Hfall _]]].
  destruct (inprocess_gzip_write_level full_world "data" "ab" (Some 8%Z)
              (Some 0%Z) ltac:(discriminate) Ha eq_refl) as [_ [_ [Hzero _]]].
  destruct (inprocess_gzip_write_level full_world "out.gz" "w" None None
              ltac:(discriminate) Hw eq_refl) as [_ [_ [_ Hstay]]].
  split; [| split].
  - apply Hfall. right. reflexivity.
  - apply Hzero. left. reflexivity.
  - apply Hstay; [reflexivity | discriminate].
Defined.

(** ** Compression levels on a gzip write, for every gzip path *)








(** A level out of range on a gzip file found by its content, opened for
    appending: the file has been looked at, nothing else. *)
Example level_out_of_range_after_sniff :
  xopen full_world "data" "ab" (Some 12%Z) None =
  ([EvStat "data"; EvSniff "data" 6],
   Raise (ValueError "compresslevel must be between 1 and 9")).
Proof. reflexivity. Qed.
